(** * Verification of the rule-evaluation engine of mobily_vrm_uc

    Shallow embedding of
      - [src/core/validation_engine.py]  (class [ValidationEngine])
      - [src/core/portal_validation.py]  ([_failure_reason_from_rule_id],
                                          [portal_report_to_field_results])
      - [src/schemas/validation_schemas.py], [src/schemas/portal_schemas.py]

    Layout: the Python run-time model ([Module Py]), the schemas, the engine
    and the per-field view (definitions), then the theorems.

    Conventions.  A Python [str] is a Rocq [string] whose characters stand
    for the code points 0..255.  A Python [int] is a [Z].  A function that
    may raise returns [Exc A]; [try/except] is a match on it.  The regular
    expression engine ([re.match]), the text of a float ([repr]) and the
    clock ([datetime.utcnow]) are taken as inputs of the engine. *)

From Stdlib Require Import ZArith List String Ascii Bool Lia.
From Stdlib Require Import Decimal DecimalString.
From Stdlib Require Import Floats.SpecFloat.
Import ListNotations.

Open Scope string_scope.
Open Scope Z_scope.

(* ================================================================== *)
(** * The Python run-time model *)
(* ================================================================== *)

Module Py.

(** ** Exceptions, and computations that may raise *)

(** The subclasses of [Exception] that the engine can meet.  [ReError] is
    [re.error] (an invalid pattern). *)
Inductive PyExc : Type :=
| AssertionError
| ValueError (msg : string)
| AttributeError (msg : string)
| TypeError (msg : string)
| OverflowError (msg : string)
| ReError (msg : string).

(** [str(exc)]: the message; a bare [assert] carries none. *)
Definition exc_str (e : PyExc) : string :=
  match e with
  | AssertionError => ""
  | ValueError m | AttributeError m | TypeError m
  | OverflowError m | ReError m => m
  end.

Inductive Exc (A : Type) : Type :=
| Ok (a : A)
| Raise (e : PyExc).
Arguments Ok {A} a.
Arguments Raise {A} e.

Definition bind {A B} (m : Exc A) (k : A -> Exc B) : Exc B :=
  match m with
  | Ok a => k a
  | Raise e => Raise e
  end.

(** [assert b] *)
Definition py_assert (b : bool) : Exc unit :=
  if b then Ok tt else Raise AssertionError.

(** ** Characters and strings *)

Definition code (c : ascii) : N := N_of_ascii c.

Definition in_range (lo hi : N) (c : ascii) : bool :=
  (N.leb lo (code c) && N.leb (code c) hi)%bool.

(** [str.isspace] on the code points 0..255: TAB..CR, FS..US, SPACE,
    NEL (0x85) and NBSP (0xA0). *)
Definition is_space (c : ascii) : bool :=
  (in_range 9 13 c || in_range 28 32 c
   || N.eqb (code c) 133 || N.eqb (code c) 160)%bool.

Definition is_digit (c : ascii) : bool := in_range 48 57 c.

Definition digit_val (c : ascii) : Z := Z.of_N (code c) - 48.

Fixpoint lstrip (s : string) : string :=
  match s with
  | EmptyString => EmptyString
  | String c r => if is_space c then lstrip r else s
  end.

Fixpoint rstrip (s : string) : string :=
  match s with
  | EmptyString => EmptyString
  | String c r =>
      match rstrip r with
      | EmptyString => if is_space c then EmptyString else String c EmptyString
      | r' => String c r'
      end
  end.

(** [s.strip()] *)
Definition strip (s : string) : string := rstrip (lstrip s).

(** [len(s)] *)
Definition len (s : string) : Z := Z.of_nat (String.length s).

(** [s.startswith(p)] *)
Definition startswith (p s : string) : bool := String.prefix p s.

(** [s.split(sep, 1)] for a two-character separator [c1 c2]: the text
    before and after the leftmost occurrence, or [None] when the separator
    does not occur (Python then returns the one-element list [[s]]). *)
Fixpoint split_once (c1 c2 : ascii) (s : string) : option (string * string) :=
  match s with
  | EmptyString => None
  | String a r =>
      match r with
      | String b r' =>
          if (Ascii.eqb a c1 && Ascii.eqb b c2)%bool then Some (EmptyString, r')
          else option_map (fun p => (String a (fst p), snd p)) (split_once c1 c2 r)
      | EmptyString => None
      end
  end.

(** [x in xs] for a list of strings *)
Definition str_in (x : string) (xs : list string) : bool :=
  existsb (String.eqb x) xs.

(** [str(n)] for an int *)
Definition int_str (n : Z) : string := NilZero.string_of_int (Z.to_int n).

Definition hex_digit (n : N) : ascii :=
  if N.ltb n 10 then ascii_of_N (48 + n) else ascii_of_N (87 + n).

Definition backslash : ascii := ascii_of_N 92.
Definition dquote : ascii := ascii_of_N 34.
Definition squote : ascii := ascii_of_N 39.

Definition escaped (c : ascii) : string := String backslash (String c EmptyString).

(** One character of [repr(s)], [q] being the quote in use. *)
Definition repr_char (q c : ascii) : string :=
  let n := code c in
  if (Ascii.eqb c q || N.eqb n 92)%bool then escaped c
  else if N.eqb n 9 then escaped "t"
  else if N.eqb n 10 then escaped "n"
  else if N.eqb n 13 then escaped "r"
  else if (N.ltb n 32 || in_range 127 160 c || N.eqb n 173)%bool
       then String backslash (String "x"
              (String (hex_digit (N.div n 16))
                 (String (hex_digit (N.modulo n 16)) EmptyString)))
  else String c EmptyString.

Fixpoint has_char (q : ascii) (s : string) : bool :=
  match s with
  | EmptyString => false
  | String c r => (Ascii.eqb c q || has_char q r)%bool
  end.

Fixpoint repr_chars (q : ascii) (s : string) : string :=
  match s with
  | EmptyString => EmptyString
  | String c r => repr_char q c ++ repr_chars q r
  end.

(** [repr(s)] for a str: single quotes, unless the text holds a single
    quote and no double quote. *)
Definition str_repr (s : string) : string :=
  let q := if (has_char squote s && negb (has_char dquote s))%bool
           then dquote else squote in
  String q (repr_chars q s ++ String q EmptyString).

(** ** JSON values as Python objects *)

#[local] Unset Elimination Schemes.

Inductive PyVal : Type :=
| VNone
| VBool (b : bool)
| VInt (n : Z)
| VFloat (f : spec_float)
| VStr (s : string)
| VList (l : list PyVal)
| VDict (d : list (string * PyVal)).

#[local] Set Elimination Schemes.

(** A [dict] with string keys, in insertion order. *)
Definition PyDict : Type := list (string * PyVal).

(** [type(v).__name__] *)
Definition type_name (v : PyVal) : string :=
  match v with
  | VNone => "NoneType"
  | VBool _ => "bool"
  | VInt _ => "int"
  | VFloat _ => "float"
  | VStr _ => "str"
  | VList _ => "list"
  | VDict _ => "dict"
  end.

(** [v is None] *)
Definition is_None (v : PyVal) : bool :=
  match v with VNone => true | _ => false end.

(** [bool(v)] *)
Definition truthy (v : PyVal) : bool :=
  match v with
  | VNone => false
  | VBool b => b
  | VInt n => negb (n =? 0)
  | VFloat (S754_zero _) => false
  | VFloat _ => true
  | VStr s => negb (String.eqb s "")
  | VList l => match l with [] => false | _ => true end
  | VDict d => match d with [] => false | _ => true end
  end.

(** [a or b] *)
Definition py_or (a b : PyVal) : PyVal := if truthy a then a else b.

(** [v in (None, "")]: equality with [None] or with the empty str. *)
Definition in_None_or_empty (v : PyVal) : bool :=
  match v with
  | VNone => true
  | VStr s => String.eqb s ""
  | _ => false
  end.

Fixpoint assoc {A} (k : string) (d : list (string * A)) : option A :=
  match d with
  | [] => None
  | (k', v) :: d' => if String.eqb k k' then Some v else assoc k d'
  end.

(** [d.get(k)] on a dict: [None] when the key is absent. *)
Definition dict_get (d : PyDict) (k : string) : PyVal :=
  match assoc k d with Some v => v | None => VNone end.

(** [v.get(k, default)] on an arbitrary object: only a dict has [get]. *)
Definition py_get (v : PyVal) (k : string) (default : PyVal) : Exc PyVal :=
  match v with
  | VDict d => Ok (match assoc k d with Some x => x | None => default end)
  | _ => Raise (AttributeError
                  ("'" ++ type_name v ++ "' object has no attribute 'get'"))
  end.

Section Repr.
(** [repr] of a float (the shortest text that reads back as the same
    float) is not computed here. *)
Variable float_str : spec_float -> string.

(** [repr(v)] *)
Fixpoint py_repr (v : PyVal) : string :=
  match v with
  | VNone => "None"
  | VBool true => "True"
  | VBool false => "False"
  | VInt n => int_str n
  | VFloat f => float_str f
  | VStr s => str_repr s
  | VList l => "[" ++ String.concat ", " (map py_repr l) ++ "]"
  | VDict d =>
      "{" ++ String.concat ", "
               (map (fun kv => match kv with
                               | (k, x) => str_repr k ++ ": " ++ py_repr x
                               end) d) ++ "}"
  end.

(** [str(v)] *)
Definition py_str (v : PyVal) : string :=
  match v with
  | VStr s => s
  | _ => py_repr v
  end.

(** [repr] of a list of str *)
Definition str_list_repr (l : list string) : string :=
  "[" ++ String.concat ", " (map str_repr l) ++ "]".
End Repr.

(** ** [int(...)] *)

(** Decimal digits with single underscores between them. *)
Fixpoint parse_digits (acc : Z) (after_digit : bool) (s : string) : option Z :=
  match s with
  | EmptyString => if after_digit then Some acc else None
  | String c r =>
      if is_digit c then parse_digits (10 * acc + digit_val c) true r
      else if (Ascii.eqb c "_" && after_digit)%bool then parse_digits acc false r
      else None
  end.

(** The value of an int literal: optional sign, then digits. *)
Definition parse_int (s : string) : option Z :=
  match s with
  | String "+" r => parse_digits 0 false r
  | String "-" r => option_map Z.opp (parse_digits 0 false r)
  | _ => parse_digits 0 false s
  end.

(** The white space that [int] skips at both ends of a str: the ASCII
    set of the C parser (TAB..CR and SPACE) and, above 127, the characters
    that are first turned into a space (NEL 0x85 and NBSP 0xA0 on the code
    points 0..255).  The separators FS..US (0x1C..0x1F), which [str.strip]
    removes, are not skipped: [int("3\x1c")] raises. *)
Definition is_int_space (c : ascii) : bool :=
  (in_range 9 13 c || N.eqb (code c) 32
   || N.eqb (code c) 133 || N.eqb (code c) 160)%bool.

Fixpoint int_lstrip (s : string) : string :=
  match s with
  | EmptyString => EmptyString
  | String c r => if is_int_space c then int_lstrip r else s
  end.

Fixpoint int_rstrip (s : string) : string :=
  match s with
  | EmptyString => EmptyString
  | String c r =>
      match int_rstrip r with
      | EmptyString => if is_int_space c then EmptyString else String c EmptyString
      | r' => String c r'
      end
  end.

(** [int(f)] for a float: truncation towards zero. *)
Definition float_trunc (f : spec_float) : Exc Z :=
  match f with
  | S754_zero _ => Ok 0
  | S754_infinity _ => Raise (OverflowError "cannot convert float infinity to integer")
  | S754_nan => Raise (ValueError "cannot convert float NaN to integer")
  | S754_finite s m e =>
      let a := if 0 <=? e then Z.pos m * 2 ^ e else Z.pos m / 2 ^ (- e) in
      Ok (if s then - a else a)
  end.

(** [int(v)] *)
Definition py_int (v : PyVal) : Exc Z :=
  match v with
  | VBool b => Ok (if b then 1 else 0)
  | VInt n => Ok n
  | VFloat f => float_trunc f
  | VStr s =>
      match parse_int (int_rstrip (int_lstrip s)) with
      | Some n => Ok n
      | None => Raise (ValueError
                         ("invalid literal for int() with base 10: " ++ str_repr s))
      end
  | _ => Raise (TypeError
                  ("int() argument must be a string, a bytes-like object or a real number, not '"
                     ++ type_name v ++ "'"))
  end.

(** ** [datetime.strptime] for the directives [%Y], [%m], [%d] *)

Record Date : Type := mkDate { year : Z; month : Z; day : Z }.

Inductive Directive : Type := dir_Y | dir_m | dir_d.

(** A format: directives and literal characters. *)
Inductive FmtTok : Type :=
| Dir (d : Directive)
| Lit (c : ascii).

Definition is_char (c : ascii) : ascii -> bool := Ascii.eqb c.

(** The regular expression of a directive in [_strptime.TimeRE]: its
    alternatives in order, each a sequence of character classes.
    [%Y] is [\d\d\d\d]; [%m] is [1[0-2]|0[1-9]|[1-9]];
    [%d] is [3[0-1]|[1-2]\d|0[1-9]|[1-9]| [1-9]]. *)
Definition directive_re (d : Directive) : list (list (ascii -> bool)) :=
  match d with
  | dir_Y => [[is_digit; is_digit; is_digit; is_digit]]
  | dir_m => [[is_char "1"; in_range 48 50];
              [is_char "0"; in_range 49 57];
              [in_range 49 57]]
  | dir_d => [[is_char "3"; in_range 48 49];
              [in_range 49 50; is_digit];
              [is_char "0"; in_range 49 57];
              [in_range 49 57];
              [is_char " "; in_range 49 57]]
  end.

(** Match one alternative at the head of [s]: the matched text and the rest. *)
Fixpoint match_alt (alt : list (ascii -> bool)) (s : string)
  : option (string * string) :=
  match alt with
  | [] => Some (EmptyString, s)
  | cls :: alt' =>
      match s with
      | String c r =>
          if cls c
          then option_map (fun p => (String c (fst p), snd p)) (match_alt alt' r)
          else None
      | EmptyString => None
      end
  end.

Fixpoint first_some {A B} (f : A -> option B) (l : list A) : option B :=
  match l with
  | [] => None
  | a :: l' => match f a with Some b => Some b | None => first_some f l' end
  end.

(** [re.match] of the format's regular expression, with backtracking over
    the alternatives: the text of each group, and the unmatched rest. *)
Fixpoint match_fmt (toks : list FmtTok) (s : string)
  : option (list (Directive * string) * string) :=
  match toks with
  | [] => Some ([], s)
  | Lit c :: toks' =>
      match s with
      | String c' r => if Ascii.eqb c c' then match_fmt toks' r else None
      | EmptyString => None
      end
  | Dir d :: toks' =>
      first_some
        (fun alt =>
           match match_alt alt s with
           | Some (txt, r) =>
               option_map (fun p => ((d, txt) :: fst p, snd p)) (match_fmt toks' r)
           | None => None
           end)
        (directive_re d)
  end.

(** [int(found_dict[d])]; a group never seen keeps the default [dflt]. *)
Definition group_int (d : Directive) (dflt : Z) (gs : list (Directive * string)) : Z :=
  match find (fun g => match fst g, d with
                       | dir_Y, dir_Y | dir_m, dir_m | dir_d, dir_d => true
                       | _, _ => false
                       end) gs with
  | Some (_, txt) => match parse_int (strip txt) with Some n => n | None => dflt end
  | None => dflt
  end.

Definition is_leap (y : Z) : bool :=
  ((y mod 4 =? 0) && (negb (y mod 100 =? 0) || (y mod 400 =? 0)))%bool.

Definition days_in_month (y m : Z) : Z :=
  if m =? 2 then (if is_leap y then 29 else 28)
  else if ((m =? 4) || (m =? 6) || (m =? 9) || (m =? 11))%bool then 30
  else 31.

(** The check made by the [date] constructor. *)
Definition valid_date (d : Date) : bool :=
  ((1 <=? year d) && (year d <=? 9999)
   && (1 <=? month d) && (month d <=? 12)
   && (1 <=? day d) && (day d <=? days_in_month (year d) (month d)))%bool.

(** [datetime.strptime(s, fmt).date()]; [None] stands for its [ValueError]
    (no match, unconverted data, or a day that the month does not have). *)
Definition strptime (s : string) (fmt : list FmtTok) : option Date :=
  match match_fmt fmt s with
  | Some (gs, EmptyString) =>
      let d := mkDate (group_int dir_Y 1900 gs) (group_int dir_m 1 gs)
                      (group_int dir_d 1 gs) in
      if valid_date d then Some d else None
  | _ => None
  end.

Definition pad (width : nat) (s : string) : string :=
  let fix zeros (n : nat) : string :=
    match n with O => EmptyString | S n' => String "0" (zeros n') end in
  zeros (width - String.length s)%nat ++ s.

(** [d.isoformat()] *)
Definition isoformat (d : Date) : string :=
  pad 4 (int_str (year d)) ++ "-" ++ pad 2 (int_str (month d))
    ++ "-" ++ pad 2 (int_str (day d)).

End Py.

Import Py.

Notation "x <- m ;; k" := (bind m (fun x => k))
  (at level 61, m at next level, right associativity).

(* ================================================================== *)
(** * The schemas ([src/schemas/validation_schemas.py]) *)
(* ================================================================== *)

(** [RuleStatus = Literal["PASS", "FAIL", "WARNING", "SKIP"]] *)
Inductive RuleStatus : Type := PASS | FAIL | WARNING | SKIP.

(** [Literal["error", "warning"]] *)
Inductive Severity : Type := error | warning.

(** [Literal["string", "number", "date", "boolean"]] *)
Inductive FieldType : Type := ft_string | ft_number | ft_date | ft_boolean.

Definition status_eqb (a b : RuleStatus) : bool :=
  match a, b with
  | PASS, PASS | FAIL, FAIL | WARNING, WARNING | SKIP, SKIP => true
  | _, _ => false
  end.

Record FlagExpectation : Type := mkFlagExpectation {
  flag_field : string;          (* field *)
  expected : bool
}.

(** [source] and [rule_type] are kept as the strings the code compares:
    both functions that read them have a branch for an unknown value. *)
Record FieldRef : Type := mkFieldRef {
  source : string;
  field : string;
  doc_type : option string
}.

Record PortalFieldValidation : Type := mkPortalFieldValidation {
  pf_type : FieldType;                      (* type *)
  required : bool;
  pattern : option string;
  pf_allowed_values : option (list string); (* allowed_values *)
  min_length : option Z;
  max_length : option Z;
  pf_description : option string            (* description *)
}.

Record CrossSourceRule : Type := mkCrossSourceRule {
  id : string;
  description : string;
  severity : Severity;
  rule_type : string;
  left : option FieldRef;
  right : option FieldRef;
  target : option FieldRef;
  allowed_values : option (list string);
  regex : option string;
  year_delta : option Z;
  min_pages : option Z;
  max_pages : option Z;
  flags : option (list FlagExpectation)
}.

Record ValidationConfig : Type := mkValidationConfig {
  portal_field_validations : list (string * PortalFieldValidation);
  cross_source_rules : list CrossSourceRule
}.

Record RuleResult : Type := mkRuleResult {
  rule_id : string;
  rr_description : string;       (* description *)
  rr_severity : Severity;        (* severity *)
  status : RuleStatus;
  message : string;
  context : list (string * string)
}.

Record ValidationReport : Type := mkValidationReport {
  summary_status : RuleStatus;
  results : list RuleResult
}.

(** [src/schemas/portal_schemas.py] *)
Record FieldValidationResult : Type := mkFieldValidationResult {
  field_name : string;
  value : option string;
  is_valid : bool;
  failure_reason : option string
}.

Record SupplierValidationResponse : Type := mkSupplierValidationResponse {
  supplier_id : string;
  sv_results : list FieldValidationResult   (* results *)
}.

(** Truth value of an [Optional[str]], of an [Optional[List]], and
    [x or d] for an [Optional[int]]. *)
Definition str_truthy (o : option string) : bool :=
  match o with
  | Some s => negb (String.eqb s "")
  | None => false
  end.

Definition list_truthy {A} (o : option (list A)) : bool :=
  match o with
  | Some (_ :: _) => true
  | _ => false
  end.

Definition int_or (o : option Z) (d : Z) : Z :=
  match o with
  | Some n => if n =? 0 then d else n
  | None => d
  end.

(** [str(b)] for a bool in an f-string *)
Definition bool_str (b : bool) : string := if b then "True" else "False".

(** [d[k] = v] on an insertion-ordered dict: a known key keeps its place. *)
Fixpoint dict_set {A} (k : string) (v : A) (d : list (string * A))
  : list (string * A) :=
  match d with
  | [] => [(k, v)]
  | (k', v') :: d' =>
      if String.eqb k k' then (k, v) :: d' else (k', v') :: dict_set k v d'
  end.

(** [docs_by_type.get(doc_type, {})] *)
Definition document (docs_by_type : PyDict) (dt : string) : PyVal :=
  match assoc dt docs_by_type with
  | Some d => d
  | None => VDict []
  end.

(** A regular-expression engine for patterns without metacharacters:
    [re.match] of such a pattern is a test for a prefix.  It instantiates
    the engine's [re.match] in the examples. *)
Definition literal_re_match (pat s : string) : Exc bool := Ok (String.prefix pat s).

(** A float printer for documents without floats (examples only). *)
Definition no_float_str (f : spec_float) : string := "nan".

(** ** The records of the endpoint and of the writer *)

(** [SupplierPayload] ([src/schemas/portal_schemas.py]) *)
Record SupplierPayload : Type := mkSupplierPayload {
  payload_supplier_id : string;      (* supplier_id *)
  payload_fields : PyDict            (* fields *)
}.

(** One row of [rows_to_insert]. *)
Record Row : Type := mkRow {
  row_supplier_id : string;
  row_field_name : string;
  row_field_value : option string;
  row_is_valid : bool;
  row_failure_reason : option string;
  row_created_at : string
}.

(** A call that returns nothing: it is done, or it raised an exception,
    kept as its message [str(exc)] (all that the endpoint reads of it). *)
Inductive Call : Type :=
| Done
| Raised (msg : string).

(** What a request gets: the response, an [HTTPException], or an exception
    that nothing in the handler catches. *)
Inductive HttpOutcome : Type :=
| Response (body : SupplierValidationResponse)
| HTTPException (status_code : Z) (detail : string)
| Unhandled (exc : PyExc).

(* ================================================================== *)
(** * Example configurations and documents *)
(* ================================================================== *)

Module Scenario.

Definition now_2025 : Date := mkDate 2025 6 1.

Definition portal_ref (f : string) : FieldRef :=
  {| source := "portal"; field := f; doc_type := None |}.

Definition doc_ref (dt f : string) : FieldRef :=
  {| source := "doc"; field := f; doc_type := Some dt |}.

(** A rule of the given type with no payload at all. *)
Definition bare_rule (rid ty : string) : CrossSourceRule :=
  {| id := rid; description := "a rule"; severity := error; rule_type := ty;
     left := None; right := None; target := None; allowed_values := None;
     regex := None; year_delta := None; min_pages := None; max_pages := None;
     flags := None |}.

(** An e-mail field: required, with a (literal) pattern and length bounds. *)
Definition email_cfg : PortalFieldValidation :=
  {| pf_type := ft_string; required := true; pattern := Some "a@";
     pf_allowed_values := None; min_length := Some 3; max_length := Some 20;
     pf_description := None |}.

(** An optional field with a set of allowed values. *)
Definition tier_cfg : PortalFieldValidation :=
  {| pf_type := ft_string; required := false; pattern := None;
     pf_allowed_values := Some ["gold"; "silver"]; min_length := None;
     max_length := None; pf_description := None |}.

(** Scenario D: [portal.cr_number] against [moc_certificate.cr_number]. *)
Definition cr_rule : CrossSourceRule :=
  {| id := "CR_MATCH"; description := "CR number matches"; severity := error;
     rule_type := "equality";
     left := Some (portal_ref "cr_number");
     right := Some (doc_ref "moc_certificate" "cr_number");
     target := None; allowed_values := None; regex := None; year_delta := None;
     min_pages := None; max_pages := None; flags := None |}.

Definition cr_portal : PyDict := [("cr_number", VStr "123")].

Definition cr_docs : PyDict :=
  [("moc_certificate", VDict [("fields", VDict [("cr_number", VStr " 123 ")])])].

(** Scenario E: between 1 and 5 pages. *)
Definition pages_rule : CrossSourceRule :=
  {| id := "NDA_PAGES"; description := "NDA page count"; severity := error;
     rule_type := "page_count_between";
     left := None; right := None; target := Some (doc_ref "nda" "pages");
     allowed_values := None; regex := None; year_delta := None;
     min_pages := Some 1; max_pages := Some 5; flags := None |}.

(** Scenario F: a date within one year of now. *)
Definition date_rule : CrossSourceRule :=
  {| id := "CERT_DATE"; description := "certificate is recent"; severity := warning;
     rule_type := "date_within_year";
     left := None; right := None; target := Some (portal_ref "issued");
     allowed_values := None; regex := None; year_delta := Some 1;
     min_pages := None; max_pages := None; flags := None |}.

(** A flags rule on the NDA, with the given expectations. *)
Definition flags_rule (fl : list FlagExpectation) : CrossSourceRule :=
  {| id := "NDA_FLAGS"; description := "NDA flags"; severity := warning;
     rule_type := "flags_match";
     left := None; right := None; target := Some (doc_ref "nda" "flags");
     allowed_values := None; regex := None; year_delta := None;
     min_pages := None; max_pages := None; flags := Some fl |}.

Definition config : ValidationConfig :=
  {| portal_field_validations := [("email", email_cfg); ("tier", tier_cfg)];
     cross_source_rules := [cr_rule; pages_rule; date_rule; bare_rule "X" "in_set"] |}.


End Scenario.

(** Further examples: an in_set rule, a regex rule, a raw extraction. *)
Module Sample.

Definition tier_rule : CrossSourceRule :=
  {| id := "TIER"; description := "tier is known"; severity := warning;
     rule_type := "in_set";
     left := None; right := None; target := Some (Scenario.portal_ref "tier");
     allowed_values := Some ["gold"; "silver"]; regex := None;
     year_delta := None; min_pages := None; max_pages := None; flags := None |}.

Definition mail_rule : CrossSourceRule :=
  {| id := "MAIL"; description := "mail looks right"; severity := error;
     rule_type := "regex";
     left := None; right := None; target := Some (Scenario.portal_ref "email");
     allowed_values := None; regex := Some "a@";
     year_delta := None; min_pages := None; max_pages := None; flags := None |}.

Definition old_date_rule : CrossSourceRule :=
  {| id := "DATE"; description := "no date can do"; severity := error;
     rule_type := "date_within_year";
     left := None; right := None; target := Some (Scenario.portal_ref "issued");
     allowed_values := None; regex := None; year_delta := Some (-1);
     min_pages := None; max_pages := None; flags := None |}.

Definition signed_nda : PyDict :=
  [("nda", VDict [("fields", VDict [("has_signature", VBool true)])])].

Definition two_flags : list FlagExpectation :=
  [ {| flag_field := "has_signature"; expected := true |};
    {| flag_field := "has_stamp"; expected := true |} ].

Definition portal : PyDict :=
  [("email", VStr "a@b.com"); ("tier", VStr "bronze")].

(** A raw extraction whose response is already a mapping. *)
Definition raw_nda : PyDict :=
  [("pages_count", VInt 3);
   ("response", VDict [("has_signature", VBool true)])].

(** A JSON parser that knows no text (the response above needs none). *)
Definition no_json (text : string) : option PyVal := None.

(** A table writer that accepts every row. *)
Definition accept_rows (table_id : string) (rows : list Row) : string + list PyVal :=
  inr [].

Definition payload : SupplierPayload :=
  {| payload_supplier_id := "S-1"; payload_fields := portal |}.

Definition portal_only_config : ValidationConfig :=
  {| portal_field_validations :=
       [("email", Scenario.email_cfg); ("tier", Scenario.tier_cfg)];
     cross_source_rules := [] |}.



End Sample.

(* ================================================================== *)
(** * The engine ([src/core/validation_engine.py]) *)
(* ================================================================== *)

Section Engine.

(** [re.match(pattern, s)]: whether there is a match at the start of [s],
    or the exception an invalid pattern raises. *)
Variable re_match : string -> string -> Exc bool.
(** [repr] of a float. *)
Variable float_str : spec_float -> string.
(** [datetime.utcnow().date()] *)
Variable utcnow : Date.

#[local] Abbreviation repr := (py_repr float_str).
#[local] Abbreviation str := (py_str float_str).

(** ** [_aggregate_status] *)

Definition _aggregate_status (results : list RuleResult) : RuleStatus :=
  let has_fail := existsb (fun r => status_eqb (status r) FAIL) results in
  let has_warning := existsb (fun r => status_eqb (status r) WARNING) results in
  if has_fail then FAIL
  else if has_warning then WARNING
  else PASS.

(** ** [_validate_portal_field] *)

Definition _validate_portal_field
  (field_name : string) (cfg : PortalFieldValidation) (portal_json : PyDict)
  : Exc (option RuleResult) :=
  let raw_value := dict_get portal_json field_name in
  if in_None_or_empty raw_value then
    if required cfg then
      Ok (Some {| rule_id := "PORTAL_FIELD_REQUIRED::" ++ field_name;
                  rr_description := field_name ++ " is required";
                  rr_severity := error;
                  status := FAIL;
                  message := "Field '" ++ field_name ++ "' is missing or empty.";
                  context := [] |})
    else Ok None                 (* optional & empty => no result *)
  else
    let value_str := str raw_value in
    (* regex pattern *)
    pattern_ok <- match pattern cfg with
                  | Some p => if str_truthy (Some p) then re_match p value_str
                              else Ok true
                  | None => Ok true
                  end ;;
    if negb pattern_ok then
      Ok (Some {| rule_id := "PORTAL_FIELD_PATTERN::" ++ field_name;
                  rr_description := field_name ++ " must match pattern";
                  rr_severity := error;
                  status := FAIL;
                  message := "Field '" ++ field_name ++ "' has invalid format: "
                               ++ str_repr value_str;
                  context := [] |})
    (* allowed values *)
    else if (list_truthy (pf_allowed_values cfg)
             && negb (str_in value_str
                        (match pf_allowed_values cfg with
                         | Some l => l
                         | None => []
                         end)))%bool then
      Ok (Some {| rule_id := "PORTAL_FIELD_IN_SET::" ++ field_name;
                  rr_description := field_name ++ " must be one of allowed values";
                  rr_severity := error;
                  status := FAIL;
                  message := "Field '" ++ field_name ++ "' has value "
                               ++ str_repr value_str ++ " not in "
                               ++ match pf_allowed_values cfg with
                                  | Some l => str_list_repr l
                                  | None => "None"
                                  end;
                  context := [] |})
    (* length checks *)
    else if match min_length cfg with
            | Some n => len value_str <? n
            | None => false
            end then
      Ok (Some {| rule_id := "PORTAL_FIELD_MIN_LEN::" ++ field_name;
                  rr_description := field_name ++ " must have at least "
                                      ++ match min_length cfg with
                                         | Some n => int_str n
                                         | None => "None"
                                         end ++ " characters";
                  rr_severity := error;
                  status := FAIL;
                  message := "Field '" ++ field_name ++ "' is too short";
                  context := [] |})
    else if match max_length cfg with
            | Some n => len value_str >? n
            | None => false
            end then
      Ok (Some {| rule_id := "PORTAL_FIELD_MAX_LEN::" ++ field_name;
                  rr_description := field_name ++ " must have at most "
                                      ++ match max_length cfg with
                                         | Some n => int_str n
                                         | None => "None"
                                         end ++ " characters";
                  rr_severity := error;
                  status := FAIL;
                  message := "Field '" ++ field_name ++ "' is too long";
                  context := [] |})
    (* if everything is fine, we still return a PASS *)
    else
      Ok (Some {| rule_id := "PORTAL_FIELD_OK::" ++ field_name;
                  rr_description := field_name ++ " basic validation";
                  rr_severity := warning;
                  status := PASS;
                  message := "Field '" ++ field_name ++ "' passed basic validation.";
                  context := [] |}).

(** ** [_resolve_field] *)

Definition _resolve_field
  (ref : FieldRef) (portal_json : PyDict) (docs_by_type : PyDict)
  : Exc (PyVal * string) :=
  if String.eqb (source ref) "portal" then
    Ok (dict_get portal_json (field ref), "portal." ++ field ref)
  else if String.eqb (source ref) "doc" then
    match doc_type ref with
    | Some dt =>
        if negb (str_truthy (Some dt))
        then Raise (ValueError "doc_type is required for doc source")
        else
          let doc := document docs_by_type dt in
          (* allow both {fields: {...}} and flat objects *)
          fields <- py_get doc "fields" doc ;;
          v <- py_get fields (field ref) VNone ;;
          Ok (v, dt ++ "." ++ field ref)
    | None => Raise (ValueError "doc_type is required for doc source")
    end
  else Raise (ValueError ("Unknown source " ++ source ref)).

(** The result every rule evaluator builds: the rule's own id, description
    and severity, with a status, a message and a context. *)
Definition result_of (rule : CrossSourceRule) (st : RuleStatus)
  (msg : string) (ctx : list (string * string)) : RuleResult :=
  {| rule_id := id rule;
     rr_description := description rule;
     rr_severity := severity rule;
     status := st;
     message := msg;
     context := ctx |}.

(** ** [_rule_equality] *)

Definition _rule_equality
  (rule : CrossSourceRule) (portal_json : PyDict) (docs_by_type : PyDict)
  : Exc RuleResult :=
  match left rule, right rule with
  | Some l, Some r =>
      lv <- _resolve_field l portal_json docs_by_type ;;
      rv <- _resolve_field r portal_json docs_by_type ;;
      let (left_val, left_path) := lv in
      let (right_val, right_path) := rv in
      if (is_None left_val || is_None right_val)%bool then
        Ok (result_of rule FAIL
              ("Missing values: " ++ left_path ++ "=" ++ repr left_val ++ ", "
                 ++ right_path ++ "=" ++ repr right_val)
              [("left_path", left_path); ("right_path", right_path)])
      else if String.eqb (strip (str left_val)) (strip (str right_val)) then
        Ok (result_of rule PASS
              ("Values match for " ++ left_path ++ " and " ++ right_path)
              [("left", str left_val); ("right", str right_val)])
      else
        Ok (result_of rule FAIL
              ("Values differ: " ++ left_path ++ "=" ++ repr left_val ++ ", "
                 ++ right_path ++ "=" ++ repr right_val)
              [("left", str left_val); ("right", str right_val)])
  | _, _ => Raise AssertionError          (* assert rule.left and rule.right *)
  end.

(** ** [_rule_in_set] *)

Definition _rule_in_set
  (rule : CrossSourceRule) (portal_json : PyDict) (docs_by_type : PyDict)
  : Exc RuleResult :=
  match target rule, allowed_values rule with
  | Some t, Some (a :: al) =>
      vp <- _resolve_field t portal_json docs_by_type ;;
      let (value, path) := vp in
      if is_None value then
        Ok (result_of rule FAIL ("Missing value at " ++ path) [])
      else
        let value_str := str value in
        if str_in value_str (a :: al) then
          Ok (result_of rule PASS
                (path ++ " value " ++ str_repr value_str ++ " is allowed") [])
        else
          Ok (result_of rule FAIL
                (path ++ " value " ++ str_repr value_str
                   ++ " is not in allowed set " ++ str_list_repr (a :: al)) [])
  | _, _ => Raise AssertionError   (* assert rule.target and rule.allowed_values *)
  end.

(** ** [_rule_regex] *)

Definition _rule_regex
  (rule : CrossSourceRule) (portal_json : PyDict) (docs_by_type : PyDict)
  : Exc RuleResult :=
  match target rule, regex rule with
  | Some t, Some re =>
      _ <- py_assert (str_truthy (Some re)) ;;
      vp <- _resolve_field t portal_json docs_by_type ;;
      let (value, path) := vp in
      let value_str := if is_None value then "" else str value in
      m <- re_match re value_str ;;
      if m then
        Ok (result_of rule PASS (path ++ " value matches regex") [])
      else
        Ok (result_of rule FAIL
              (path ++ " value " ++ str_repr value_str
                 ++ " does not match regex " ++ str_repr re) [])
  | _, _ => Raise AssertionError          (* assert rule.target and rule.regex *)
  end.

(** ** [_parse_date] *)

(** [("%Y-%m-%d", "%d/%m/%Y", "%d-%m-%Y", "%d.%m.%Y")] *)
Definition date_formats : list (list FmtTok) :=
  [ [Dir dir_Y; Lit "-"; Dir dir_m; Lit "-"; Dir dir_d];
    [Dir dir_d; Lit "/"; Dir dir_m; Lit "/"; Dir dir_Y];
    [Dir dir_d; Lit "-"; Dir dir_m; Lit "-"; Dir dir_Y];
    [Dir dir_d; Lit "."; Dir dir_m; Lit "."; Dir dir_Y] ].

(** The loop over the formats: the first one that parses returns. *)
Fixpoint try_formats (value : string) (fmts : list (list FmtTok)) : option Date :=
  match fmts with
  | [] => None
  | fmt :: rest =>
      match strptime value fmt with
      | Some d => Some d
      | None => try_formats value rest       (* except ValueError: continue *)
      end
  end.

Definition _parse_date (value : string) : Exc Date :=
  let value := strip value in
  match try_formats value date_formats with
  | Some d => Ok d
  | None => Raise (ValueError ("Unsupported date format " ++ str_repr value))
  end.

(** ** [_rule_date_within_year] *)

Definition _rule_date_within_year
  (rule : CrossSourceRule) (portal_json : PyDict) (docs_by_type : PyDict)
  : Exc RuleResult :=
  match target rule with
  | Some t =>
      vp <- _resolve_field t portal_json docs_by_type ;;
      let (value, path) := vp in
      if negb (truthy value) then
        Ok (result_of rule FAIL (path ++ " is missing") [])
      else
        let year_delta := int_or (year_delta rule) 0 in
        match _parse_date (str value) with
        | Raise (ValueError exc) =>
            Ok (result_of rule FAIL (path ++ " date parse error: " ++ exc) [])
        | Raise e => Raise e
        | Ok dt =>
            let now := utcnow in
            let diff_years := Z.abs (year now - year dt) in
            if diff_years <=? year_delta then
              Ok (result_of rule PASS
                    (path ++ " date " ++ isoformat dt ++ " is within "
                       ++ int_str year_delta ++ " year(s) of now") [])
            else
              Ok (result_of rule FAIL
                    (path ++ " date " ++ isoformat dt ++ " is older than "
                       ++ int_str year_delta ++ " year(s)") [])
        end
  | None => Raise AssertionError          (* assert rule.target *)
  end.

(** ** [_rule_page_count] *)

Definition _rule_page_count
  (rule : CrossSourceRule) (portal_json : PyDict) (docs_by_type : PyDict)
  : Exc RuleResult :=
  match target rule with
  | Some t =>
      if negb (str_truthy (doc_type t)) then
        Raise (ValueError "page_count_between rule requires target.doc_type")
      else
        let doc_type := match doc_type t with Some dt => dt | None => "" end in
        let doc := document docs_by_type doc_type in
        (* pages = doc.get("pages") or doc.get("page_count") *)
        p1 <- py_get doc "pages" VNone ;;
        pages <- (if truthy p1 then Ok p1 else py_get doc "page_count" VNone) ;;
        page_count <- match pages with
                      | VList l => Ok (Z.of_nat (List.length l))
                      | _ => py_int (py_or pages (VInt 0))
                      end ;;
        let min_pages := int_or (min_pages rule) 0 in
        let max_pages := int_or (max_pages rule) (10 ^ 9) in
        if ((min_pages <=? page_count) && (page_count <=? max_pages))%bool then
          Ok (result_of rule PASS
                (doc_type ++ " has " ++ int_str page_count ++ " pages (within ["
                   ++ int_str min_pages ++ ", " ++ int_str max_pages ++ "])") [])
        else
          Ok (result_of rule FAIL
                (doc_type ++ " has " ++ int_str page_count
                   ++ " pages (expected between " ++ int_str min_pages
                   ++ " and " ++ int_str max_pages ++ ")") [])
  | None => Raise AssertionError          (* assert rule.target *)
  end.

(** ** [_rule_flags_match] *)

(** The loop that collects [(fname, expected, actual)] for each flag whose
    actual value differs from the expected one. *)
Fixpoint flag_mismatches (fields : PyVal) (fl : list FlagExpectation)
  : Exc (list (string * bool * bool)) :=
  match fl with
  | [] => Ok []
  | flag :: rest =>
      let fname := flag_field flag in
      let expected := expected flag in
      v <- py_get fields fname VNone ;;
      let actual := truthy v in
      ms <- flag_mismatches fields rest ;;
      Ok (if negb (Bool.eqb actual expected)
          then (fname, expected, actual) :: ms
          else ms)
  end.

Definition _rule_flags_match
  (rule : CrossSourceRule) (portal_json : PyDict) (docs_by_type : PyDict)
  : Exc RuleResult :=
  match target rule, flags rule with
  | Some t, Some (f :: fl) =>
      if negb (str_truthy (doc_type t)) then
        Raise (ValueError "flags_match rule requires target.doc_type")
      else
        let doc_type := match doc_type t with Some dt => dt | None => "" end in
        let doc := document docs_by_type doc_type in
        fields <- py_get doc "fields" doc ;;
        mismatches <- flag_mismatches fields (f :: fl) ;;
        match mismatches with
        | [] =>
            Ok (result_of rule PASS
                  ("All required flags present for " ++ doc_type) [])
        | _ :: _ =>
            let details :=
              String.concat ", "
                (map (fun m => match m with
                               | (name, exp, act) =>
                                   name ++ "=expected " ++ bool_str exp
                                     ++ ", got " ++ bool_str act
                               end) mismatches) in
            Ok (result_of rule FAIL
                  ("Flag mismatches for " ++ doc_type ++ ": " ++ details) [])
        end
  | _, _ => Raise AssertionError          (* assert rule.target and rule.flags *)
  end.

(** ** [_apply_rule]: the dispatcher *)

(** The body of the [try]. *)
Definition dispatch
  (rule : CrossSourceRule) (portal_json : PyDict) (docs_by_type : PyDict)
  : Exc RuleResult :=
  if String.eqb (rule_type rule) "equality" then
    _rule_equality rule portal_json docs_by_type
  else if String.eqb (rule_type rule) "in_set" then
    _rule_in_set rule portal_json docs_by_type
  else if String.eqb (rule_type rule) "regex" then
    _rule_regex rule portal_json docs_by_type
  else if String.eqb (rule_type rule) "date_within_year" then
    _rule_date_within_year rule portal_json docs_by_type
  else if String.eqb (rule_type rule) "page_count_between" then
    _rule_page_count rule portal_json docs_by_type
  else if String.eqb (rule_type rule) "flags_match" then
    _rule_flags_match rule portal_json docs_by_type
  else
    Ok (result_of rule SKIP
          ("Unknown rule_type " ++ str_repr (rule_type rule)) []).

Definition _apply_rule
  (rule : CrossSourceRule) (portal_json : PyDict) (docs_by_type : PyDict)
  : RuleResult :=
  match dispatch rule portal_json docs_by_type with
  | Ok res => res
  | Raise exc =>
      (* defensive: never crash the whole run because of one rule *)
      result_of rule FAIL ("Exception while applying rule: " ++ exc_str exc) []
  end.

(** ** [validate] *)

(** 1) portal-only checks: the loop over [portal_field_validations.items()];
    an exception of [_validate_portal_field] leaves the loop and [validate]. *)
Fixpoint portal_checks
  (fields : list (string * PortalFieldValidation)) (portal_json : PyDict)
  : Exc (list RuleResult) :=
  match fields with
  | [] => Ok []
  | (field_name, field_cfg) :: rest =>
      res <- _validate_portal_field field_name field_cfg portal_json ;;
      more <- portal_checks rest portal_json ;;
      Ok (match res with
          | Some r => r :: more
          | None => more
          end)
  end.

(** 2) cross-source rules *)
Definition cross_checks
  (rules : list CrossSourceRule) (portal_json : PyDict) (docs_by_type : PyDict)
  : list RuleResult :=
  map (fun rule => _apply_rule rule portal_json docs_by_type) rules.

Definition validate
  (config : ValidationConfig) (portal_json : PyDict) (docs_by_type : PyDict)
  : Exc ValidationReport :=
  portal_results <- portal_checks (portal_field_validations config) portal_json ;;
  let results :=
    (portal_results
       ++ cross_checks (cross_source_rules config) portal_json docs_by_type)%list in
  let summary_status := _aggregate_status results in
  Ok {| summary_status := summary_status; results := results |}.

(* ================================================================== *)
(** * The per-field view ([src/core/portal_validation.py]) *)
(* ================================================================== *)

(** [rule_id.split("::", 1)[0]] *)
Definition rule_id_prefix (rule_id : string) : string :=
  match split_once ":" ":" rule_id with
  | Some (p, _) => p
  | None => rule_id
  end.

Definition _failure_reason_from_rule_id (rule_id : string) : string :=
  let prefix := rule_id_prefix rule_id in
  if String.eqb prefix "PORTAL_FIELD_REQUIRED" then "MISSING_REQUIRED"
  else if String.eqb prefix "PORTAL_FIELD_PATTERN" then "PATTERN_MISMATCH"
  else if String.eqb prefix "PORTAL_FIELD_IN_SET" then "INVALID_VALUE"
  else if String.eqb prefix "PORTAL_FIELD_MIN_LEN" then "MIN_LENGTH"
  else if String.eqb prefix "PORTAL_FIELD_MAX_LEN" then "MAX_LENGTH"
  else "GENERIC_FAIL".

(** The [FieldValidationResult] built from one surfaced rule result. *)
Definition field_result_of
  (rule_res : RuleResult) (field_name : string) (portal_json : PyDict)
  : FieldValidationResult :=
  let raw_val := dict_get portal_json field_name in
  let value_str := if is_None raw_val then None else Some (str raw_val) in
  if status_eqb (status rule_res) PASS then
    {| field_name := field_name; value := value_str;
       is_valid := true; failure_reason := None |}
  else
    {| field_name := field_name; value := value_str;
       is_valid := false;
       failure_reason := Some (_failure_reason_from_rule_id (rule_id rule_res)) |}.

(** One turn of the loop over [report.results], on the dict [by_field]. *)
Definition field_results_step
  (portal_json : PyDict) (by_field : list (string * FieldValidationResult))
  (rule_res : RuleResult) : list (string * FieldValidationResult) :=
  if negb (startswith "PORTAL_FIELD_" (rule_id rule_res)) then
    by_field          (* skip cross-source rules; this endpoint is portal-only *)
  else
    match split_once ":" ":" (rule_id rule_res) with
    | None => by_field                       (* unexpected format; skip *)
    | Some (_, field_name) =>
        dict_set field_name (field_result_of rule_res field_name portal_json)
          by_field
    end.

Definition portal_report_to_field_results
  (report : ValidationReport) (portal_json : PyDict)
  : list FieldValidationResult :=
  let by_field := fold_left (field_results_step portal_json) (results report) [] in
  map snd by_field.             (* list(by_field.values()) *)

(** [ENGINE], loaded once at start-up from the configuration file, is the
    argument [config]. *)
Definition validate_portal_fields_for_supplier
  (config : ValidationConfig) (supplier_id : string) (portal_fields : PyDict)
  : Exc SupplierValidationResponse :=
  report <- validate config portal_fields [] ;;
  let field_results := portal_report_to_field_results report portal_fields in
  Ok {| supplier_id := supplier_id; sv_results := field_results |}.

(* ================================================================== *)
(** * The helpers ([src/helpers/utils.py]) *)
(* ================================================================== *)

Section Helpers.

(** [json.loads(text)]: the parsed value, or [None] for the
    [json.JSONDecodeError] of a text that is not JSON. *)
Variable json_loads : string -> option PyVal.

(** [[m.group(0) for m in re.finditer(r"\{.*?\}", text, flags=re.DOTALL)]]:
    from the left, each opening brace with the text up to the next closing
    brace; [open] holds the snippet begun and not yet closed. *)
Fixpoint brace_snippets_from (open : option string) (text : string) : list string :=
  match text with
  | EmptyString => []
  | String c r =>
      match open with
      | None =>
          if Ascii.eqb c "{" then brace_snippets_from (Some (String c EmptyString)) r
          else brace_snippets_from None r
      | Some snippet =>
          if Ascii.eqb c "}"
          then (snippet ++ String c EmptyString) :: brace_snippets_from None r
          else brace_snippets_from (Some (snippet ++ String c EmptyString)) r
      end
  end.

Definition brace_snippets (text : string) : list string :=
  brace_snippets_from None text.

(** [json.loads(s)] kept when it is a dict. *)
Definition loads_dict (s : string) : option PyVal :=
  match json_loads s with
  | Some (VDict d) => Some (VDict d)
  | _ => None
  end.

(** ** [parse_response_json] *)

Definition parse_response_json (raw : PyDict) : PyVal :=
  let resp := match assoc "response" raw with
              | Some v => v
              | None => VStr ""
              end in
  match resp with
  | VDict _ => resp                              (* already a dict *)
  | VStr s =>
      let text := strip s in
      (* 1) try direct JSON *)
      match loads_dict text with
      | Some obj => obj
      | None =>
          (* 2) fallback: the last {...} of the text that parses *)
          let candidates :=
            flat_map (fun snippet => match loads_dict snippet with
                                     | Some obj => [obj]
                                     | None => []
                                     end)
                     (brace_snippets text) in
          match candidates with
          | [] => VDict []
          | _ :: _ => List.last candidates (VDict [])   (* candidates[-1] *)
          end
      end
  | _ => VDict []
  end.

(** ** [convert_simple_doc] *)

Definition convert_simple_doc (raw_json : PyDict) (doc_type : string) : PyVal :=
  let page_count := dict_get raw_json "pages_count" in
  let fields := parse_response_json raw_json in
  VDict [ ("doc_type", VStr doc_type);
          ("page_count", page_count);
          ("fields", fields) ].

End Helpers.

(** ** [extract_cr_from_portal]

    The module defines this function twice; the second definition is the
    one in force.  [extract_cr_from_portal_first] is the first one. *)

Definition candidate_keys : list string :=
  [ "CR Number"; "Cr Number"; "cr_number"; "crNumber";
    "commercial_registration_number"; "commercialRegistrationNumber" ].

(** The loop [for key in candidate_keys: if key in d and d[key]: return
    str(d[key]).strip()]; [None] when it runs to its end. *)
Fixpoint first_cr_in (d : PyDict) (keys : list string) : option string :=
  match keys with
  | [] => None
  | key :: rest =>
      match assoc key d with
      | Some v => if truthy v then Some (strip (str v)) else first_cr_in d rest
      | None => first_cr_in d rest
      end
  end.

Definition extract_cr_from_portal_first (portal_json : PyDict) : option string :=
  (* 1) direct top-level keys *)
  match first_cr_in portal_json candidate_keys with
  | Some cr => Some cr
  | None =>
      (* 2) nested under "basic_info" *)
      let basic_info := py_or (dict_get portal_json "basic_info")
                              (dict_get portal_json "basicInfo") in
      match basic_info with
      | VDict section => first_cr_in section candidate_keys
      | _ => None
      end
  end.

(** The loop over the container keys of the second definition. *)
Fixpoint first_cr_in_sections (portal_json : PyDict) (containers : list string)
  : option string :=
  match containers with
  | [] => None
  | container_key :: rest =>
      match dict_get portal_json container_key with
      | VDict section =>
          match first_cr_in section candidate_keys with
          | Some cr => Some cr
          | None => first_cr_in_sections portal_json rest
          end
      | _ => first_cr_in_sections portal_json rest
      end
  end.

Definition extract_cr_from_portal (portal_json : PyDict) : option string :=
  (* 1) direct top-level keys *)
  match first_cr_in portal_json candidate_keys with
  | Some cr => Some cr
  | None =>
      (* 2) nested 'basic_info' or similar *)
      first_cr_in_sections portal_json
        ["basic_info"; "basicInfo"; "Basic Information"]
  end.

(* ================================================================== *)
(** * The writer ([src/helpers/bq_storage.py]) and the endpoint ([app.py]) *)
(* ================================================================== *)

Section Storage.

(** [os.getenv("BQ_PROJECT")], [None] when unset; the dataset and the table
    (with their defaults when unset). *)
Variable BQ_PROJECT : option string.
Variable BQ_DATASET : string.
Variable BQ_TABLE : string.
(** [bigquery.Client(project=...).insert_rows_json(table_id, rows)]: the
    list of errors, or the message of the exception it raises. *)
Variable insert_rows_json : string -> list Row -> string + list PyVal.
(** [datetime.utcnow().isoformat()] *)
Variable now_iso : string.

(** ** [get_bq_client] *)
Definition get_bq_client : Call :=
  if negb (str_truthy BQ_PROJECT)
  then Raised "BQ_PROJECT env variable must be set"
  else Done.

(** ** [write_portal_field_results] *)
Definition write_portal_field_results
  (supplier_id : string) (results : list FieldValidationResult) : Call :=
  match get_bq_client with
  | Raised msg => Raised msg
  | Done =>
      let table_id := match BQ_PROJECT with Some p => p | None => "None" end
                        ++ "." ++ BQ_DATASET ++ "." ++ BQ_TABLE in
      let now := now_iso in
      let rows_to_insert :=
        map (fun r => {| row_supplier_id := supplier_id;
                         row_field_name := field_name r;
                         row_field_value := value r;
                         row_is_valid := is_valid r;
                         row_failure_reason := failure_reason r;
                         row_created_at := now |})
            results in
      match insert_rows_json table_id rows_to_insert with
      | inl msg => Raised msg
      | inr errors =>
          match errors with
          | [] => Done
          | _ :: _ =>
              (* let caller see the error *)
              Raised ("Failed to insert into BigQuery: " ++ repr (VList errors))
          end
      end
  end.

(** ** [validate_portal_fields]: the handler of [/validate-portal-fields] *)
Definition validate_portal_fields
  (config : ValidationConfig) (payload : SupplierPayload) : HttpOutcome :=
  (* 1) run validation *)
  match validate_portal_fields_for_supplier config
          (payload_supplier_id payload) (payload_fields payload) with
  | Raise exc => Unhandled exc
  | Ok response =>
      (* 2) write to BigQuery *)
      match write_portal_field_results (payload_supplier_id payload)
              (sv_results response) with
      | Raised exc =>
          HTTPException 500 ("BigQuery insert failed: " ++ exc)
      | Done =>
          (* 3) return response *)
          Response response
      end
  end.

End Storage.

(* ================================================================== *)
(** * The specification's wording, for comparison with the code *)
(* ================================================================== *)

(** ** The precedence of the portal checks (specification, section 4.2)

    These definitions follow the specification, not the code: the checks
    after the presence check, in their order of precedence, each with the
    prefix of its rule id and whether it fails; the outcome is the first
    check that fails. *)

Inductive PortalOutcome : Type :=
| NoResult
| Fails (prefix : string)
| Passes.

Definition spec_checks (cfg : PortalFieldValidation) (value_str : string)
  (pattern_matches : bool) : list (string * bool) :=
  [ ("PORTAL_FIELD_PATTERN",
     (str_truthy (pattern cfg) && negb pattern_matches)%bool);
    ("PORTAL_FIELD_IN_SET",
     match pf_allowed_values cfg with
     | Some (a :: l) => negb (str_in value_str (a :: l))
     | _ => false
     end);
    ("PORTAL_FIELD_MIN_LEN",
     match min_length cfg with
     | Some n => len value_str <? n
     | None => false
     end);
    ("PORTAL_FIELD_MAX_LEN",
     match max_length cfg with
     | Some n => len value_str >? n
     | None => false
     end) ].

Fixpoint first_failing (checks : list (string * bool)) : option string :=
  match checks with
  | [] => None
  | (prefix, fails) :: rest => if fails then Some prefix else first_failing rest
  end.

Definition spec_portal_outcome (cfg : PortalFieldValidation) (raw_value : PyVal)
  (pattern_matches : bool) : PortalOutcome :=
  if in_None_or_empty raw_value then
    if required cfg then Fails "PORTAL_FIELD_REQUIRED" else NoResult
  else
    match first_failing (spec_checks cfg (str raw_value) pattern_matches) with
    | Some prefix => Fails prefix
    | None => Passes
    end.

(** The result that an outcome stands for. *)
Definition outcome_matches (field_name : string) (o : PortalOutcome)
  (res : option RuleResult) : Prop :=
  match o, res with
  | NoResult, None => True
  | Fails prefix, Some r =>
      rule_id r = prefix ++ "::" ++ field_name
      /\ status r = FAIL /\ rr_severity r = error
  | Passes, Some r =>
      rule_id r = "PORTAL_FIELD_OK::" ++ field_name
      /\ status r = PASS /\ rr_severity r = warning
  | _, _ => False
  end.

(** ** Shapes of results and of payloads *)

(** A result built by a rule evaluator: the rule's id, description and
    severity, and a status PASS or FAIL. *)
Definition verdict_of (rule : CrossSourceRule) (r : RuleResult) : Prop :=
  exists st msg ctx, r = result_of rule st msg ctx /\ (st = PASS \/ st = FAIL).

(** A doc-source field reference without a document type. *)
Definition ref_lacks_doc_type (ref : FieldRef) : bool :=
  (String.eqb (source ref) "doc" && negb (str_truthy (doc_type ref)))%bool.

(** The malformed payloads that the specification names (sections 4.3, 7
    and 8): a missing [target], a missing [left] or [right], a doc-source
    reference without document type, and a [page_count_between] or
    [flags_match] rule whose target has no document type. *)
Definition malformed_payload (rule : CrossSourceRule) : bool :=
  let ty := rule_type rule in
  if String.eqb ty "equality" then
    match left rule, right rule with
    | Some l, Some r => (ref_lacks_doc_type l || ref_lacks_doc_type r)%bool
    | _, _ => true
    end
  else if (String.eqb ty "in_set" || String.eqb ty "regex"
           || String.eqb ty "date_within_year")%bool then
    match target rule with
    | Some t => ref_lacks_doc_type t
    | None => true
    end
  else if (String.eqb ty "page_count_between"
           || String.eqb ty "flags_match")%bool then
    match target rule with
    | Some t => negb (str_truthy (doc_type t))
    | None => true
    end
  else false.

(** ** The order of the date formats (specification, section 4.3) *)

(** Among the formats [fmts], taken in order, [d] is what the first format
    that parses [s] gives. *)
Definition first_parse (fmts : list (list FmtTok)) (s : string) (d : Date) : Prop :=
  exists i fmt,
    nth_error fmts i = Some fmt
    /\ strptime s fmt = Some d
    /\ forall j fmt', (j < i)%nat -> nth_error fmts j = Some fmt' ->
                      strptime s fmt' = None.

(** No format of [fmts] parses [s]. *)
Definition no_parse (fmts : list (list FmtTok)) (s : string) : Prop :=
  forall fmt, In fmt fmts -> strptime s fmt = None.

(** [rule.year_delta or 0] in the words of the specification: the
    configured value, 0 when unset. *)
Definition year_delta_or_default (rule : CrossSourceRule) : Z :=
  match year_delta rule with
  | Some n => n
  | None => 0
  end.

(** ** The page count (specification, section 4.3)

    [claimed_page_count] and [claimed_page_status] follow the words of the
    specification: the length of the [pages] list if that list is present,
    else the integer cast of [page_count] (0 if absent or falsy); PASS when
    the count lies between [minPages] (default 0) and [maxPages] (no bound
    by default). *)



(** The amended wording: the page value is [pages] when that is truthy,
    else [page_count]; the count is the length of a list, else the integer
    cast of the value (0 when it is falsy); the bounds are [minPages]
    (0 when unset) and [maxPages] (10^9 when unset). *)






(** ** The reason codes (specification, section 6)

    The table of the specification, from the prefix of a rule id to a
    reason code; a prefix that is not in the table gives "GENERIC_FAIL". *)

Definition reason_codes : list (string * string) :=
  [ ("PORTAL_FIELD_REQUIRED", "MISSING_REQUIRED");
    ("PORTAL_FIELD_PATTERN", "PATTERN_MISMATCH");
    ("PORTAL_FIELD_IN_SET", "INVALID_VALUE");
    ("PORTAL_FIELD_MIN_LEN", "MIN_LENGTH");
    ("PORTAL_FIELD_MAX_LEN", "MAX_LENGTH") ].

Definition spec_failure_reason (prefix : string) : string :=
  match assoc prefix reason_codes with
  | Some code => code
  | None => "GENERIC_FAIL"
  end.

(** A rule result that the per-field view looks at: its id starts with
    "PORTAL_FIELD_". *)
Definition is_portal_result (r : RuleResult) : bool :=
  startswith "PORTAL_FIELD_" (rule_id r).

(** The entry [fr] of the per-field view comes from the rule result [r]. *)
Definition surfaced_from (r : RuleResult) (fr : FieldValidationResult) : Prop :=
  exists prefix,
    is_portal_result r = true
    /\ split_once ":" ":" (rule_id r) = Some (prefix, field_name fr)
    /\ (status r = PASS -> is_valid fr = true /\ failure_reason fr = None)
    /\ (status r <> PASS ->
        is_valid fr = false
        /\ failure_reason fr = Some (spec_failure_reason prefix)).

(** ** Rule identifiers (specification, section 3)

    The prefixes of the rule ids of portal checks. *)
Definition portal_prefixes : list string :=
  [ "PORTAL_FIELD_REQUIRED"; "PORTAL_FIELD_PATTERN"; "PORTAL_FIELD_IN_SET";
    "PORTAL_FIELD_MIN_LEN"; "PORTAL_FIELD_MAX_LEN"; "PORTAL_FIELD_OK" ].

(** ** Severities

    A rule with another severity, and a result with another severity. *)
Definition with_severity (s : Severity) (rule : CrossSourceRule) : CrossSourceRule :=
  {| id := id rule; description := description rule; severity := s;
     rule_type := rule_type rule; left := left rule; right := right rule;
     target := target rule; allowed_values := allowed_values rule;
     regex := regex rule; year_delta := year_delta rule;
     min_pages := min_pages rule; max_pages := max_pages rule;
     flags := flags rule |}.

Definition result_with_severity (s : Severity) (r : RuleResult) : RuleResult :=
  {| rule_id := rule_id r; rr_description := rr_description r;
     rr_severity := s; status := status r; message := message r;
     context := context r |}.

Definition exc_map {A B} (f : A -> B) (m : Exc A) : Exc B :=
  match m with
  | Ok a => Ok (f a)
  | Raise e => Raise e
  end.

(** ** White space

    A string of white-space characters only. *)
Fixpoint all_space (s : string) : bool :=
  match s with
  | EmptyString => true
  | String c r => (is_space c && all_space r)%bool
  end.

(** ** The per-field view of a run

    The entries that the portal checks of a configuration give: one for
    each configured field whose check returns a result, in the order of
    the configuration. *)
Definition portal_entries
  (fields : list (string * PortalFieldValidation)) (portal_json : PyDict)
  : list FieldValidationResult :=
  flat_map (fun fc => match _validate_portal_field (fst fc) (snd fc) portal_json with
                      | Ok (Some r) => [field_result_of r (fst fc) portal_json]
                      | _ => []
                      end)
           fields.

(** ** The constraints of a portal field

    A raw value is present and meets every configured constraint. *)
Definition meets_constraints (cfg : PortalFieldValidation) (raw : PyVal) : Prop :=
  in_None_or_empty raw = false
  /\ (forall p, pattern cfg = Some p -> p <> "" -> re_match p (str raw) = Ok true)
  /\ (forall allowed, pf_allowed_values cfg = Some allowed -> allowed <> [] ->
                      In (str raw) allowed)
  /\ (forall n, min_length cfg = Some n -> n <= len (str raw))
  /\ (forall n, max_length cfg = Some n -> len (str raw) <= n).

(** ** The rows of a response

    The row written for one entry of a response. *)
Definition row_of (supplier now : string) (fr : FieldValidationResult) : Row :=
  {| row_supplier_id := supplier;
     row_field_name := field_name fr;
     row_field_value := value fr;
     row_is_valid := is_valid fr;
     row_failure_reason := failure_reason fr;
     row_created_at := now |}.

(* ================================================================== *)
(** * Theorems *)
(* ================================================================== *)

(** ** Auxiliary facts *)

Lemma status_eqb_eq (a b : RuleStatus) : status_eqb a b = true <-> a = b.
Proof. destruct a, b; simpl; split; intro H; congruence. Qed.

Lemma any_status (st : RuleStatus) (rs : list RuleResult) :
  existsb (fun r => status_eqb (status r) st) rs = true
  <-> exists r, In r rs /\ status r = st.
Proof.
  rewrite existsb_exists.
  split; intros [r [Hin Hs]]; exists r; split; auto; now apply status_eqb_eq.
Qed.

Lemma no_status (st : RuleStatus) (rs : list RuleResult) :
  existsb (fun r => status_eqb (status r) st) rs = false
  <-> forall r, In r rs -> status r <> st.
Proof.
  split.
  - intros H r Hin Hs.
    assert (E : existsb (fun r => status_eqb (status r) st) rs = true)
      by (apply any_status; eauto).
    congruence.
  - intro H. destruct (existsb _ rs) eqn:E; auto.
    apply any_status in E. destruct E as [r [Hin Hs]]. now elim (H r Hin).
Qed.

(** [_aggregate_status] on any list of results. *)
Lemma aggregate_status_cases (rs : list RuleResult) :
  (_aggregate_status rs = FAIL <-> exists r, In r rs /\ status r = FAIL)
  /\ (_aggregate_status rs = WARNING
      <-> (forall r, In r rs -> status r <> FAIL)
          /\ exists r, In r rs /\ status r = WARNING)
  /\ (_aggregate_status rs = PASS
      <-> forall r, In r rs -> status r <> FAIL /\ status r <> WARNING).
Proof.
  unfold _aggregate_status.
  destruct (existsb (fun r => status_eqb (status r) FAIL) rs) eqn:EF;
    [ pose proof (proj1 (any_status FAIL rs) EF) as HF
    | pose proof (proj1 (no_status FAIL rs) EF) as HF ];
    (destruct (existsb (fun r => status_eqb (status r) WARNING) rs) eqn:EW;
     [ pose proof (proj1 (any_status WARNING rs) EW) as HW
     | pose proof (proj1 (no_status WARNING rs) EW) as HW ]).
  all: repeat split; try congruence; auto.
  all: try (intros [Hno _]; destruct HF as [r [Hin Hs]]; now elim (Hno r Hin)).
  all: try (intro Hno; destruct HF as [r [Hin Hs]]; now destruct (Hno r Hin)).
  all: try (intros [r [Hin Hs]]; now elim (HF r Hin)).
  all: try (intros [_ [r [Hin Hs]]]; now elim (HW r Hin)).
  all: try (intro Hno; destruct HW as [r [Hin Hs]]; now destruct (Hno r Hin)).
  all: try (intros r Hin; split; auto).
Qed.

(** What [validate] returns, when it returns. *)
Lemma validate_report (config : ValidationConfig) (portal_json docs_by_type : PyDict)
  (report : ValidationReport) :
  validate config portal_json docs_by_type = Ok report ->
  exists portal_results,
    portal_checks (portal_field_validations config) portal_json = Ok portal_results
    /\ results report
       = (portal_results
            ++ cross_checks (cross_source_rules config) portal_json docs_by_type)%list
    /\ summary_status report = _aggregate_status (results report).
Proof.
  unfold validate.
  destruct (portal_checks _ _) as [pr|e]; simpl; intro H; [|discriminate].
  injection H as <-. exists pr. simpl. auto.
Qed.

(** C1. For every report that [validate] returns, the summary status is
    FAIL exactly when some result has status FAIL; it is WARNING exactly
    when no result has status FAIL and some result has status WARNING; and
    it is PASS exactly when no result has status FAIL or WARNING. *)
Theorem summary_status_aggregation
  (config : ValidationConfig) (portal_json docs_by_type : PyDict)
  (report : ValidationReport) :
  validate config portal_json docs_by_type = Ok report ->
  (summary_status report = FAIL
   <-> exists r, In r (results report) /\ status r = FAIL)
  /\ (summary_status report = WARNING
      <-> (forall r, In r (results report) -> status r <> FAIL)
          /\ exists r, In r (results report) /\ status r = WARNING)
  /\ (summary_status report = PASS
      <-> forall r, In r (results report) ->
                    status r <> FAIL /\ status r <> WARNING).
Proof.
  intro H. destruct (validate_report _ _ _ _ H) as [pr [_ [_ Hs]]].
  rewrite Hs. apply aggregate_status_cases.
Qed.

Lemma portal_checks_length
  (fields : list (string * PortalFieldValidation)) (portal_json : PyDict) :
  forall rs, portal_checks fields portal_json = Ok rs ->
             (List.length rs <= List.length fields)%nat.
Proof.
  induction fields as [|[f cfg] rest IH]; simpl; intros rs H.
  - injection H as <-. simpl. lia.
  - destruct (_validate_portal_field f cfg portal_json) as [res|e]; simpl in H;
      [|discriminate].
    destruct (portal_checks rest portal_json) as [more|e]; simpl in H;
      [|discriminate].
    specialize (IH more eq_refl).
    injection H as <-. destruct res; simpl; lia.
Qed.

(** C7. A portal field whose raw value is absent, [None] or the empty
    string: when the field is not required the evaluator returns no result
    at all, and the field adds nothing to the results of the run; when it
    is required the evaluator returns exactly one result, a FAIL with rule
    id "PORTAL_FIELD_REQUIRED::<field>" and severity error. *)
Theorem presence_check
  (field_name : string) (cfg : PortalFieldValidation) (portal_json : PyDict) :
  assoc field_name portal_json = None
  \/ assoc field_name portal_json = Some VNone
  \/ assoc field_name portal_json = Some (VStr "") ->
  (required cfg = false ->
     _validate_portal_field field_name cfg portal_json = Ok None
     /\ forall rest, portal_checks ((field_name, cfg) :: rest) portal_json
                     = portal_checks rest portal_json)
  /\ (required cfg = true ->
        exists r, _validate_portal_field field_name cfg portal_json = Ok (Some r)
                  /\ rule_id r = "PORTAL_FIELD_REQUIRED::" ++ field_name
                  /\ status r = FAIL
                  /\ rr_severity r = error).
Proof.
  intro H.
  assert (E : in_None_or_empty (dict_get portal_json field_name) = true).
  { unfold dict_get. destruct H as [H|[H|H]]; rewrite H; reflexivity. }
  split; intro R.
  - assert (V : _validate_portal_field field_name cfg portal_json = Ok None)
      by (unfold _validate_portal_field; now rewrite E, R).
    split; [exact V|]. intro rest.
    cbn [portal_checks]. rewrite V. cbn [bind].
    destruct (portal_checks rest portal_json); reflexivity.
  - unfold _validate_portal_field. rewrite E, R.
    eexists. split; [reflexivity|]. simpl. auto.
Qed.

(** C3. One portal field yields at most one result, the one of the first
    check that fails in the order presence, pattern, allowed values, minimum
    length, maximum length (whenever the pattern, if one is configured,
    can be matched at all); when no configured check fails the result is a
    PASS with rule id "PORTAL_FIELD_OK::<field>" and severity warning,
    which no part of the field's configuration changes.  A run therefore
    holds at most one portal result per configured field. *)
Theorem portal_field_precedence
  (field_name : string) (cfg : PortalFieldValidation) (portal_json : PyDict)
  (pattern_matches : bool) :
  (forall p, pattern cfg = Some p -> p <> "" ->
             in_None_or_empty (dict_get portal_json field_name) = false ->
             re_match p (str (dict_get portal_json field_name)) = Ok pattern_matches) ->
  (exists res,
      _validate_portal_field field_name cfg portal_json = Ok res
      /\ outcome_matches field_name
           (spec_portal_outcome cfg (dict_get portal_json field_name) pattern_matches)
           res)
  /\ (forall fields rs,
        portal_checks fields portal_json = Ok rs ->
        (List.length rs <= List.length fields)%nat).
Proof.
  intro Hre. split; [|intros fields rs; apply portal_checks_length].
  unfold _validate_portal_field, spec_portal_outcome.
  destruct (in_None_or_empty (dict_get portal_json field_name)) eqn:E.
  - destruct (required cfg); eexists; (split; [reflexivity|]); simpl; auto.
  - unfold spec_checks, first_failing.
    assert (Hpat :
      match pattern cfg with
      | Some p => if str_truthy (Some p)
                  then re_match p (str (dict_get portal_json field_name))
                  else Ok true
      | None => Ok true
      end = Ok (negb (str_truthy (pattern cfg) && negb pattern_matches))).
    { destruct (pattern cfg) as [p|] eqn:P; [|reflexivity].
      simpl. destruct (String.eqb p "") eqn:Ep; simpl; [reflexivity|].
      apply String.eqb_neq in Ep.
      rewrite (Hre p eq_refl Ep eq_refl). now rewrite negb_involutive. }
    rewrite Hpat. simpl bind. rewrite negb_involutive.
    destruct (str_truthy (pattern cfg) && negb pattern_matches)%bool.
    { eexists; split; [reflexivity|]; simpl; auto. }
    destruct (pf_allowed_values cfg) as [[|a l]|]; simpl list_truthy;
      cbv beta iota.
    2: destruct (negb (str_in (str (dict_get portal_json field_name)) (a :: l)));
       simpl andb; cbv iota;
       [ eexists; split; [reflexivity|]; simpl; auto | ].
    all: destruct (min_length cfg) as [mn|];
      [ destruct (len (str (dict_get portal_json field_name)) <? mn);
        [ eexists; split; [reflexivity|]; simpl; auto | ] | ].
    all: destruct (max_length cfg) as [mx|];
      [ destruct (len (str (dict_get portal_json field_name)) >? mx);
        [ eexists; split; [reflexivity|]; simpl; auto | ] | ].
    all: eexists; split; [reflexivity|]; simpl; auto.
Qed.

(** ** The status of every result *)

Ltac break_in H :=
  repeat match type of H with
         | context [match ?x with _ => _ end] =>
             destruct x eqn:?; try discriminate H
         end.

Ltac verdict H :=
  injection H as <-; do 3 eexists; split; [reflexivity | auto].

Lemma rule_equality_verdict rule portal_json docs_by_type r :
  _rule_equality rule portal_json docs_by_type = Ok r -> verdict_of rule r.
Proof. unfold _rule_equality, bind. intro H. break_in H; verdict H. Qed.

Lemma rule_in_set_verdict rule portal_json docs_by_type r :
  _rule_in_set rule portal_json docs_by_type = Ok r -> verdict_of rule r.
Proof. unfold _rule_in_set, bind. intro H. break_in H; verdict H. Qed.

Lemma rule_regex_verdict rule portal_json docs_by_type r :
  _rule_regex rule portal_json docs_by_type = Ok r -> verdict_of rule r.
Proof. unfold _rule_regex, bind. intro H. break_in H; verdict H. Qed.

Lemma rule_date_verdict rule portal_json docs_by_type r :
  _rule_date_within_year rule portal_json docs_by_type = Ok r -> verdict_of rule r.
Proof. unfold _rule_date_within_year, bind. intro H. break_in H; verdict H. Qed.

Lemma rule_page_count_verdict rule portal_json docs_by_type r :
  _rule_page_count rule portal_json docs_by_type = Ok r -> verdict_of rule r.
Proof. unfold _rule_page_count, bind. intro H. break_in H; verdict H. Qed.

Lemma rule_flags_verdict rule portal_json docs_by_type r :
  _rule_flags_match rule portal_json docs_by_type = Ok r -> verdict_of rule r.
Proof. unfold _rule_flags_match, bind. intro H. break_in H; verdict H. Qed.

(** The dispatcher's result carries the rule's id, description and
    severity, and its status is PASS, FAIL or SKIP. *)
Lemma apply_rule_result rule portal_json docs_by_type :
  exists st msg ctx,
    _apply_rule rule portal_json docs_by_type = result_of rule st msg ctx
    /\ (st = PASS \/ st = FAIL \/ st = SKIP).
Proof.
  unfold _apply_rule.
  destruct (dispatch rule portal_json docs_by_type) as [r|e] eqn:D.
  - unfold dispatch in D.
    assert (V : verdict_of rule r \/ exists msg, r = result_of rule SKIP msg []).
    { repeat match type of D with
             | context [if ?c then _ else _] => destruct c
             end;
        eauto using rule_equality_verdict, rule_in_set_verdict,
          rule_regex_verdict, rule_date_verdict, rule_page_count_verdict,
          rule_flags_verdict.
      injection D as <-. eauto. }
    destruct V as [[st [msg [ctx [-> [?|?]]]]]|[msg ->]]; do 3 eexists; eauto.
  - do 3 eexists; eauto.
Qed.

Lemma portal_field_status field_name cfg portal_json r :
  _validate_portal_field field_name cfg portal_json = Ok (Some r) ->
  status r = PASS \/ status r = FAIL.
Proof.
  unfold _validate_portal_field, bind. intro H.
  break_in H; injection H as <-; simpl; auto.
Qed.

Lemma portal_checks_status fields portal_json :
  forall rs, portal_checks fields portal_json = Ok rs ->
             forall r, In r rs -> status r = PASS \/ status r = FAIL.
Proof.
  induction fields as [|[f cfg] rest IH]; cbn [portal_checks]; intros rs H r Hin.
  - injection H as <-. destruct Hin.
  - destruct (_validate_portal_field f cfg portal_json) as [res|e] eqn:V;
      cbn [bind] in H; [|discriminate].
    destruct (portal_checks rest portal_json) as [more|e]; cbn [bind] in H;
      [|discriminate].
    injection H as <-. destruct res as [r0|].
    + destruct Hin as [<-|Hin]; [eapply portal_field_status; eauto | eauto].
    + eauto.
Qed.

(** C8. No result of a report that [validate] returns has status WARNING,
    and the summary status of the report is PASS or FAIL. *)
Theorem no_warning_status
  (config : ValidationConfig) (portal_json docs_by_type : PyDict)
  (report : ValidationReport) :
  validate config portal_json docs_by_type = Ok report ->
  (forall r, In r (results report) -> status r <> WARNING)
  /\ (summary_status report = PASS \/ summary_status report = FAIL).
Proof.
  intro H. destruct (validate_report _ _ _ _ H) as [pr [Hp [Hr Hs]]].
  assert (W : forall r, In r (results report) -> status r <> WARNING).
  { intros r Hin. rewrite Hr in Hin. apply in_app_or in Hin.
    destruct Hin as [Hin|Hin].
    - destruct (portal_checks_status _ _ _ Hp r Hin) as [E|E]; rewrite E;
        discriminate.
    - unfold cross_checks in Hin. apply in_map_iff in Hin.
      destruct Hin as [rule [<- _]].
      destruct (apply_rule_result rule portal_json docs_by_type)
        as [st [msg [ctx [-> [E|[E|E]]]]]]; rewrite E; discriminate. }
  split; [exact W|].
  rewrite Hs. unfold _aggregate_status.
  destruct (existsb (fun r => status_eqb (status r) FAIL) (results report));
    [now right|].
  destruct (existsb (fun r => status_eqb (status r) WARNING) (results report))
    eqn:EW; [|now left].
  apply any_status in EW. destruct EW as [r [Hin Hw]]. now elim (W r Hin).
Qed.

(** ** The dispatcher *)

Lemma resolve_field_lacks_doc_type ref portal_json docs_by_type :
  ref_lacks_doc_type ref = true ->
  _resolve_field ref portal_json docs_by_type
  = Raise (ValueError "doc_type is required for doc source").
Proof.
  unfold ref_lacks_doc_type, _resolve_field. intro H.
  apply andb_true_iff in H. destruct H as [Hs Hd].
  apply String.eqb_eq in Hs. rewrite Hs.
  destruct (doc_type ref) as [dt|]; simpl in Hd |- *; [|reflexivity].
  now rewrite Hd.
Qed.

Lemma malformed_payload_raises rule portal_json docs_by_type :
  malformed_payload rule = true ->
  exists exc, dispatch rule portal_json docs_by_type = Raise exc.
Proof.
  unfold malformed_payload, dispatch. intro H.
  destruct (String.eqb (rule_type rule) "equality").
  { unfold _rule_equality.
    destruct (left rule) as [l|]; [|eauto].
    destruct (right rule) as [r|]; [|eauto].
    destruct (_resolve_field l portal_json docs_by_type) as [lv|e] eqn:L;
      [|simpl; eauto].
    apply orb_true_iff in H. destruct H as [H|H].
    - rewrite (resolve_field_lacks_doc_type _ _ _ H) in L. discriminate.
    - rewrite (resolve_field_lacks_doc_type _ _ _ H). simpl. eauto. }
  destruct (String.eqb (rule_type rule) "in_set").
  { unfold _rule_in_set. simpl in H.
    destruct (target rule) as [t|]; [|eauto].
    destruct (allowed_values rule) as [[|a al]|]; eauto.
    rewrite (resolve_field_lacks_doc_type _ _ _ H). simpl. eauto. }
  destruct (String.eqb (rule_type rule) "regex").
  { unfold _rule_regex. simpl in H.
    destruct (target rule) as [t|]; [|eauto].
    destruct (regex rule) as [re|]; eauto.
    destruct (py_assert (str_truthy (Some re))) as [[]|e]; [|simpl; eauto].
    rewrite (resolve_field_lacks_doc_type _ _ _ H). simpl. eauto. }
  destruct (String.eqb (rule_type rule) "date_within_year").
  { unfold _rule_date_within_year. simpl in H.
    destruct (target rule) as [t|]; [|eauto].
    rewrite (resolve_field_lacks_doc_type _ _ _ H). simpl. eauto. }
  destruct (String.eqb (rule_type rule) "page_count_between").
  { unfold _rule_page_count. simpl in H.
    destruct (target rule) as [t|]; [|eauto].
    rewrite H. eauto. }
  destruct (String.eqb (rule_type rule) "flags_match").
  { unfold _rule_flags_match. simpl in H.
    destruct (target rule) as [t|]; [|eauto].
    destruct (flags rule) as [[|f fl]|]; eauto.
    rewrite H. eauto. }
  discriminate.
Qed.

(** C2. The dispatcher is a total function: whatever the rule, the portal
    document and the documents by type, it returns one result, which bears
    the rule's id.  When the evaluation of the rule returns, that is the
    result; when it raises, the result is a FAIL whose message carries the
    exception's message.  A malformed payload (a missing target, a missing
    left or right reference, a doc-source reference without document type)
    gives a FAIL.  In a run, every cross-source rule has its own result, in
    the order of the configuration, whatever the other rules do; these
    results follow those of the portal fields in the report. *)
Theorem dispatcher_never_raises
  (rule : CrossSourceRule) (portal_json docs_by_type : PyDict) :
  match dispatch rule portal_json docs_by_type with
  | Ok res => _apply_rule rule portal_json docs_by_type = res
  | Raise exc =>
      _apply_rule rule portal_json docs_by_type
      = result_of rule FAIL ("Exception while applying rule: " ++ exc_str exc) []
  end
  /\ rule_id (_apply_rule rule portal_json docs_by_type) = id rule
  /\ (malformed_payload rule = true ->
      status (_apply_rule rule portal_json docs_by_type) = FAIL)
  /\ (forall rules : list CrossSourceRule,
        List.length (cross_checks rules portal_json docs_by_type) = List.length rules
        /\ forall i other,
             nth_error rules i = Some other ->
             nth_error (cross_checks rules portal_json docs_by_type) i
             = Some (_apply_rule other portal_json docs_by_type))
  /\ (forall config report,
        validate config portal_json docs_by_type = Ok report ->
        exists portal_results,
          results report
          = (portal_results
               ++ map (fun r => _apply_rule r portal_json docs_by_type)
                    (cross_source_rules config))%list).
Proof.
  repeat split.
  - unfold _apply_rule. now destruct (dispatch rule portal_json docs_by_type).
  - destruct (apply_rule_result rule portal_json docs_by_type)
      as [st [msg [ctx [-> _]]]]. reflexivity.
  - intro M. destruct (malformed_payload_raises _ portal_json docs_by_type M)
      as [exc E].
    unfold _apply_rule. now rewrite E.
  - unfold cross_checks. apply length_map.
  - intros i other Hi. unfold cross_checks.
    rewrite nth_error_map, Hi. reflexivity.
  - intros config report H.
    destruct (validate_report _ _ _ _ H) as [pr [_ [Hr _]]].
    exists pr. exact Hr.
Qed.

(** ** The equality rule *)

Lemma is_None_eq (v : PyVal) : is_None v = true <-> v = VNone.
Proof. destruct v; simpl; split; intro H; congruence. Qed.

(** C5. An equality rule with a left and a right reference that both
    resolve: when either value is [None] the result is a FAIL whose
    context holds the two resolved paths; otherwise the result is a PASS
    exactly when the stripped string forms of the two values are equal,
    and a FAIL when they differ, and its context holds the two string
    forms.  The result bears the rule's id, and the dispatcher returns it
    for a rule of type "equality". *)
Theorem equality_rule
  (rule : CrossSourceRule) (l r : FieldRef) (portal_json docs_by_type : PyDict)
  (left_val right_val : PyVal) (left_path right_path : string) :
  left rule = Some l ->
  right rule = Some r ->
  _resolve_field l portal_json docs_by_type = Ok (left_val, left_path) ->
  _resolve_field r portal_json docs_by_type = Ok (right_val, right_path) ->
  exists res,
    _rule_equality rule portal_json docs_by_type = Ok res
    /\ (rule_type rule = "equality" ->
        _apply_rule rule portal_json docs_by_type = res)
    /\ rule_id res = id rule
    /\ (left_val = VNone \/ right_val = VNone ->
        status res = FAIL
        /\ context res = [("left_path", left_path); ("right_path", right_path)])
    /\ (left_val <> VNone -> right_val <> VNone ->
        (status res = PASS <-> strip (str left_val) = strip (str right_val))
        /\ (status res = FAIL <-> strip (str left_val) <> strip (str right_val))
        /\ context res = [("left", str left_val); ("right", str right_val)]).
Proof.
  intros Hl Hr HL HR.
  assert (A : forall res, _rule_equality rule portal_json docs_by_type = Ok res ->
                          rule_type rule = "equality" ->
                          _apply_rule rule portal_json docs_by_type = res).
  { intros res E T. unfold _apply_rule, dispatch. now rewrite T, E. }
  unfold _rule_equality in *. rewrite Hl, Hr, HL, HR in *. cbn [bind] in *.
  destruct (is_None left_val) eqn:NL; [|destruct (is_None right_val) eqn:NR];
    cbn [orb] in *.
  1,2: eexists; split; [reflexivity|]; split; [now apply A|];
       split; [reflexivity|]; split; [simpl; auto|];
       intros H1 H2; exfalso;
       first [ apply H1; now apply is_None_eq | apply H2; now apply is_None_eq ].
  destruct (String.eqb (strip (str left_val)) (strip (str right_val))) eqn:E;
    [ apply String.eqb_eq in E | apply String.eqb_neq in E ];
    (eexists; split; [reflexivity|]; split; [now apply A|];
     split; [reflexivity|]; split;
     [ intros [H|H]; apply is_None_eq in H; congruence | ]);
    intros _ _; simpl; repeat split; intros; try congruence; auto.
Qed.

(** ** The date rule *)

Lemma try_formats_some (s : string) (fmts : list (list FmtTok)) (d : Date) :
  try_formats s fmts = Some d <-> first_parse fmts s d.
Proof.
  induction fmts as [|fmt rest IH]; simpl.
  - split; [discriminate|]. intros [i [f [H _]]]. now destruct i.
  - destruct (strptime s fmt) as [d0|] eqn:P.
    + split.
      * intros [= <-]. exists 0%nat, fmt. repeat split; auto.
        intros j f' Hj. lia.
      * intros [i [f [Hi [Hp Hmin]]]]. destruct i as [|i].
        -- injection Hi as <-. congruence.
        -- specialize (Hmin 0%nat fmt ltac:(lia) eq_refl). congruence.
    + rewrite IH. split.
      * intros [i [f [Hi [Hp Hmin]]]]. exists (S i), f. repeat split; auto.
        intros [|j] f' Hj Hn; [injection Hn as <-; exact P|].
        apply (Hmin j f'); [lia | exact Hn].
      * intros [i [f [Hi [Hp Hmin]]]]. destruct i as [|i].
        -- injection Hi as <-. congruence.
        -- exists i, f. repeat split; auto.
           intros j f' Hj Hn. apply (Hmin (S j) f'); [lia | exact Hn].
Qed.

Lemma try_formats_none (s : string) (fmts : list (list FmtTok)) :
  try_formats s fmts = None <-> no_parse fmts s.
Proof.
  unfold no_parse. induction fmts as [|fmt rest IH]; simpl.
  - split; auto. intros _ f [].
  - destruct (strptime s fmt) as [d0|] eqn:P.
    + split; [discriminate|]. intro H. specialize (H fmt (or_introl eq_refl)).
      congruence.
    + rewrite IH. split.
      * intros H f [<-|Hin]; auto.
      * intros H f Hin. apply H. now right.
Qed.

Lemma int_or_zero (o : option Z) :
  int_or o 0 = match o with Some n => n | None => 0 end.
Proof.
  unfold int_or. destruct o as [n|]; [|reflexivity].
  destruct (n =? 0) eqn:E; [|reflexivity]. apply Z.eqb_eq in E. now subst.
Qed.

(** C6. A date rule whose target resolves to a value: when the value is
    missing (falsy, as the code tests it) the result is a FAIL; otherwise
    the stripped string form of the value is parsed with the formats
    YYYY-MM-DD, DD/MM/YYYY, DD-MM-YYYY, DD.MM.YYYY in this order, the first
    format that parses giving the date; when no format parses the result
    is a FAIL whose message reports the parse error; otherwise the result
    is a PASS exactly when the distance between the current year and the
    parsed year is at most the year delta (0 when unset), and a FAIL when
    it is more.  The dispatcher returns this result for a rule of type
    "date_within_year". *)
Theorem date_within_year_rule
  (rule : CrossSourceRule) (t : FieldRef) (portal_json docs_by_type : PyDict)
  (value : PyVal) (path : string) :
  target rule = Some t ->
  _resolve_field t portal_json docs_by_type = Ok (value, path) ->
  date_formats
  = [ [Dir dir_Y; Lit "-"; Dir dir_m; Lit "-"; Dir dir_d];
      [Dir dir_d; Lit "/"; Dir dir_m; Lit "/"; Dir dir_Y];
      [Dir dir_d; Lit "-"; Dir dir_m; Lit "-"; Dir dir_Y];
      [Dir dir_d; Lit "."; Dir dir_m; Lit "."; Dir dir_Y] ]
  /\ exists res,
      _rule_date_within_year rule portal_json docs_by_type = Ok res
      /\ (rule_type rule = "date_within_year" ->
          _apply_rule rule portal_json docs_by_type = res)
      /\ (truthy value = false ->
          res = result_of rule FAIL (path ++ " is missing") [])
      /\ (truthy value = true ->
          (no_parse date_formats (strip (str value)) ->
           res = result_of rule FAIL
                   (path ++ " date parse error: Unsupported date format "
                      ++ str_repr (strip (str value))) [])
          /\ (forall dt,
                first_parse date_formats (strip (str value)) dt ->
                (status res = PASS
                 <-> Z.abs (year utcnow - year dt) <= year_delta_or_default rule)
                /\ (status res = FAIL
                    <-> Z.abs (year utcnow - year dt) > year_delta_or_default rule))).
Proof.
  intros Ht HR. split; [reflexivity|].
  assert (A : forall res,
             _rule_date_within_year rule portal_json docs_by_type = Ok res ->
             rule_type rule = "date_within_year" ->
             _apply_rule rule portal_json docs_by_type = res).
  { intros res E T. unfold _apply_rule, dispatch. now rewrite T, E. }
  unfold _rule_date_within_year in *. rewrite Ht, HR in *. cbn [bind] in *.
  destruct (truthy value) eqn:TV; cbn [negb] in *.
  2: { eexists. split; [reflexivity|]. split; [now apply A|].
       split; [reflexivity|]. discriminate. }
  unfold _parse_date in *.
  destruct (try_formats (strip (str value)) date_formats) as [dt|] eqn:P.
  - apply try_formats_some in P.
    assert (U : forall dt', first_parse date_formats (strip (str value)) dt' ->
                            dt' = dt).
    { intros dt' P'. apply try_formats_some in P, P'. congruence. }
    unfold year_delta_or_default. rewrite int_or_zero in *.
    set (delta := match year_delta rule with Some n => n | None => 0 end) in *.
    destruct (Z.abs (year utcnow - year dt) <=? delta) eqn:C;
      [ apply Z.leb_le in C | apply Z.leb_gt in C ];
      (eexists; split; [reflexivity|]; split; [now apply A|];
       split; [discriminate|]; intros _; split;
       [ intro N; apply try_formats_none in N; apply try_formats_some in P;
         congruence
       | intros dt' P'; rewrite (U dt' P'); simpl; repeat split; intros;
         try congruence; try lia ]).
  - eexists. split; [reflexivity|]. split; [now apply A|].
    split; [discriminate|]. intros _. split.
    + intros _. simpl. reflexivity.
    + intros dt' P'. apply try_formats_some in P'. congruence.
Qed.

(** ** The page-count rule *)

Lemma str_truthy_some (o : option string) :
  str_truthy o = true <-> exists s, o = Some s /\ s <> "".
Proof.
  unfold str_truthy. destruct o as [s|].
  - rewrite negb_true_iff, String.eqb_neq. split.
    + intro H. exists s. auto.
    + intros [s' [[= <-] H]]. exact H.
  - split; [discriminate|]. intros [s [H _]]. discriminate.
Qed.




(** ** The flags rule *)

Lemma flag_mismatches_absent (fl : list FlagExpectation) :
  (forall f, In f fl -> expected f = false) ->
  flag_mismatches (VDict []) fl = Ok [].
Proof.
  induction fl as [|f rest IH]; intro H; [reflexivity|].
  cbn [flag_mismatches py_get assoc bind truthy].
  rewrite IH by (intros g Hg; apply H; now right).
  cbn [bind]. rewrite (H f (or_introl eq_refl)). reflexivity.
Qed.

(** C10. A flags rule whose target names a document type and whose
    declared flag expectations (there is at least one: the evaluator
    asserts that the list is not empty) all have the expected value false,
    passes even when its document type is absent from the documents by
    type: the absent document resolves to an empty field namespace, each
    absent field counts as false, no mismatch is recorded. *)
Theorem flags_match_absent_document
  (rule : CrossSourceRule) (t : FieldRef) (dt : string)
  (fl : list FlagExpectation) (portal_json docs_by_type : PyDict) :
  target rule = Some t ->
  doc_type t = Some dt -> dt <> "" ->
  flags rule = Some fl -> fl <> [] ->
  (forall f, In f fl -> expected f = false) ->
  assoc dt docs_by_type = None ->
  py_get (document docs_by_type dt) "fields" (document docs_by_type dt)
  = Ok (VDict [])
  /\ flag_mismatches (VDict []) fl = Ok []
  /\ _rule_flags_match rule portal_json docs_by_type
     = Ok (result_of rule PASS ("All required flags present for " ++ dt) [])
  /\ (rule_type rule = "flags_match" ->
      status (_apply_rule rule portal_json docs_by_type) = PASS).
Proof.
  intros Ht Hdt Hne Hfl Hnil Hexp Habs.
  assert (D : str_truthy (doc_type t) = true)
    by (apply str_truthy_some; eauto).
  assert (M := flag_mismatches_absent fl Hexp).
  assert (E : _rule_flags_match rule portal_json docs_by_type
              = Ok (result_of rule PASS ("All required flags present for " ++ dt) [])).
  { unfold _rule_flags_match. rewrite Ht, Hfl.
    destruct fl as [|f rest]; [now elim Hnil|].
    rewrite D, Hdt. unfold document. rewrite Habs.
    cbn [negb py_get assoc bind].
    rewrite M. reflexivity. }
  unfold document. rewrite Habs.
  repeat split; auto.
  intro T. unfold _apply_rule, dispatch. rewrite T, E. reflexivity.
Qed.

(** ** The per-field view *)

Lemma failure_reason_table (rid : string) :
  _failure_reason_from_rule_id rid = spec_failure_reason (rule_id_prefix rid).
Proof.
  unfold _failure_reason_from_rule_id, spec_failure_reason, reason_codes.
  generalize (rule_id_prefix rid) as p. intro p. cbn [assoc].
  repeat match goal with
         | |- context [String.eqb p ?k] => destruct (String.eqb p k)
         end; reflexivity.
Qed.

Lemma in_dict_set {A} (k k' : string) (v v' : A) (d : list (string * A)) :
  In (k, v) (dict_set k' v' d) -> (k = k' /\ v = v') \/ In (k, v) d.
Proof.
  induction d as [|[k0 v0] d IH]; cbn [dict_set].
  - intros [[= <- <-]|[]]. now left.
  - destruct (String.eqb k' k0).
    + intros [[= <- <-]|H]; [now left | right; now right].
    + intros [H|H]; [right; now left|].
      destruct (IH H) as [?|?]; [now left | right; now right].
Qed.

Lemma dict_set_keys {A} (k k' : string) (v' : A) (d : list (string * A)) :
  k = k' \/ In k (map fst d) -> In k (map fst (dict_set k' v' d)).
Proof.
  induction d as [|[k0 v0] d IH]; cbn [dict_set map fst In].
  - intros [->|[]]. now left.
  - destruct (String.eqb k' k0) eqn:E; cbn [map fst In].
    + apply String.eqb_eq in E. subst k0.
      intros [->|[->|H]]; auto.
    + intros [->|[->|H]]; auto.
Qed.

Lemma field_result_of_name (r : RuleResult) (f : string) (portal_json : PyDict) :
  field_name (field_result_of r f portal_json) = f.
Proof. unfold field_result_of. now destruct (status_eqb (status r) PASS). Qed.

Lemma field_result_of_surfaced (r : RuleResult) (prefix f : string)
  (portal_json : PyDict) :
  is_portal_result r = true ->
  split_once ":" ":" (rule_id r) = Some (prefix, f) ->
  surfaced_from r (field_result_of r f portal_json).
Proof.
  intros Hp Hs. exists prefix. rewrite field_result_of_name.
  split; [exact Hp|]. split; [exact Hs|].
  unfold field_result_of.
  destruct (status_eqb (status r) PASS) eqn:E; simpl.
  - apply status_eqb_eq in E. split; [auto|]. intro H. contradiction.
  - split.
    + intro H. apply status_eqb_eq in H. congruence.
    + intros _. split; [reflexivity|].
      rewrite failure_reason_table. unfold rule_id_prefix. now rewrite Hs.
Qed.

(** What the loop keeps true of the dict [by_field]. *)
Lemma field_results_loop (portal_json : PyDict) (all : list RuleResult) :
  forall (rs : list RuleResult) (by_field : list (string * FieldValidationResult)),
    (forall r, In r rs -> In r all) ->
    (forall k fr, In (k, fr) by_field ->
                  field_name fr = k /\ exists r, In r all /\ surfaced_from r fr) ->
    forall k fr,
      In (k, fr) (fold_left (field_results_step portal_json) rs by_field) ->
      field_name fr = k /\ exists r, In r all /\ surfaced_from r fr.
Proof.
  induction rs as [|r rs IH]; cbn [fold_left]; intros by_field Hsub Hinv; auto.
  apply IH; [intros; apply Hsub; now right|].
  intros k fr. unfold field_results_step.
  destruct (startswith "PORTAL_FIELD_" (rule_id r)) eqn:P; cbn [negb]; auto.
  destruct (split_once ":" ":" (rule_id r)) as [[prefix f]|] eqn:S; auto.
  intro H. apply in_dict_set in H. destruct H as [[-> ->]|H]; auto.
  split; [apply field_result_of_name|].
  exists r. split; [apply Hsub; now left|].
  eapply field_result_of_surfaced; eauto.
Qed.

Lemma field_results_filter (portal_json : PyDict) :
  forall (rs : list RuleResult) (by_field : list (string * FieldValidationResult)),
    fold_left (field_results_step portal_json) (filter is_portal_result rs) by_field
    = fold_left (field_results_step portal_json) rs by_field.
Proof.
  induction rs as [|r rs IH]; intro by_field; [reflexivity|].
  cbn [filter fold_left]. unfold is_portal_result at 1.
  destruct (startswith "PORTAL_FIELD_" (rule_id r)) eqn:P.
  - cbn [fold_left]. apply IH.
  - rewrite IH. f_equal. unfold field_results_step. now rewrite P.
Qed.

Lemma field_results_keys (portal_json : PyDict) (k : string) :
  forall (rs : list RuleResult) (by_field : list (string * FieldValidationResult)),
    In k (map fst by_field)
    \/ (exists r prefix, In r rs /\ is_portal_result r = true
                         /\ split_once ":" ":" (rule_id r) = Some (prefix, k)) ->
    In k (map fst (fold_left (field_results_step portal_json) rs by_field)).
Proof.
  induction rs as [|r rs IH]; cbn [fold_left]; intros by_field H.
  - destruct H as [H|[r [p [[] _]]]]. exact H.
  - apply IH. destruct H as [H|[r0 [p [[<-|Hin] [Hp Hs]]]]].
    + left. unfold field_results_step.
      destruct (startswith "PORTAL_FIELD_" (rule_id r)); cbn [negb]; auto.
      destruct (split_once ":" ":" (rule_id r)) as [[prefix f]|]; auto.
      apply dict_set_keys. now right.
    + left. unfold field_results_step. unfold is_portal_result in Hp.
      rewrite Hp, Hs. cbn [negb]. apply dict_set_keys. now left.
    + right. eauto.
Qed.

Lemma field_results_complete (report : ValidationReport) (portal_json : PyDict)
  (r : RuleResult) (prefix f : string) :
  In r (results report) ->
  is_portal_result r = true ->
  split_once ":" ":" (rule_id r) = Some (prefix, f) ->
  exists fr, In fr (portal_report_to_field_results report portal_json)
             /\ field_name fr = f.
Proof.
  unfold portal_report_to_field_results. intros Hin Hp Hs.
  assert (K : In f (map fst (fold_left (field_results_step portal_json)
                               (results report) []))).
  { apply field_results_keys. right. eauto. }
  apply in_map_iff in K. destruct K as [[k fr] [E K]]. cbn [fst] in E. subst k.
  exists fr. split; [apply in_map_iff; exists (f, fr); auto|].
  eapply (field_results_loop portal_json (results report)); eauto.
  intros k' fr' [].
Qed.

(** ** Rule identifiers and the portal phase of a run *)

Lemma portal_field_rule_id field_name cfg portal_json r :
  _validate_portal_field field_name cfg portal_json = Ok (Some r) ->
  exists prefix, In prefix portal_prefixes
                 /\ rule_id r = prefix ++ "::" ++ field_name.
Proof.
  unfold _validate_portal_field, bind, portal_prefixes. intro H.
  break_in H; injection H as <-; cbn [rule_id];
    first [ exists "PORTAL_FIELD_REQUIRED"; split; [simpl; tauto | reflexivity]
          | exists "PORTAL_FIELD_PATTERN"; split; [simpl; tauto | reflexivity]
          | exists "PORTAL_FIELD_IN_SET"; split; [simpl; tauto | reflexivity]
          | exists "PORTAL_FIELD_MIN_LEN"; split; [simpl; tauto | reflexivity]
          | exists "PORTAL_FIELD_MAX_LEN"; split; [simpl; tauto | reflexivity]
          | exists "PORTAL_FIELD_OK"; split; [simpl; tauto | reflexivity] ].
Qed.

Lemma portal_checks_in fields portal_json :
  forall rs, portal_checks fields portal_json = Ok rs ->
             forall r, In r rs <->
                       exists f cfg, In (f, cfg) fields
                                     /\ _validate_portal_field f cfg portal_json
                                        = Ok (Some r).
Proof.
  induction fields as [|[f cfg] rest IH]; cbn [portal_checks]; intros rs H r.
  - injection H as <-. split; [intros [] | intros [f [cfg [[] _]]]].
  - destruct (_validate_portal_field f cfg portal_json) as [res|e] eqn:V;
      cbn [bind] in H; [|discriminate].
    destruct (portal_checks rest portal_json) as [more|e]; cbn [bind] in H;
      [|discriminate].
    specialize (IH more eq_refl r). injection H as <-. split.
    + intro Hin.
      assert (C : res = Some r \/ In r more)
        by (destruct res as [r0|]; [destruct Hin as [<-|Hin]|]; auto).
      destruct C as [->|Hin'].
      * exists f, cfg. split; [now left | exact V].
      * apply IH in Hin'. destruct Hin' as [f' [cfg' [Hf Hv]]].
        exists f', cfg'. split; [now right | exact Hv].
    + intros [f' [cfg' [[[= <- <-]|Hf] Hv]]].
      * rewrite V in Hv. injection Hv as ->. now left.
      * assert (Hin : In r more) by (apply IH; eauto).
        destruct res; [now right | exact Hin].
Qed.

(** X1. The rule ids of a report can be traced to the configuration: a portal
    result bears "<PREFIX>::<field>" for a configured field, a cross-source
    result bears the id, description and severity of a configured rule. *)
Theorem rule_ids_traceable
  (config : ValidationConfig) (portal_json docs_by_type : PyDict)
  (report : ValidationReport) :
  validate config portal_json docs_by_type = Ok report ->
  forall r, In r (results report) ->
    (exists f cfg prefix,
        In (f, cfg) (portal_field_validations config)
        /\ In prefix portal_prefixes
        /\ rule_id r = prefix ++ "::" ++ f)
    \/ (exists rule,
          In rule (cross_source_rules config)
          /\ rule_id r = id rule
          /\ rr_description r = description rule
          /\ rr_severity r = severity rule).
Proof.
  intros H r Hin. destruct (validate_report _ _ _ _ H) as [pr [Hp [Hr _]]].
  rewrite Hr in Hin. apply in_app_or in Hin. destruct Hin as [Hin|Hin].
  - left. apply (portal_checks_in _ _ _ Hp) in Hin.
    destruct Hin as [f [cfg [Hf Hv]]].
    destruct (portal_field_rule_id _ _ _ _ Hv) as [prefix [Hpre Hid]].
    exists f, cfg, prefix. auto.
  - right. unfold cross_checks in Hin. apply in_map_iff in Hin.
    destruct Hin as [rule [<- Hrule]]. exists rule.
    destruct (apply_rule_result rule portal_json docs_by_type)
      as [st [msg [ctx [-> _]]]]. auto.
Qed.

(** When a portal check raises: the value is present, a pattern is
    configured and [re.match] raises on it. *)
Lemma portal_field_raises field_name cfg portal_json e :
  _validate_portal_field field_name cfg portal_json = Raise e <->
  in_None_or_empty (dict_get portal_json field_name) = false
  /\ exists p, pattern cfg = Some p /\ p <> ""
               /\ re_match p (str (dict_get portal_json field_name)) = Raise e.
Proof.
  unfold _validate_portal_field, bind. split.
  - intro H.
    destruct (in_None_or_empty (dict_get portal_json field_name));
      [destruct (required cfg); discriminate|].
    split; [reflexivity|].
    destruct (pattern cfg) as [p|].
    + exists p. cbn [str_truthy] in H.
      destruct (String.eqb p "") eqn:Ep; cbn [negb] in H.
      * break_in H; discriminate.
      * apply String.eqb_neq in Ep.
        destruct (re_match p _) as [m|e'] eqn:M.
        -- break_in H; discriminate.
        -- injection H as ->. auto.
    + break_in H; discriminate.
  - intros [E [p [Hp [Hne M]]]]. rewrite E, Hp. cbn [str_truthy].
    apply String.eqb_neq in Hne. rewrite Hne. cbn [negb]. now rewrite M.
Qed.

(** X2. The portal checks run outside of the dispatcher: the exception of the
    first portal check that raises leaves [validate], which returns no
    report; no cross-source rule is evaluated. *)
Theorem portal_exception_aborts_run
  (config : ValidationConfig) (portal_json docs_by_type : PyDict)
  (before after : list (string * PortalFieldValidation))
  (f : string) (cfg : PortalFieldValidation) (e : PyExc) :
  portal_field_validations config = (before ++ (f, cfg) :: after)%list ->
  (forall f' cfg', In (f', cfg') before ->
                   exists res, _validate_portal_field f' cfg' portal_json = Ok res) ->
  _validate_portal_field f cfg portal_json = Raise e ->
  validate config portal_json docs_by_type = Raise e.
Proof.
  intros Hcfg Hbefore Hraise. unfold validate. rewrite Hcfg.
  assert (P : portal_checks (before ++ (f, cfg) :: after) portal_json = Raise e).
  { clear Hcfg. induction before as [|[f0 c0] before IH].
    - rewrite app_nil_l. cbn [portal_checks]. now rewrite Hraise.
    - rewrite <- app_comm_cons. cbn [portal_checks].
      destruct (Hbefore f0 c0 (or_introl eq_refl)) as [res ->]. cbn [bind].
      rewrite IH by (intros; apply Hbefore; now right). reflexivity. }
  now rewrite P.
Qed.

(** The id of a portal result splits back into its prefix and its field,
    whatever the name of the field. *)
Lemma split_portal_rule_id (prefix f : string) :
  In prefix portal_prefixes ->
  split_once ":" ":" (prefix ++ "::" ++ f) = Some (prefix, f)
  /\ startswith "PORTAL_FIELD_" (prefix ++ "::" ++ f) = true.
Proof.
  unfold portal_prefixes.
  intros [<-|[<-|[<-|[<-|[<-|[<-|[]]]]]]]; split; reflexivity.
Qed.

(** X3. The per-field view holds an entry for every configured portal field
    whose check gave a result in the run. *)
Theorem portal_results_surface
  (config : ValidationConfig) (portal_json docs_by_type : PyDict)
  (report : ValidationReport) (f : string) (cfg : PortalFieldValidation)
  (r : RuleResult) :
  validate config portal_json docs_by_type = Ok report ->
  In (f, cfg) (portal_field_validations config) ->
  _validate_portal_field f cfg portal_json = Ok (Some r) ->
  In r (results report)
  /\ exists fr, In fr (portal_report_to_field_results report portal_json)
                /\ field_name fr = f.
Proof.
  intros H Hf Hv. destruct (validate_report _ _ _ _ H) as [pr [Hp [Hr _]]].
  assert (Hin : In r (results report)).
  { rewrite Hr. apply in_or_app. left. apply (portal_checks_in _ _ _ Hp). eauto. }
  split; [exact Hin|].
  destruct (portal_field_rule_id _ _ _ _ Hv) as [prefix [Hpre Hid]].
  destruct (split_portal_rule_id prefix f Hpre) as [Hs Hw].
  apply (field_results_complete report portal_json r prefix f Hin).
  - unfold is_portal_result. now rewrite Hid.
  - now rewrite Hid.
Qed.

(* ------------------------------------------------------------------ *)
(** ** Further properties of the rule evaluators *)

Lemma str_in_In (x : string) (xs : list string) :
  str_in x xs = true <-> In x xs.
Proof.
  unfold str_in. rewrite existsb_exists. split.
  - intros [y [Hin E]]. apply String.eqb_eq in E. now subst.
  - intro H. exists x. split; [exact H | apply String.eqb_refl].
Qed.

Lemma dispatch_of_type (rule : CrossSourceRule) (portal_json docs_by_type : PyDict) :
  (rule_type rule = "equality" ->
   dispatch rule portal_json docs_by_type
   = _rule_equality rule portal_json docs_by_type)
  /\ (rule_type rule = "in_set" ->
      dispatch rule portal_json docs_by_type
      = _rule_in_set rule portal_json docs_by_type)
  /\ (rule_type rule = "regex" ->
      dispatch rule portal_json docs_by_type
      = _rule_regex rule portal_json docs_by_type)
  /\ (rule_type rule = "date_within_year" ->
      dispatch rule portal_json docs_by_type
      = _rule_date_within_year rule portal_json docs_by_type)
  /\ (rule_type rule = "page_count_between" ->
      dispatch rule portal_json docs_by_type
      = _rule_page_count rule portal_json docs_by_type)
  /\ (rule_type rule = "flags_match" ->
      dispatch rule portal_json docs_by_type
      = _rule_flags_match rule portal_json docs_by_type).
Proof. unfold dispatch. repeat split; intros ->; reflexivity. Qed.

(** X4. A doc-source reference with a document type: a document type that
    is absent from the documents resolves to no value, without error; in a
    document that has a [fields] mapping the field is looked up there and
    the document's own keys are not seen; a document without [fields] is
    itself the field namespace; a [fields] entry that is not a mapping (for
    instance null), or a document that is not a mapping, makes the
    resolver raise an AttributeError. *)
Theorem resolve_doc_field
  (ref : FieldRef) (dt : string) (portal_json docs_by_type : PyDict) :
  source ref = "doc" ->
  doc_type ref = Some dt -> dt <> "" ->
  (assoc dt docs_by_type = None ->
   _resolve_field ref portal_json docs_by_type
   = Ok (VNone, dt ++ "." ++ field ref))
  /\ (forall doc,
        assoc dt docs_by_type = Some (VDict doc) ->
        (forall fields,
            assoc "fields" doc = Some (VDict fields) ->
            _resolve_field ref portal_json docs_by_type
            = Ok (dict_get fields (field ref), dt ++ "." ++ field ref))
        /\ (assoc "fields" doc = None ->
            _resolve_field ref portal_json docs_by_type
            = Ok (dict_get doc (field ref), dt ++ "." ++ field ref))
        /\ (forall x,
              assoc "fields" doc = Some x ->
              (forall fields, x <> VDict fields) ->
              _resolve_field ref portal_json docs_by_type
              = Raise (AttributeError
                         ("'" ++ type_name x ++ "' object has no attribute 'get'"))))
  /\ (forall x,
        assoc dt docs_by_type = Some x ->
        (forall doc, x <> VDict doc) ->
        _resolve_field ref portal_json docs_by_type
        = Raise (AttributeError
                   ("'" ++ type_name x ++ "' object has no attribute 'get'"))).
Proof.
  intros Hs Hdt Hne.
  assert (T : negb (str_truthy (Some dt)) = false).
  { apply negb_false_iff, str_truthy_some. eauto. }
  unfold _resolve_field, document. rewrite Hs, Hdt, T.
  change (String.eqb "doc" "portal") with false.
  change (String.eqb "doc" "doc") with true. cbv iota.
  split; [|split].
  - intros ->. reflexivity.
  - intros doc ->. cbn [py_get bind]. repeat split.
    + intros fields ->. reflexivity.
    + intros ->. reflexivity.
    + intros x -> Hx. destruct x; try reflexivity. now elim (Hx d).
  - intros x -> Hx. destruct x; try reflexivity. now elim (Hx d).
Qed.

(** X5. An in_set rule with a target that resolves and a non-empty list of
    allowed values: no value ([None]) gives a FAIL "Missing value at
    <path>"; any other value, the empty string included, passes exactly
    when its string form is one of the allowed values, and fails when it
    is not. *)
Theorem in_set_rule
  (rule : CrossSourceRule) (t : FieldRef) (allowed : list string)
  (portal_json docs_by_type : PyDict) (value : PyVal) (path : string) :
  target rule = Some t ->
  allowed_values rule = Some allowed -> allowed <> [] ->
  _resolve_field t portal_json docs_by_type = Ok (value, path) ->
  exists res,
    _rule_in_set rule portal_json docs_by_type = Ok res
    /\ (rule_type rule = "in_set" ->
        _apply_rule rule portal_json docs_by_type = res)
    /\ (value = VNone ->
        res = result_of rule FAIL ("Missing value at " ++ path) [])
    /\ (value <> VNone ->
        (status res = PASS <-> In (str value) allowed)
        /\ (status res = FAIL <-> ~ In (str value) allowed)).
Proof.
  intros Ht Ha Hne HR.
  assert (A : forall res, _rule_in_set rule portal_json docs_by_type = Ok res ->
                          rule_type rule = "in_set" ->
                          _apply_rule rule portal_json docs_by_type = res).
  { intros res E T. unfold _apply_rule.
    rewrite (proj1 (proj2 (dispatch_of_type rule portal_json docs_by_type)) T).
    now rewrite E. }
  destruct allowed as [|a al]; [now elim Hne|].
  unfold _rule_in_set in *. rewrite Ht, Ha, HR in *. cbn [bind] in *.
  destruct (is_None value) eqn:N.
  - eexists. split; [reflexivity|]. split; [now apply A|]. split; [reflexivity|].
    intro H. exfalso. apply H. now apply is_None_eq.
  - assert (Hv : value <> VNone)
      by (intro H; apply is_None_eq in H; congruence).
    destruct (str_in (str value) (a :: al)) eqn:M.
    + apply str_in_In in M.
      eexists. split; [reflexivity|]. split; [now apply A|].
      split; [intro; contradiction|]. intros _. simpl status.
      repeat split; intros; try congruence; auto.
    + assert (M' : ~ In (str value) (a :: al)).
      { intro H. apply str_in_In in H. congruence. }
      eexists. split; [reflexivity|]. split; [now apply A|].
      split; [intro; contradiction|]. intros _. simpl status.
      repeat split; intros; try congruence; auto.
Qed.

(** X6. A regex rule with a target that resolves and a non-empty pattern:
    a missing value ([None]) is matched as the empty string, any other
    value as its string form; the rule passes exactly when [re.match]
    finds a match at the start, fails when it finds none, and raises the
    exception of [re.match] (an invalid pattern), which the dispatcher
    turns into a FAIL carrying its message. *)
Theorem regex_rule
  (rule : CrossSourceRule) (t : FieldRef) (re : string)
  (portal_json docs_by_type : PyDict) (value : PyVal) (path : string) :
  target rule = Some t ->
  regex rule = Some re -> re <> "" ->
  _resolve_field t portal_json docs_by_type = Ok (value, path) ->
  (forall m,
      re_match re (if is_None value then "" else str value) = Ok m ->
      exists res,
        _rule_regex rule portal_json docs_by_type = Ok res
        /\ (rule_type rule = "regex" ->
            _apply_rule rule portal_json docs_by_type = res)
        /\ (status res = PASS <-> m = true)
        /\ (status res = FAIL <-> m = false))
  /\ (forall exc,
        re_match re (if is_None value then "" else str value) = Raise exc ->
        _rule_regex rule portal_json docs_by_type = Raise exc
        /\ (rule_type rule = "regex" ->
            _apply_rule rule portal_json docs_by_type
            = result_of rule FAIL
                ("Exception while applying rule: " ++ exc_str exc) [])).
Proof.
  intros Ht Hre Hne HR.
  assert (A : forall out, _rule_regex rule portal_json docs_by_type = out ->
                          rule_type rule = "regex" ->
                          dispatch rule portal_json docs_by_type = out).
  { intros out E T.
    now rewrite (proj1 (proj2 (proj2 (dispatch_of_type rule portal_json
                                        docs_by_type))) T). }
  assert (T : str_truthy (Some re) = true) by (apply str_truthy_some; eauto).
  assert (U : _rule_regex rule portal_json docs_by_type
             = bind (re_match re (if is_None value then "" else str value))
                 (fun m => if m
                           then Ok (result_of rule PASS
                                      (path ++ " value matches regex") [])
                           else Ok (result_of rule FAIL
                                      (path ++ " value "
                                         ++ str_repr (if is_None value then ""
                                                      else str value)
                                         ++ " does not match regex "
                                         ++ str_repr re) []))).
  { unfold _rule_regex. rewrite Ht, Hre, T, HR. reflexivity. }
  split.
  - intros m Hm. rewrite Hm in U. cbn [bind] in U.
    destruct m; (eexists; split; [exact U|]; split;
                 [intro Ty; unfold _apply_rule; now rewrite (A _ U Ty)|]);
      simpl status; repeat split; intros; congruence.
  - intros exc He. rewrite He in U. cbn [bind] in U. split; [exact U|].
    intro Ty. unfold _apply_rule. now rewrite (A _ U Ty).
Qed.

Lemma flag_mismatches_dict (fields : PyDict) (fl : list FlagExpectation) :
  flag_mismatches (VDict fields) fl
  = Ok (map (fun f => (flag_field f, expected f, negb (expected f)))
          (filter (fun f => negb (Bool.eqb (truthy (dict_get fields (flag_field f)))
                                    (expected f)))
                  fl)).
Proof.
  induction fl as [|f rest IH]; [reflexivity|].
  cbn [flag_mismatches py_get bind filter]. rewrite IH. cbn [bind].
  fold (dict_get fields (flag_field f)).
  destruct (truthy (dict_get fields (flag_field f))) eqn:T,
    (expected f) eqn:X; cbn; rewrite ?X; reflexivity.
Qed.

(** X7. A flags rule whose target names a document type, with at least one
    declared expectation, on a document whose field namespace is a mapping:
    the mismatches are the declared flags, in their order, whose field is
    not truthy as expected (a field that is absent counts as false); the
    rule passes exactly when every flag is as expected and fails when some
    flag is not. *)
Theorem flags_match_rule
  (rule : CrossSourceRule) (t : FieldRef) (dt : string)
  (fl : list FlagExpectation) (portal_json docs_by_type : PyDict)
  (fields : PyDict) :
  target rule = Some t ->
  doc_type t = Some dt -> dt <> "" ->
  flags rule = Some fl -> fl <> [] ->
  py_get (document docs_by_type dt) "fields" (document docs_by_type dt)
  = Ok (VDict fields) ->
  flag_mismatches (VDict fields) fl
  = Ok (map (fun f => (flag_field f, expected f, negb (expected f)))
          (filter (fun f => negb (Bool.eqb (truthy (dict_get fields (flag_field f)))
                                    (expected f)))
                  fl))
  /\ exists res,
      _rule_flags_match rule portal_json docs_by_type = Ok res
      /\ (rule_type rule = "flags_match" ->
          _apply_rule rule portal_json docs_by_type = res)
      /\ (status res = PASS
          <-> forall f, In f fl ->
                        truthy (dict_get fields (flag_field f)) = expected f)
      /\ (status res = FAIL
          <-> exists f, In f fl
                        /\ truthy (dict_get fields (flag_field f)) <> expected f).
Proof.
  intros Ht Hdt Hne Hfl Hnil Hfields.
  split; [apply flag_mismatches_dict|].
  assert (A : forall res, _rule_flags_match rule portal_json docs_by_type = Ok res ->
                          rule_type rule = "flags_match" ->
                          _apply_rule rule portal_json docs_by_type = res).
  { intros res E T. unfold _apply_rule.
    rewrite (proj2 (proj2 (proj2 (proj2 (proj2
               (dispatch_of_type rule portal_json docs_by_type))))) T).
    now rewrite E. }
  assert (D : str_truthy (doc_type t) = true)
    by (apply str_truthy_some; eauto).
  remember (filter (fun f => negb (Bool.eqb (truthy (dict_get fields (flag_field f)))
                                      (expected f))) fl) as bad eqn:Ebad.
  assert (Hbad : forall f, In f bad <->
                           In f fl /\ truthy (dict_get fields (flag_field f))
                                      <> expected f).
  { intro f. rewrite Ebad, filter_In, negb_true_iff.
    split; intros [H1 H2]; split; auto.
    - intro E. rewrite E in H2. now rewrite Bool.eqb_reflx in H2.
    - destruct (Bool.eqb _ _) eqn:E; [|reflexivity].
      apply Bool.eqb_prop in E. contradiction. }
  assert (Hgood : bad = [] <->
                  forall f, In f fl ->
                            truthy (dict_get fields (flag_field f)) = expected f).
  { clear Ebad. split.
    - intros E f Hin.
      destruct (Bool.bool_dec (truthy (dict_get fields (flag_field f)))
                  (expected f)) as [H|H]; [exact H|].
      assert (Hb : In f bad) by (apply Hbad; auto). rewrite E in Hb. destruct Hb.
    - intro H. destruct bad as [|f rest]; [reflexivity|].
      destruct (proj1 (Hbad f) (or_introl eq_refl)) as [Hin Hd].
      elim Hd. now apply H. }
  assert (E : _rule_flags_match rule portal_json docs_by_type
              = match bad with
                | [] => Ok (result_of rule PASS
                              ("All required flags present for " ++ dt) [])
                | _ :: _ =>
                    Ok (result_of rule FAIL
                          ("Flag mismatches for " ++ dt ++ ": "
                             ++ String.concat ", "
                                  (map (fun m => match m with
                                                 | (name, exp, act) =>
                                                     name ++ "=expected "
                                                       ++ bool_str exp
                                                       ++ ", got " ++ bool_str act
                                                 end)
                                       (map (fun f => (flag_field f, expected f,
                                                       negb (expected f))) bad)))
                          [])
                end).
  { unfold _rule_flags_match. rewrite Ht, Hfl.
    destruct fl as [|f0 fl0]; [now elim Hnil|].
    rewrite D, Hdt. cbn [negb]. rewrite Hfields. cbn [bind].
    rewrite flag_mismatches_dict, <- Ebad. cbn [bind].
    now destruct bad. }
  clear Ebad. destruct bad as [|b rest].
  - eexists. split; [exact E|]. split; [now apply A|]. simpl status. split.
    + split; [intros _; now apply Hgood | reflexivity].
    + split; [discriminate|]. intros [f [Hin Hd]].
      assert (Hb : In f []) by (apply Hbad; auto). destruct Hb.
  - eexists. split; [exact E|]. split; [now apply A|]. simpl status. split.
    + split; [discriminate|]. intro H. apply Hgood in H. discriminate.
    + split; [|reflexivity]. intros _. exists b. apply Hbad. now left.
Qed.

(** X8. A rule whose required payload is missing fails on an assertion
    that has no message: the dispatcher returns a FAIL whose message is
    "Exception while applying rule: " with nothing after it.  This is so
    for an equality rule without left or right reference, and for an
    in_set, regex, date, page-count or flags rule without target, or
    without (or with an empty) list of allowed values, pattern or list of
    flags. *)
Theorem missing_payload_message
  (rule : CrossSourceRule) (portal_json docs_by_type : PyDict) :
  (rule_type rule = "equality" /\ (left rule = None \/ right rule = None))
  \/ (rule_type rule = "in_set"
      /\ (target rule = None \/ allowed_values rule = None
          \/ allowed_values rule = Some []))
  \/ (rule_type rule = "regex"
      /\ (target rule = None \/ regex rule = None \/ regex rule = Some ""))
  \/ (rule_type rule = "date_within_year" /\ target rule = None)
  \/ (rule_type rule = "page_count_between" /\ target rule = None)
  \/ (rule_type rule = "flags_match"
      /\ (target rule = None \/ flags rule = None \/ flags rule = Some [])) ->
  _apply_rule rule portal_json docs_by_type
  = result_of rule FAIL "Exception while applying rule: " [].
Proof.
  assert (R : dispatch rule portal_json docs_by_type = Raise AssertionError ->
              _apply_rule rule portal_json docs_by_type
              = result_of rule FAIL "Exception while applying rule: " []).
  { intro E. unfold _apply_rule. now rewrite E. }
  pose proof (dispatch_of_type rule portal_json docs_by_type)
    as [D1 [D2 [D3 [D4 [D5 D6]]]]].
  intros [[T H]|[[T H]|[[T H]|[[T H]|[[T H]|[T H]]]]]]; apply R.
  - rewrite (D1 T). unfold _rule_equality.
    destruct H as [->| ->]; [reflexivity | now destruct (left rule)].
  - rewrite (D2 T). unfold _rule_in_set.
    destruct H as [->|[->| ->]]; [reflexivity | | ];
      now destruct (target rule).
  - rewrite (D3 T). unfold _rule_regex.
    destruct H as [->|[->| ->]]; [reflexivity | | ];
      now destruct (target rule).
  - rewrite (D4 T). unfold _rule_date_within_year. now rewrite H.
  - rewrite (D5 T). unfold _rule_page_count. now rewrite H.
  - rewrite (D6 T). unfold _rule_flags_match.
    destruct H as [->|[->| ->]]; [reflexivity | | ];
      now destruct (target rule).
Qed.

(* ------------------------------------------------------------------ *)
(** ** Severity and the outcome of a run *)

Ltac same_but_severity :=
  unfold exc_map, bind, result_of; cbn [with_severity id description severity
    rule_type left right target allowed_values regex year_delta min_pages
    max_pages flags];
  repeat match goal with
         | |- context [match ?x with _ => _ end] =>
             destruct x eqn:?; cbv beta iota
         end;
  try reflexivity.

Lemma rule_equality_severity s rule portal_json docs_by_type :
  _rule_equality (with_severity s rule) portal_json docs_by_type
  = exc_map (result_with_severity s) (_rule_equality rule portal_json docs_by_type).
Proof. unfold _rule_equality. same_but_severity. Qed.

Lemma rule_in_set_severity s rule portal_json docs_by_type :
  _rule_in_set (with_severity s rule) portal_json docs_by_type
  = exc_map (result_with_severity s) (_rule_in_set rule portal_json docs_by_type).
Proof. unfold _rule_in_set. same_but_severity. Qed.

Lemma rule_regex_severity s rule portal_json docs_by_type :
  _rule_regex (with_severity s rule) portal_json docs_by_type
  = exc_map (result_with_severity s) (_rule_regex rule portal_json docs_by_type).
Proof. unfold _rule_regex. same_but_severity. Qed.

Lemma rule_date_severity s rule portal_json docs_by_type :
  _rule_date_within_year (with_severity s rule) portal_json docs_by_type
  = exc_map (result_with_severity s)
      (_rule_date_within_year rule portal_json docs_by_type).
Proof. unfold _rule_date_within_year. same_but_severity. Qed.

Lemma rule_page_count_severity s rule portal_json docs_by_type :
  _rule_page_count (with_severity s rule) portal_json docs_by_type
  = exc_map (result_with_severity s) (_rule_page_count rule portal_json docs_by_type).
Proof. unfold _rule_page_count. same_but_severity. Qed.

Lemma rule_flags_severity s rule portal_json docs_by_type :
  _rule_flags_match (with_severity s rule) portal_json docs_by_type
  = exc_map (result_with_severity s) (_rule_flags_match rule portal_json docs_by_type).
Proof. unfold _rule_flags_match. same_but_severity. Qed.

Lemma apply_rule_severity s rule portal_json docs_by_type :
  _apply_rule (with_severity s rule) portal_json docs_by_type
  = result_with_severity s (_apply_rule rule portal_json docs_by_type).
Proof.
  unfold _apply_rule, dispatch.
  rewrite rule_equality_severity, rule_in_set_severity, rule_regex_severity,
    rule_date_severity, rule_page_count_severity, rule_flags_severity.
  cbn [with_severity rule_type].
  repeat match goal with
         | |- context [if ?c then _ else _] => destruct c
         end;
    try reflexivity;
    match goal with
    | |- context [exc_map _ ?m] => destruct m; reflexivity
    end.
Qed.

Lemma any_status_map (st : RuleStatus) (rs : list RuleResult) :
  existsb (fun r => status_eqb (status r) st) rs
  = existsb (fun x => status_eqb x st) (map status rs).
Proof. induction rs as [|r rs IH]; simpl; [reflexivity | now rewrite IH]. Qed.

Lemma aggregate_status_by_statuses (rs rs' : list RuleResult) :
  map status rs = map status rs' ->
  _aggregate_status rs = _aggregate_status rs'.
Proof.
  intro H. unfold _aggregate_status. now rewrite !any_status_map, H.
Qed.

(** X9. The severity of a cross-source rule is carried into its result and
    nothing more: a rule with another severity gives the same result but
    for the severity, and a run in which the rules bear other severities
    returns a report with the same summary status and the same statuses,
    rule ids and messages, in the same order. *)
Theorem severity_is_informational
  (config : ValidationConfig) (new_severity : CrossSourceRule -> Severity)
  (portal_json docs_by_type : PyDict) (report : ValidationReport) :
  validate config portal_json docs_by_type = Ok report ->
  (forall s rule,
      _apply_rule (with_severity s rule) portal_json docs_by_type
      = result_with_severity s (_apply_rule rule portal_json docs_by_type))
  /\ exists report',
      validate
        {| portal_field_validations := portal_field_validations config;
           cross_source_rules :=
             map (fun rule => with_severity (new_severity rule) rule)
                 (cross_source_rules config) |}
        portal_json docs_by_type = Ok report'
      /\ summary_status report' = summary_status report
      /\ map status (results report') = map status (results report)
      /\ map rule_id (results report') = map rule_id (results report)
      /\ map message (results report') = map message (results report).
Proof.
  intro H. split; [intros; apply apply_rule_severity|].
  destruct (validate_report _ _ _ _ H) as [pr [Hp [Hr Hs]]].
  unfold validate. cbn [portal_field_validations cross_source_rules].
  rewrite Hp. cbn [bind]. eexists. split; [reflexivity|].
  cbn [summary_status results].
  assert (C : forall (proj : RuleResult -> string) ,
             (forall s r, proj (result_with_severity s r) = proj r) ->
             map proj (cross_checks
                         (map (fun rule => with_severity (new_severity rule) rule)
                              (cross_source_rules config))
                         portal_json docs_by_type)
             = map proj (cross_checks (cross_source_rules config)
                           portal_json docs_by_type)).
  { intros proj Hproj. unfold cross_checks. rewrite !map_map.
    apply map_ext. intro rule. now rewrite apply_rule_severity, Hproj. }
  assert (S : map status (cross_checks
                            (map (fun rule => with_severity (new_severity rule) rule)
                                 (cross_source_rules config))
                            portal_json docs_by_type)
              = map status (cross_checks (cross_source_rules config)
                              portal_json docs_by_type)).
  { unfold cross_checks. rewrite !map_map.
    apply map_ext. intro rule. now rewrite apply_rule_severity. }
  assert (S' : map status
                 (pr ++ cross_checks
                          (map (fun rule => with_severity (new_severity rule) rule)
                               (cross_source_rules config))
                          portal_json docs_by_type)%list
               = map status (results report)).
  { now rewrite Hr, !map_app, S. }
  split; [rewrite Hs; now apply aggregate_status_by_statuses|].
  split; [exact S'|].
  rewrite Hr, !map_app. split; f_equal; apply C; reflexivity.
Qed.

Lemma report_statuses
  (config : ValidationConfig) (portal_json docs_by_type : PyDict)
  (report : ValidationReport) :
  validate config portal_json docs_by_type = Ok report ->
  forall r, In r (results report) ->
            status r = PASS \/ status r = FAIL \/ status r = SKIP.
Proof.
  intros H r Hin. destruct (validate_report _ _ _ _ H) as [pr [Hp [Hr _]]].
  rewrite Hr in Hin. apply in_app_or in Hin. destruct Hin as [Hin|Hin].
  - destruct (portal_checks_status _ _ _ Hp r Hin); auto.
  - unfold cross_checks in Hin. apply in_map_iff in Hin.
    destruct Hin as [rule [<- _]].
    destruct (apply_rule_result rule portal_json docs_by_type)
      as [st [msg [ctx [-> E]]]]. exact E.
Qed.

(** X10. A run passes exactly when no result fails: a SKIP result (a rule
    of unknown type) never lowers the summary, and a report whose results
    are all PASS or SKIP, or that has no result at all, has the summary
    PASS. *)
Theorem summary_pass_iff_no_fail
  (config : ValidationConfig) (portal_json docs_by_type : PyDict)
  (report : ValidationReport) :
  validate config portal_json docs_by_type = Ok report ->
  (summary_status report = PASS
   <-> forall r, In r (results report) -> status r = PASS \/ status r = SKIP)
  /\ (summary_status report = FAIL
      <-> ~ forall r, In r (results report) -> status r = PASS \/ status r = SKIP).
Proof.
  intro H. pose proof (report_statuses _ _ _ _ H) as St.
  destruct (validate_report _ _ _ _ H) as [pr [_ [_ Hs]]].
  destruct (aggregate_status_cases (results report)) as [HF [HW HP]].
  rewrite Hs.
  assert (P : _aggregate_status (results report) = PASS
              <-> forall r, In r (results report) ->
                            status r = PASS \/ status r = SKIP).
  { rewrite HP. split.
    - intros N r Hin. destruct (N r Hin) as [N1 _].
      destruct (St r Hin) as [E|[E|E]]; auto. contradiction.
    - intros N r Hin. destruct (N r Hin) as [E|E]; rewrite E; split; discriminate. }
  split; [exact P|].
  split.
  - intros E N. apply P in N. congruence.
  - intro N.
    assert (K : _aggregate_status (results report) = PASS
                \/ _aggregate_status (results report) = FAIL
                \/ _aggregate_status (results report) = WARNING).
    { unfold _aggregate_status.
      destruct (existsb _ _); auto. destruct (existsb _ _); auto. }
    destruct K as [E|[E|E]]; auto.
    + elim N. now apply P.
    + apply HW in E. destruct E as [_ [r [Hin Hw]]].
      destruct (St r Hin) as [E|[E|E]]; congruence.
Qed.

(* ------------------------------------------------------------------ *)
(** ** What a portal result guarantees *)

Lemma portal_pass_iff
  (field_name : string) (cfg : PortalFieldValidation) (portal_json : PyDict)
  (r : RuleResult) :
  _validate_portal_field field_name cfg portal_json = Ok (Some r) ->
  (status r = PASS
   <-> meets_constraints cfg (dict_get portal_json field_name)).
Proof.
  unfold meets_constraints, _validate_portal_field, bind.
  set (raw := dict_get portal_json field_name).
  set (s := str raw).
  intro H.
  destruct (in_None_or_empty raw) eqn:E.
  { destruct (required cfg); [|discriminate].
    injection H as <-. simpl status. split; [discriminate|].
    intros [N _]. discriminate. }
  (* the pattern *)
  destruct (match pattern cfg with
            | Some p => if str_truthy (Some p) then re_match p s else Ok true
            | None => Ok true
            end) as [ok|e] eqn:P; [|discriminate].
  assert (Pat : ok = true <->
                forall p, pattern cfg = Some p -> p <> "" -> re_match p s = Ok true).
  { destruct (pattern cfg) as [p|].
    - cbn [str_truthy] in P. destruct (String.eqb p "") eqn:Ep; cbn [negb] in P.
      + apply String.eqb_eq in Ep. injection P as <-.
        split; [|reflexivity]. intros _ p' [= <-] Hp. contradiction.
      + apply String.eqb_neq in Ep. split.
        * intros -> p' [= <-] _. exact P.
        * intro Hp. specialize (Hp p eq_refl Ep). congruence.
    - injection P as <-. split; [|reflexivity]. intros _ p' Hp. discriminate. }
  (* the allowed values *)
  assert (All : (list_truthy (pf_allowed_values cfg)
                 && negb (str_in s match pf_allowed_values cfg with
                                   | Some l => l
                                   | None => []
                                   end))%bool = false
                <-> forall allowed, pf_allowed_values cfg = Some allowed ->
                                    allowed <> [] -> In s allowed).
  { destruct (pf_allowed_values cfg) as [[|a l]|]; cbn [list_truthy andb].
    - split; [|reflexivity]. intros _ allowed [= <-] Hn. now elim Hn.
    - rewrite negb_false_iff, str_in_In. split.
      + intros Hin allowed [= <-] _. exact Hin.
      + intro Hal. apply (Hal (a :: l) eq_refl). discriminate.
    - split; [|reflexivity]. intros _ allowed Hn. discriminate. }
  assert (Min : match min_length cfg with
                | Some n => len s <? n
                | None => false
                end = false
                <-> forall n, min_length cfg = Some n -> n <= len s).
  { destruct (min_length cfg) as [n|].
    - rewrite Z.ltb_ge. split; [intros Hn n' [= <-]; exact Hn | auto].
    - split; [intros _ n' Hn; discriminate | reflexivity]. }
  assert (Max : match max_length cfg with
                | Some n => len s >? n
                | None => false
                end = false
                <-> forall n, max_length cfg = Some n -> len s <= n).
  { destruct (max_length cfg) as [n|].
    - rewrite Z.gtb_ltb, Z.ltb_ge.
      split; [intros Hn n' [= <-]; exact Hn | auto].
    - split; [intros _ n' Hn; discriminate | reflexivity]. }
  destruct ok; cbn [negb] in H.
  2: { injection H as <-. simpl status. split; [discriminate|].
       intros [_ [Hp _]]. apply Pat in Hp. discriminate. }
  destruct (list_truthy (pf_allowed_values cfg) && _)%bool eqn:EA.
  { injection H as <-. simpl status. split; [discriminate|].
    intros [_ [_ [Ha _]]]. apply All in Ha. discriminate. }
  destruct (match min_length cfg with Some n => len s <? n | None => false end)
    eqn:EMin.
  { injection H as <-. simpl status. split; [discriminate|].
    intros [_ [_ [_ [Hm _]]]]. apply Min in Hm. discriminate. }
  destruct (match max_length cfg with Some n => len s >? n | None => false end)
    eqn:EMax.
  { injection H as <-. simpl status. split; [discriminate|].
    intros [_ [_ [_ [_ Hm]]]]. apply Max in Hm. discriminate. }
  injection H as <-. simpl status. split; [|reflexivity]. intros _.
  split; [reflexivity|]. split; [now apply Pat|]. split; [now apply All|].
  split; [now apply Min | now apply Max].
Qed.

(** X11. The result of a portal check is a PASS exactly when the value is
    present and meets every configured constraint: the pattern (when one
    is configured) matches at the start of the string form, the string
    form is one of the allowed values (when the list is configured and not
    empty), and its length is at least the minimum and at most the maximum
    (when they are set). *)
Theorem portal_pass_guarantee
  (field_name : string) (cfg : PortalFieldValidation) (portal_json : PyDict)
  (r : RuleResult) :
  _validate_portal_field field_name cfg portal_json = Ok (Some r) ->
  (status r = PASS
   <-> in_None_or_empty (dict_get portal_json field_name) = false
       /\ (forall p, pattern cfg = Some p -> p <> "" ->
                     re_match p (str (dict_get portal_json field_name)) = Ok true)
       /\ (forall allowed, pf_allowed_values cfg = Some allowed -> allowed <> [] ->
                           In (str (dict_get portal_json field_name)) allowed)
       /\ (forall n, min_length cfg = Some n ->
                     n <= len (str (dict_get portal_json field_name)))
       /\ (forall n, max_length cfg = Some n ->
                     len (str (dict_get portal_json field_name)) <= n)).
Proof. exact (portal_pass_iff field_name cfg portal_json r). Qed.

(* ------------------------------------------------------------------ *)
(** ** White space around a value *)

Lemma lstrip_spaces (l s : string) :
  all_space l = true -> lstrip (l ++ s) = lstrip s.
Proof.
  induction l as [|c l IH]; simpl; intro H; [reflexivity|].
  apply andb_true_iff in H. destruct H as [Hc Hl]. rewrite Hc. auto.
Qed.

Lemma rstrip_all_space (r : string) : all_space r = true -> rstrip r = "".
Proof.
  induction r as [|c r IH]; simpl; intro H; [reflexivity|].
  apply andb_true_iff in H. destruct H as [Hc Hr]. now rewrite (IH Hr), Hc.
Qed.

Lemma rstrip_spaces (s r : string) :
  all_space r = true -> rstrip (s ++ r) = rstrip s.
Proof.
  intro H. induction s as [|c s IH]; simpl.
  - now apply rstrip_all_space.
  - now rewrite IH.
Qed.

Lemma strip_spaces (l s r : string) :
  all_space l = true -> all_space r = true ->
  strip (l ++ s ++ r) = strip s.
Proof.
  intros Hl Hr. unfold strip. rewrite (lstrip_spaces l (s ++ r) Hl).
  induction s as [|c s IH]; simpl.
  - assert (E : lstrip r = "").
    { clear Hl. induction r as [|c r IHr]; simpl; [reflexivity|].
      simpl in Hr. apply andb_true_iff in Hr. destruct Hr as [Hc Hr].
      rewrite Hc. auto. }
    now rewrite E.
  - destruct (is_space c); [exact IH|].
    change (String c (s ++ r)) with (String c s ++ r).
    now apply rstrip_spaces.
Qed.

(** X12. White space before or after a date does not change how it is
    parsed: [_parse_date] returns the same date, or raises the same error
    with the same message, for a text and for that text between any two
    runs of white space. *)
Theorem parse_date_ignores_padding (l s r : string) :
  all_space l = true -> all_space r = true ->
  _parse_date (l ++ s ++ r) = _parse_date s.
Proof.
  intros Hl Hr. unfold _parse_date. now rewrite (strip_spaces l s r Hl Hr).
Qed.

(** X13. An equality rule does not see the white space around its values:
    two values whose string forms are the same text between runs of white
    space give a PASS. *)
Theorem equality_ignores_padding
  (rule : CrossSourceRule) (l r : FieldRef) (portal_json docs_by_type : PyDict)
  (left_val right_val : PyVal) (left_path right_path : string)
  (core l1 r1 l2 r2 : string) :
  left rule = Some l ->
  right rule = Some r ->
  _resolve_field l portal_json docs_by_type = Ok (left_val, left_path) ->
  _resolve_field r portal_json docs_by_type = Ok (right_val, right_path) ->
  left_val <> VNone -> right_val <> VNone ->
  all_space l1 = true -> all_space r1 = true ->
  all_space l2 = true -> all_space r2 = true ->
  str left_val = l1 ++ core ++ r1 ->
  str right_val = l2 ++ core ++ r2 ->
  _rule_equality rule portal_json docs_by_type
  = Ok (result_of rule PASS
          ("Values match for " ++ left_path ++ " and " ++ right_path)
          [("left", str left_val); ("right", str right_val)]).
Proof.
  intros Hl Hr HL HR NL NR S1 S2 S3 S4 E1 E2.
  unfold _rule_equality. rewrite Hl, Hr, HL, HR. cbn [bind].
  assert (N1 : is_None left_val = false)
    by (destruct left_val; try reflexivity; now elim NL).
  assert (N2 : is_None right_val = false)
    by (destruct right_val; try reflexivity; now elim NR).
  rewrite N1, N2. cbn [orb].
  rewrite E1, E2, !strip_spaces by assumption.
  now rewrite String.eqb_refl.
Qed.

(* ------------------------------------------------------------------ *)
(** ** The four date formats exclude one another *)

Lemma first_some_some {A B} (f : A -> option B) (l : list A) (b : B) :
  first_some f l = Some b -> exists a, In a l /\ f a = Some b.
Proof.
  induction l as [|a l IH]; simpl; [discriminate|].
  destruct (f a) as [b'|] eqn:E.
  - intros [= <-]. exists a. auto.
  - intro H. destruct (IH H) as [a' [Hin Ha]]. exists a'. auto.
Qed.

(** A text that starts with a day: one character and then the rest, or
    two characters, the second a digit, and then the rest. *)
Lemma match_day (s txt r : string) (alt : list (ascii -> bool)) :
  In alt (directive_re dir_d) ->
  match_alt alt s = Some (txt, r) ->
  (exists c0, s = String c0 r)
  \/ (exists c0 c1, s = String c0 (String c1 r) /\ is_digit c1 = true).
Proof.
  assert (R : forall lo hi c, in_range lo hi c = true ->
                              N.leb 48 lo = true -> N.leb hi 57 = true ->
                              is_digit c = true).
  { unfold is_digit, in_range. intros lo hi c H H1 H2.
    apply andb_true_iff in H. destruct H as [Ha Hb].
    apply N.leb_le in Ha, Hb, H1, H2.
    apply andb_true_iff. split; apply N.leb_le; lia. }
  cbn [directive_re In].
  intros [<-|[<-|[<-|[<-|[<-|[]]]]]]; cbn [match_alt];
    destruct s as [|c0 s]; try discriminate;
    match goal with
    | |- context [if ?b then _ else _] => destruct b; try discriminate
    end;
    try (destruct s as [|c1 s]; try discriminate;
         match goal with
         | |- context [if ?b then _ else _] => destruct b eqn:D; try discriminate
         end);
    cbn [option_map fst snd]; intros [= <- <-];
    first [ left; eexists; reflexivity
          | right; exists c0, c1; split; [reflexivity|];
            first [ exact D | eapply R; [exact D | reflexivity | reflexivity] ] ].
Qed.

(** A text that a day-first format parses has the separator as its second
    character, or as its third character after a digit. *)
Lemma day_first_shape (sep : ascii) (rest : list FmtTok) (s : string) (d : Date) :
  strptime s (Dir dir_d :: Lit sep :: rest) = Some d ->
  (exists c0 r, s = String c0 (String sep r))
  \/ (exists c0 c1 r, s = String c0 (String c1 (String sep r))
                      /\ is_digit c1 = true).
Proof.
  unfold strptime.
  destruct (match_fmt (Dir dir_d :: Lit sep :: rest) s) as [[gs out]|] eqn:M;
    [|discriminate].
  intros _. cbn [match_fmt] in M. apply first_some_some in M.
  destruct M as [alt [Hin M]].
  destruct (match_alt alt s) as [[txt r]|] eqn:A; [|discriminate].
  assert (Hr : exists r', r = String sep r').
  { destruct r as [|c r']; [discriminate|].
    destruct (Ascii.eqb sep c) eqn:E; [|discriminate].
    apply Ascii.eqb_eq in E. subst c. eauto. }
  destruct Hr as [r' ->].
  destruct (match_day s txt _ alt Hin A) as [[c0 ->]|[c0 [c1 [-> D]]]]; eauto 6.
Qed.

(** A text that the year-first format parses starts with four digits. *)
Lemma year_first_shape (rest : list FmtTok) (s : string) (d : Date) :
  strptime s (Dir dir_Y :: rest) = Some d ->
  exists c0 c1 c2 r,
    s = String c0 (String c1 (String c2 r))
    /\ is_digit c1 = true /\ is_digit c2 = true.
Proof.
  unfold strptime.
  destruct (match_fmt (Dir dir_Y :: rest) s) as [[gs out]|] eqn:M; [|discriminate].
  intros _. cbn [match_fmt directive_re first_some match_alt] in M.
  destruct s as [|c0 [|c1 [|c2 r]]]; cbn in M; try discriminate;
    repeat match type of M with
           | context [if ?b then _ else _] => destruct b eqn:?; try discriminate
           end.
  exists c0, c1, c2, r. auto.
Qed.

Lemma one_format_parses (s : string) (fmt1 fmt2 : list FmtTok) (d1 d2 : Date) :
  In fmt1 date_formats -> In fmt2 date_formats ->
  strptime s fmt1 = Some d1 -> strptime s fmt2 = Some d2 ->
  fmt1 = fmt2.
Proof.
  intros H1 H2. unfold date_formats in H1, H2. cbn [In] in H1, H2.
  assert (DS : forall sep rest rest' d d',
             is_digit sep = false ->
             strptime s (Dir dir_Y :: rest) = Some d ->
             strptime s (Dir dir_d :: Lit sep :: rest') = Some d' -> False).
  { intros sep rest rest' d d' Hsep PY PD.
    destruct (year_first_shape _ _ _ PY) as [c0 [c1 [c2 [r [E [D1 D2]]]]]].
    destruct (day_first_shape _ _ _ _ PD)
      as [[b0 [r' E']]|[b0 [b1 [r' [E' _]]]]]; rewrite E in E';
      injection E' as; subst; congruence. }
  assert (DD : forall sep sep' rest rest' d d',
             is_digit sep = false -> is_digit sep' = false -> sep <> sep' ->
             strptime s (Dir dir_d :: Lit sep :: rest) = Some d ->
             strptime s (Dir dir_d :: Lit sep' :: rest') = Some d' -> False).
  { intros sep sep' rest rest' d d' Hs Hs' Hne P P'.
    destruct (day_first_shape _ _ _ _ P)
      as [[b0 [r E]]|[b0 [b1 [r [E D]]]]];
      destruct (day_first_shape _ _ _ _ P')
        as [[b0' [r' E']]|[b0' [b1' [r' [E' D']]]]];
      rewrite E in E'; injection E' as; subst; congruence. }
  destruct H1 as [<-|[<-|[<-|[<-|[]]]]];
    destruct H2 as [<-|[<-|[<-|[<-|[]]]]];
    intros P1 P2; try reflexivity; exfalso;
    first [ refine (DS _ _ _ _ _ _ P1 P2); reflexivity
          | refine (DS _ _ _ _ _ _ P2 P1); reflexivity
          | refine (DD _ _ _ _ _ _ _ _ _ P1 P2);
            first [ reflexivity | discriminate ] ].
Qed.

(** X14. No text is a date in two of the four formats: the format that
    parses a text, if there is one, is the only one that does.  So
    [_parse_date] returns a date exactly when some format parses the
    stripped text, whatever the place of that format in the list. *)
Theorem date_formats_exclusive (s : string) :
  (forall fmt1 fmt2 d1 d2,
      In fmt1 date_formats -> In fmt2 date_formats ->
      strptime s fmt1 = Some d1 -> strptime s fmt2 = Some d2 ->
      fmt1 = fmt2)
  /\ (forall d,
        _parse_date s = Ok d
        <-> exists fmt, In fmt date_formats /\ strptime (strip s) fmt = Some d).
Proof.
  split; [apply one_format_parses|].
  intro d. unfold _parse_date.
  destruct (try_formats (strip s) date_formats) as [d'|] eqn:T.
  - apply try_formats_some in T. destruct T as [i [fmt [Hi [Hp _]]]].
    apply nth_error_In in Hi. split.
    + intros [= <-]. eauto.
    + intros [fmt' [Hin' Hp']].
      rewrite (one_format_parses _ _ _ _ _ Hi Hin' Hp Hp') in Hp. congruence.
  - apply try_formats_none in T. split; [discriminate|].
    intros [fmt [Hin Hp]]. rewrite (T fmt Hin) in Hp. discriminate.
Qed.

(* ------------------------------------------------------------------ *)
(** ** One entry per field in the per-field view *)

Lemma assoc_dict_set_same {A} (k : string) (v : A) (d : list (string * A)) :
  assoc k (dict_set k v d) = Some v.
Proof.
  induction d as [|[k0 v0] d IH]; cbn [dict_set assoc].
  - now rewrite String.eqb_refl.
  - destruct (String.eqb k k0) eqn:E; cbn [assoc]; rewrite ?String.eqb_refl, ?E;
      auto.
Qed.

Lemma assoc_dict_set_other {A} (k k' : string) (v : A) (d : list (string * A)) :
  k <> k' -> assoc k (dict_set k' v d) = assoc k d.
Proof.
  intro H. apply String.eqb_neq in H.
  induction d as [|[k0 v0] d IH]; cbn [dict_set assoc].
  - now rewrite H.
  - destruct (String.eqb k' k0) eqn:E; cbn [assoc].
    + apply String.eqb_eq in E. subst k0. now rewrite H.
    + now rewrite IH.
Qed.

Lemma dict_set_key_list {A} (k : string) (v : A) (d : list (string * A)) :
  map fst (dict_set k v d)
  = if existsb (String.eqb k) (map fst d) then map fst d
    else (map fst d ++ [k])%list.
Proof.
  induction d as [|[k0 v0] d IH]; cbn [dict_set map fst existsb app];
    [reflexivity|].
  destruct (String.eqb k k0) eqn:E; cbn [map fst orb].
  - apply String.eqb_eq in E. now subst.
  - rewrite IH. now destruct (existsb (String.eqb k) (map fst d)).
Qed.

Lemma dict_set_nodup {A} (k : string) (v : A) (d : list (string * A)) :
  NoDup (map fst d) -> NoDup (map fst (dict_set k v d)).
Proof.
  intro H. rewrite dict_set_key_list.
  destruct (existsb (String.eqb k) (map fst d)) eqn:E; [exact H|].
  apply NoDup_app; [exact H | repeat constructor; intros [] |].
  intros x Hx Hk. destruct Hk as [Hk|[]]. subst x.
  assert (C : existsb (String.eqb k) (map fst d) = true).
  { apply existsb_exists. exists k. split; [exact Hx | apply String.eqb_refl]. }
  congruence.
Qed.

Lemma assoc_in {A} (k : string) (v : A) (d : list (string * A)) :
  assoc k d = Some v -> In (k, v) d.
Proof.
  induction d as [|[k0 v0] d IH]; cbn [assoc]; [discriminate|].
  destruct (String.eqb k k0) eqn:E.
  - apply String.eqb_eq in E. intros [= <-]. subst. now left.
  - intro H. right. auto.
Qed.

Lemma field_results_step_nodup portal_json by_field r :
  NoDup (map fst by_field) ->
  NoDup (map fst (field_results_step portal_json by_field r)).
Proof.
  intro H. unfold field_results_step.
  destruct (negb (startswith "PORTAL_FIELD_" (rule_id r))); [exact H|].
  destruct (split_once ":" ":" (rule_id r)) as [[p f]|]; [|exact H].
  now apply dict_set_nodup.
Qed.

Lemma field_results_fold_nodup portal_json rs :
  forall by_field,
    NoDup (map fst by_field) ->
    NoDup (map fst (fold_left (field_results_step portal_json) rs by_field)).
Proof.
  induction rs as [|r rs IH]; cbn [fold_left]; intros by_field H; [exact H|].
  apply IH. now apply field_results_step_nodup.
Qed.

Lemma field_results_fold_names portal_json rs :
  map field_name (map snd (fold_left (field_results_step portal_json) rs []))
  = map fst (fold_left (field_results_step portal_json) rs []).
Proof.
  rewrite map_map. apply map_ext_in. intros [k fr] Hin. cbn [fst snd].
  eapply (field_results_loop portal_json rs rs []); eauto.
  intros k' fr' [].
Qed.

(** The entry of a field after the loop: the one written by the last rule
    result for that field. *)
Lemma field_results_last_wins portal_json (f prefix : string) (r : RuleResult) :
  forall (after : list RuleResult) (by_field : list (string * FieldValidationResult)),
    is_portal_result r = true ->
    split_once ":" ":" (rule_id r) = Some (prefix, f) ->
    (forall r' p', In r' after -> is_portal_result r' = true ->
                   split_once ":" ":" (rule_id r') <> Some (p', f)) ->
    assoc f (fold_left (field_results_step portal_json) (r :: after) by_field)
    = Some (field_result_of r f portal_json).
Proof.
  intros after by_field Hp Hs Hafter. cbn [fold_left].
  assert (E : assoc f (field_results_step portal_json by_field r)
              = Some (field_result_of r f portal_json)).
  { unfold field_results_step. unfold is_portal_result in Hp. rewrite Hp, Hs.
    cbn [negb]. apply assoc_dict_set_same. }
  revert E. generalize (field_results_step portal_json by_field r).
  induction after as [|r' after IH]; cbn [fold_left]; intros acc E; [exact E|].
  apply IH; [intros; eapply Hafter; eauto; now right|].
  unfold field_results_step.
  destruct (startswith "PORTAL_FIELD_" (rule_id r')) eqn:P; cbn [negb]; auto.
  destruct (split_once ":" ":" (rule_id r')) as [[p' f']|] eqn:S; auto.
  rewrite assoc_dict_set_other; [exact E|].
  intros ->. eapply (Hafter r' p'); eauto. now left.
Qed.

(** X15. The per-field view holds at most one entry per field name,
    whatever the report: its field names are pairwise distinct.  When
    several rule results name the same field, the entry is the one of the
    last of them in the report. *)
Theorem one_entry_per_field (report : ValidationReport) (portal_json : PyDict) :
  NoDup (map field_name (portal_report_to_field_results report portal_json))
  /\ (forall before r after prefix f,
        results report = (before ++ r :: after)%list ->
        is_portal_result r = true ->
        split_once ":" ":" (rule_id r) = Some (prefix, f) ->
        (forall r' p', In r' after -> is_portal_result r' = true ->
                       split_once ":" ":" (rule_id r') <> Some (p', f)) ->
        In (field_result_of r f portal_json)
           (portal_report_to_field_results report portal_json)).
Proof.
  unfold portal_report_to_field_results. split.
  - rewrite field_results_fold_names.
    apply field_results_fold_nodup. constructor.
  - intros before r after prefix f Hr Hp Hs Hafter.
    rewrite Hr, fold_left_app.
    apply in_map_iff. exists (f, field_result_of r f portal_json).
    split; [reflexivity|]. apply assoc_in.
    now apply (field_results_last_wins portal_json f prefix r after).
Qed.

(* ------------------------------------------------------------------ *)
(** ** The per-field view of a run *)

Lemma dict_set_fresh {A} (k : string) (v : A) (d : list (string * A)) :
  ~ In k (map fst d) -> dict_set k v d = (d ++ [(k, v)])%list.
Proof.
  induction d as [|[k0 v0] d IH]; cbn [dict_set map fst In app]; intro H;
    [reflexivity|].
  destruct (String.eqb k k0) eqn:E.
  - apply String.eqb_eq in E. subst. elim H. now left.
  - rewrite IH; [reflexivity|]. intro Hin. apply H. now right.
Qed.

Lemma portal_result_step portal_json f cfg r by_field :
  _validate_portal_field f cfg portal_json = Ok (Some r) ->
  field_results_step portal_json by_field r
  = dict_set f (field_result_of r f portal_json) by_field
  /\ is_portal_result r = true.
Proof.
  intro H. destruct (portal_field_rule_id _ _ _ _ H) as [prefix [Hpre Hid]].
  destruct (split_portal_rule_id prefix f Hpre) as [Hs Hw].
  unfold field_results_step, is_portal_result. rewrite Hid, Hs, Hw. auto.
Qed.

Lemma portal_results_fold portal_json fields :
  forall rs by_field,
    portal_checks fields portal_json = Ok rs ->
    NoDup (map fst fields) ->
    (forall k, In k (map fst by_field) -> ~ In k (map fst fields)) ->
    fold_left (field_results_step portal_json) rs by_field
    = (by_field
         ++ map (fun fr => (field_name fr, fr)) (portal_entries fields portal_json))%list
    /\ filter is_portal_result rs = rs.
Proof.
  induction fields as [|[f cfg] rest IH]; cbn [portal_checks];
    intros rs by_field H Hnd Hfresh.
  - injection H as <-. cbn. now rewrite app_nil_r.
  - destruct (_validate_portal_field f cfg portal_json) as [res|e] eqn:V;
      cbn [bind] in H; [|discriminate].
    destruct (portal_checks rest portal_json) as [more|e] eqn:M; cbn [bind] in H;
      [|discriminate].
    injection H as <-. cbn [map fst] in Hnd. inversion Hnd as [|? ? Hf Hnd']. subst.
    unfold portal_entries. cbn [flat_map fst snd]. rewrite V.
    fold (portal_entries rest portal_json).
    destruct res as [r|].
    + destruct (portal_result_step portal_json f cfg r by_field V) as [S P].
      cbn [fold_left filter]. rewrite S, P.
      rewrite dict_set_fresh
        by (intro Hin; apply (Hfresh f Hin); now left).
      destruct (IH more (by_field ++ [(f, field_result_of r f portal_json)])%list
                  eq_refl Hnd') as [F1 F2].
      { intros k Hin. rewrite map_app in Hin. apply in_app_or in Hin.
        destruct Hin as [Hin|[<-|[]]]; [|exact Hf].
        intro Hr. apply (Hfresh k Hin). now right. }
      rewrite F1, F2. split; [|reflexivity].
      rewrite map_app. cbn [map]. rewrite field_result_of_name, <- app_assoc.
      reflexivity.
    + cbn [app]. apply (IH more by_field eq_refl Hnd').
      intros k Hin Hr. apply (Hfresh k Hin). now right.
Qed.

Lemma cross_results_not_portal rules portal_json docs_by_type :
  (forall rule, In rule rules -> startswith "PORTAL_FIELD_" (id rule) = false) ->
  filter is_portal_result (cross_checks rules portal_json docs_by_type) = [].
Proof.
  intro H. induction rules as [|rule rules IH]; [reflexivity|].
  cbn [cross_checks map filter]. unfold is_portal_result at 1.
  destruct (apply_rule_result rule portal_json docs_by_type)
    as [st [msg [ctx [-> _]]]].
  cbn [result_of rule_id]. rewrite (H rule (or_introl eq_refl)).
  apply IH. intros r Hr. apply H. now right.
Qed.

Lemma supplier_results
  (config : ValidationConfig) (supplier : string) (portal_fields : PyDict)
  (response : SupplierValidationResponse) :
  validate_portal_fields_for_supplier config supplier portal_fields = Ok response ->
  NoDup (map fst (portal_field_validations config)) ->
  (forall rule, In rule (cross_source_rules config) ->
                startswith "PORTAL_FIELD_" (id rule) = false) ->
  supplier_id response = supplier
  /\ sv_results response
     = portal_entries (portal_field_validations config) portal_fields.
Proof.
  unfold validate_portal_fields_for_supplier. intros H Hnd Hids.
  destruct (validate config portal_fields []) as [report|e] eqn:V;
    cbn [bind] in H; [|discriminate].
  injection H as <-. cbn [supplier_id sv_results]. split; [reflexivity|].
  destruct (validate_report _ _ _ _ V) as [pr [Hp [Hr _]]].
  unfold portal_report_to_field_results.
  rewrite <- field_results_filter, Hr, filter_app.
  rewrite (cross_results_not_portal _ _ _ Hids), app_nil_r.
  destruct (portal_results_fold portal_fields _ pr [] Hp Hnd) as [F1 F2];
    [intros k []|].
  rewrite F2, F1, app_nil_l, map_map. cbn [snd]. apply map_id.
Qed.




(** X16. The response of [validate_portal_fields_for_supplier], for a
    configuration whose field names are distinct and whose cross-source
    rule ids do not start with "PORTAL_FIELD_": it bears the supplier id
    it was given, and its results are one entry for each configured field
    whose check gives a result, in the order of the configuration, each
    built from that result and bearing that field's name. *)
Theorem supplier_response
  (config : ValidationConfig) (supplier : string) (portal_fields : PyDict)
  (response : SupplierValidationResponse) :
  validate_portal_fields_for_supplier config supplier portal_fields = Ok response ->
  NoDup (map fst (portal_field_validations config)) ->
  (forall rule, In rule (cross_source_rules config) ->
                startswith "PORTAL_FIELD_" (id rule) = false) ->
  supplier_id response = supplier
  /\ sv_results response
     = portal_entries (portal_field_validations config) portal_fields.
Proof. exact (supplier_results config supplier portal_fields response). Qed.

Lemma portal_result_cases f cfg portal_json r :
  _validate_portal_field f cfg portal_json = Ok (Some r) ->
  status r = PASS
  \/ (status r = FAIL
      /\ exists prefix code, In (prefix, code) reason_codes
                             /\ rule_id r = prefix ++ "::" ++ f).
Proof.
  unfold _validate_portal_field, bind, reason_codes. intro H.
  break_in H; injection H as <-; cbn [rule_id status];
    first [ now left
          | right; split; [reflexivity|];
            first [ exists "PORTAL_FIELD_REQUIRED", "MISSING_REQUIRED";
                    split; [simpl; tauto | reflexivity]
                  | exists "PORTAL_FIELD_PATTERN", "PATTERN_MISMATCH";
                    split; [simpl; tauto | reflexivity]
                  | exists "PORTAL_FIELD_IN_SET", "INVALID_VALUE";
                    split; [simpl; tauto | reflexivity]
                  | exists "PORTAL_FIELD_MIN_LEN", "MIN_LENGTH";
                    split; [simpl; tauto | reflexivity]
                  | exists "PORTAL_FIELD_MAX_LEN", "MAX_LENGTH";
                    split; [simpl; tauto | reflexivity] ] ].
Qed.

Lemma portal_failure_code (prefix code f : string) :
  In (prefix, code) reason_codes ->
  _failure_reason_from_rule_id (prefix ++ "::" ++ f) = code.
Proof.
  unfold reason_codes.
  intros [[= <- <-]|[[= <- <-]|[[= <- <-]|[[= <- <-]|[[= <- <-]|[]]]]]];
    reflexivity.
Qed.

(** X17. In the response of [validate_portal_fields_for_supplier] (for a
    configuration as in X16), every entry belongs to a configured field;
    its value is the string form of the field's raw value, or nothing when
    the raw value is absent or [None]; it is valid exactly when the raw
    value is present and meets every configured constraint of the field,
    and then has no failure reason; when it is not valid its failure
    reason is one of the five codes of the table, never "GENERIC_FAIL". *)
Theorem supplier_field_validity
  (config : ValidationConfig) (supplier : string) (portal_fields : PyDict)
  (response : SupplierValidationResponse) :
  validate_portal_fields_for_supplier config supplier portal_fields = Ok response ->
  NoDup (map fst (portal_field_validations config)) ->
  (forall rule, In rule (cross_source_rules config) ->
                startswith "PORTAL_FIELD_" (id rule) = false) ->
  forall fr, In fr (sv_results response) ->
    exists cfg,
      In (field_name fr, cfg) (portal_field_validations config)
      /\ value fr
         = (if is_None (dict_get portal_fields (field_name fr)) then None
            else Some (str (dict_get portal_fields (field_name fr))))
      /\ (is_valid fr = true
          <-> meets_constraints cfg (dict_get portal_fields (field_name fr)))
      /\ (is_valid fr = true -> failure_reason fr = None)
      /\ (is_valid fr = false ->
          exists prefix code, In (prefix, code) reason_codes
                              /\ failure_reason fr = Some code).
Proof.
  intros H Hnd Hids fr Hin.
  destruct (supplier_results _ _ _ _ H Hnd Hids) as [_ R]. rewrite R in Hin.
  unfold portal_entries in Hin. apply in_flat_map in Hin.
  destruct Hin as [[f cfg] [Hf Hin]]. cbn [fst snd] in Hin.
  destruct (_validate_portal_field f cfg portal_fields) as [[r|]|e] eqn:V;
    try destruct Hin.
  2: destruct H0.
  subst fr. rewrite field_result_of_name. exists cfg. split; [exact Hf|].
  pose proof (portal_pass_iff f cfg portal_fields r V) as PI.
  unfold field_result_of.
  destruct (status_eqb (status r) PASS) eqn:E; cbn [value is_valid failure_reason].
  - apply status_eqb_eq in E. split; [reflexivity|]. split.
    + split; [intros _; now apply PI | reflexivity].
    + split; [reflexivity | discriminate].
  - assert (NP : status r <> PASS)
      by (intro X; apply status_eqb_eq in X; congruence).
    split; [reflexivity|]. split.
    + split; [discriminate|]. intro M. apply PI in M. contradiction.
    + split; [discriminate|]. intros _.
      destruct (portal_result_cases f cfg portal_fields r V)
        as [P|[_ [prefix [code [Hc Hid]]]]]; [contradiction|].
      exists prefix, code. split; [exact Hc|].
      now rewrite Hid, (portal_failure_code prefix code f Hc).
Qed.

(* ------------------------------------------------------------------ *)
(** ** The endpoint and the writer *)

Section StorageFacts.

Variable BQ_PROJECT : option string.
Variable BQ_DATASET : string.
Variable BQ_TABLE : string.
Variable insert_rows_json : string -> list Row -> string + list PyVal.
Variable now_iso : string.

Lemma write_done (supplier : string) (entries : list FieldValidationResult) :
  write_portal_field_results BQ_PROJECT BQ_DATASET BQ_TABLE insert_rows_json
    now_iso supplier entries = Done
  <-> exists project,
        BQ_PROJECT = Some project /\ project <> ""
        /\ insert_rows_json (project ++ "." ++ BQ_DATASET ++ "." ++ BQ_TABLE)
             (map (row_of supplier now_iso) entries) = inr [].
Proof.
  unfold write_portal_field_results, get_bq_client.
  fold (row_of supplier now_iso).
  change (map (fun r => {| row_supplier_id := supplier;
                           row_field_name := field_name r;
                           row_field_value := value r;
                           row_is_valid := is_valid r;
                           row_failure_reason := failure_reason r;
                           row_created_at := now_iso |}) entries)
    with (map (row_of supplier now_iso) entries).
  destruct (str_truthy BQ_PROJECT) eqn:T; cbn [negb].
  - apply str_truthy_some in T. destruct T as [project [-> Hne]].
    destruct (insert_rows_json _ _) as [msg|[|e errors]] eqn:I.
    + split; [discriminate|]. intros [p [[= <-] [_ J]]]. congruence.
    + split; [|reflexivity]. intros _. exists project. auto.
    + split; [discriminate|]. intros [p [[= <-] [_ J]]]. congruence.
  - split; [discriminate|]. intros [p [-> [Hne _]]].
    assert (C : str_truthy (Some p) = true) by (apply str_truthy_some; eauto).
    congruence.
Qed.

(** X18. The handler of [/validate-portal-fields] returns a response only
    when the validation returned it and the writer inserted one row per
    entry of the response, in order, without error, into the table
    "<project>.<dataset>.<table>".  An exception of the validation is not
    caught; any failure of the writer gives the status 500 with a detail
    that starts with "BigQuery insert failed: "; and without a project in
    the environment no request gets a response, although the validation
    succeeded. *)
Theorem endpoint_outcome (config : ValidationConfig) (payload : SupplierPayload) :
  (forall body,
      validate_portal_fields BQ_PROJECT BQ_DATASET BQ_TABLE insert_rows_json
        now_iso config payload = Response body
      <-> validate_portal_fields_for_supplier config
            (payload_supplier_id payload) (payload_fields payload) = Ok body
          /\ exists project,
               BQ_PROJECT = Some project /\ project <> ""
               /\ insert_rows_json
                    (project ++ "." ++ BQ_DATASET ++ "." ++ BQ_TABLE)
                    (map (row_of (payload_supplier_id payload) now_iso)
                         (sv_results body)) = inr [])
  /\ (forall exc,
        validate_portal_fields_for_supplier config
          (payload_supplier_id payload) (payload_fields payload) = Raise exc ->
        validate_portal_fields BQ_PROJECT BQ_DATASET BQ_TABLE insert_rows_json
          now_iso config payload = Unhandled exc)
  /\ (forall body msg,
        validate_portal_fields_for_supplier config
          (payload_supplier_id payload) (payload_fields payload) = Ok body ->
        write_portal_field_results BQ_PROJECT BQ_DATASET BQ_TABLE
          insert_rows_json now_iso (payload_supplier_id payload)
          (sv_results body) = Raised msg ->
        validate_portal_fields BQ_PROJECT BQ_DATASET BQ_TABLE insert_rows_json
          now_iso config payload
        = HTTPException 500 ("BigQuery insert failed: " ++ msg))
  /\ (forall body,
        validate_portal_fields_for_supplier config
          (payload_supplier_id payload) (payload_fields payload) = Ok body ->
        str_truthy BQ_PROJECT = false ->
        validate_portal_fields BQ_PROJECT BQ_DATASET BQ_TABLE insert_rows_json
          now_iso config payload
        = HTTPException 500
            "BigQuery insert failed: BQ_PROJECT env variable must be set").
Proof.
  unfold validate_portal_fields.
  split; [|split; [|split]].
  - intro body.
    destruct (validate_portal_fields_for_supplier config _ _) as [resp|e] eqn:V.
    + destruct (write_portal_field_results _ _ _ _ _ _ (sv_results resp))
        as [|msg] eqn:W.
      * apply write_done in W. split.
        -- intros [= <-]. auto.
        -- intros [[= <-] _]. reflexivity.
      * split; [discriminate|]. intros [[= <-] D].
        apply write_done in D. congruence.
    + split; [discriminate|]. intros [X _]. discriminate.
  - intros exc ->. reflexivity.
  - intros body msg -> ->. reflexivity.
  - intros body -> T. unfold write_portal_field_results, get_bq_client.
    now rewrite T.
Qed.

End StorageFacts.

(* ------------------------------------------------------------------ *)
(** ** The helpers *)

Section HelperFacts.

Variable json_loads : string -> option PyVal.

Lemma loads_dict_is_dict (s : string) (obj : PyVal) :
  loads_dict json_loads s = Some obj -> exists d, obj = VDict d.
Proof.
  unfold loads_dict. destruct (json_loads s) as [[]|]; try discriminate.
  intros [= <-]. eauto.
Qed.

Lemma parse_response_is_dict (raw : PyDict) :
  exists fields, parse_response_json json_loads raw = VDict fields.
Proof.
  unfold parse_response_json.
  destruct (match assoc "response" raw with Some v => v | None => VStr "" end)
    as [|b|n|f|s|l|d]; eauto.
  destruct (loads_dict json_loads (strip s)) as [obj|] eqn:L.
  - eapply loads_dict_is_dict; eauto.
  - set (pick := fun snippet => match loads_dict json_loads snippet with
                                | Some obj => [obj]
                                | None => []
                                end).
    assert (A : forall x, In x (flat_map pick (brace_snippets (strip s))) ->
                          exists d, x = VDict d).
    { intros x Hin. apply in_flat_map in Hin. destruct Hin as [sn [_ Hin]].
      unfold pick in Hin. destruct (loads_dict json_loads sn) as [obj|] eqn:E;
        [|destruct Hin].
      destruct Hin as [<-|[]]. eapply loads_dict_is_dict; eauto. }
    destruct (flat_map pick (brace_snippets (strip s))) as [|c cs] eqn:C; eauto.
    apply A. rewrite <- C.
    assert (N : (c :: cs) <> []) by discriminate. rewrite <- C in N.
    destruct (exists_last N) as [front [x E]]. rewrite E.
    rewrite last_last. apply in_or_app. right. now left.
Qed.

(** X19. A document built by [convert_simple_doc] can always be read by the
    engine: whatever the raw extraction holds (a response that is a
    mapping, a JSON text, a text with JSON in it, or anything else), the
    [fields] of the document are a mapping, so a doc-source reference to
    it resolves without error to the field's value in the parsed response
    (no value when the field is not there); the keys [doc_type] and
    [page_count] of the document itself are not seen as fields. *)
Theorem converted_doc_resolves
  (raw_json : PyDict) (kind : string) (ref : FieldRef) (dt : string)
  (portal_json docs_by_type : PyDict) :
  source ref = "doc" ->
  doc_type ref = Some dt -> dt <> "" ->
  assoc dt docs_by_type = Some (convert_simple_doc json_loads raw_json kind) ->
  exists fields,
    parse_response_json json_loads raw_json = VDict fields
    /\ _resolve_field ref portal_json docs_by_type
       = Ok (dict_get fields (field ref), dt ++ "." ++ field ref).
Proof.
  intros Hs Hdt Hne Hdoc.
  destruct (parse_response_is_dict raw_json) as [fields F].
  exists fields. split; [exact F|].
  assert (T : negb (str_truthy (Some dt)) = false).
  { apply negb_false_iff, str_truthy_some. eauto. }
  unfold _resolve_field, document. rewrite Hs, Hdt, T, Hdoc.
  unfold convert_simple_doc. rewrite F. reflexivity.
Qed.


End HelperFacts.

(* ------------------------------------------------------------------ *)
(** ** The CR number of a portal document *)

Lemma first_cr_in_some (d : PyDict) (keys : list string) (cr : string) :
  first_cr_in d keys = Some cr ->
  exists key v, In key keys /\ assoc key d = Some v /\ truthy v = true
                /\ cr = strip (str v).
Proof.
  induction keys as [|key keys IH]; cbn [first_cr_in]; [discriminate|].
  destruct (assoc key d) as [v|] eqn:A.
  - destruct (truthy v) eqn:T.
    + intros [= <-]. exists key, v. repeat split; auto. now left.
    + intro H. destruct (IH H) as [k [w [Hin R]]]. exists k, w. split; auto.
      now right.
  - intro H. destruct (IH H) as [k [w [Hin R]]]. exists k, w. split; auto.
    now right.
Qed.

Lemma first_cr_in_none (d : PyDict) (keys : list string) :
  first_cr_in d keys = None <->
  forall key v, In key keys -> assoc key d = Some v -> truthy v = false.
Proof.
  induction keys as [|key keys IH]; cbn [first_cr_in].
  - split; [intros _ k v [] | reflexivity].
  - destruct (assoc key d) as [v|] eqn:A.
    + destruct (truthy v) eqn:T.
      * split; [discriminate|]. intro H.
        specialize (H key v (or_introl eq_refl) A). congruence.
      * rewrite IH. split.
        -- intros H k w [<-|Hin] Hk; [congruence | eauto].
        -- intros H k w Hin. apply H. now right.
    + rewrite IH. split.
      * intros H k w [<-|Hin] Hk; [congruence | eauto].
      * intros H k w Hin. apply H. now right.
Qed.

Lemma lstrip_no_lead (s : string) :
  match lstrip s with
  | String c _ => is_space c = false
  | EmptyString => True
  end.
Proof.
  induction s as [|c s IH]; simpl; [exact I|].
  destruct (is_space c) eqn:E; [exact IH | exact E].
Qed.

Lemma rstrip_rstrip (s : string) : rstrip (rstrip s) = rstrip s.
Proof.
  induction s as [|c s IH]; simpl; [reflexivity|].
  destruct (rstrip s) as [|c' s'] eqn:R.
  - destruct (is_space c) eqn:E; simpl; [reflexivity | now rewrite E].
  - simpl in IH |- *. now rewrite IH.
Qed.

Lemma strip_strip (s : string) : strip (strip s) = strip s.
Proof.
  unfold strip. pose proof (lstrip_no_lead s) as L.
  destruct (lstrip s) as [|c t] eqn:E; [reflexivity|].
  assert (H : lstrip (rstrip (String c t)) = rstrip (String c t)).
  { simpl. destruct (rstrip t); rewrite ?L; simpl; now rewrite L. }
  rewrite H. apply rstrip_rstrip.
Qed.

(** X21. The module defines [extract_cr_from_portal] twice.  The second
    definition, which is the one in force, finds every CR number that the
    first one finds, and the same one. *)
Theorem extract_cr_redefinition (portal_json : PyDict) (cr : string) :
  extract_cr_from_portal_first portal_json = Some cr ->
  extract_cr_from_portal portal_json = Some cr.
Proof.
  unfold extract_cr_from_portal_first, extract_cr_from_portal.
  destruct (first_cr_in portal_json candidate_keys) as [c|]; [auto|].
  unfold py_or. cbn [first_cr_in_sections].
  destruct (truthy (dict_get portal_json "basic_info")) eqn:T.
  - destruct (dict_get portal_json "basic_info"); try discriminate.
    now intros ->.
  - destruct (dict_get portal_json "basic_info") as [|b|n|f|s|l|d] eqn:B;
      try (destruct (dict_get portal_json "basicInfo"); try discriminate;
           now intros ->).
    destruct d as [|kv d]; [|discriminate T].
    change (first_cr_in [] candidate_keys) with (@None string).
    destruct (dict_get portal_json "basicInfo"); try discriminate.
    now intros ->.
Qed.

(** X22. What [extract_cr_from_portal] returns is the stripped string form
    of a truthy value found under one of the candidate keys, at the top
    level of the portal document or in one of its sections "basic_info",
    "basicInfo", "Basic Information" that is a mapping; it bears no white
    space at either end; and nothing is returned exactly when no candidate
    key holds a truthy value in any of these places.  A top-level value
    goes before any value of a section. *)
Theorem extract_cr_result (portal_json : PyDict) :
  (forall cr,
      extract_cr_from_portal portal_json = Some cr ->
      strip cr = cr
      /\ exists key v,
          In key candidate_keys /\ truthy v = true /\ cr = strip (str v)
          /\ (assoc key portal_json = Some v
              \/ exists container section,
                  In container ["basic_info"; "basicInfo"; "Basic Information"]
                  /\ dict_get portal_json container = VDict section
                  /\ assoc key section = Some v))
  /\ (extract_cr_from_portal portal_json = None
      <-> (forall key v, In key candidate_keys ->
                         assoc key portal_json = Some v -> truthy v = false)
          /\ (forall container section key v,
                In container ["basic_info"; "basicInfo"; "Basic Information"] ->
                dict_get portal_json container = VDict section ->
                In key candidate_keys ->
                assoc key section = Some v -> truthy v = false))
  /\ (forall cr,
        first_cr_in portal_json candidate_keys = Some cr ->
        extract_cr_from_portal portal_json = Some cr).
Proof.
  assert (S : forall containers cr,
             first_cr_in_sections portal_json containers = Some cr ->
             exists container section,
               In container containers
               /\ dict_get portal_json container = VDict section
               /\ first_cr_in section candidate_keys = Some cr).
  { induction containers as [|c cs IH]; cbn [first_cr_in_sections];
      [discriminate|].
    intros cr H.
    destruct (dict_get portal_json c) as [|b|n|f|s|l|d] eqn:D;
      try (destruct (IH cr H) as [c' [sec [Hin R]]]; exists c', sec;
           split; [now right | exact R]).
    destruct (first_cr_in d candidate_keys) as [cr'|] eqn:F.
    - injection H as <-. exists c, d. repeat split; auto. now left.
    - destruct (IH cr H) as [c' [sec [Hin R]]]. exists c', sec.
      split; [now right | exact R]. }
  assert (N : forall containers,
             first_cr_in_sections portal_json containers = None <->
             forall container section,
               In container containers ->
               dict_get portal_json container = VDict section ->
               first_cr_in section candidate_keys = None).
  { induction containers as [|c cs IH]; cbn [first_cr_in_sections].
    - split; [intros _ c s [] | reflexivity].
    - destruct (dict_get portal_json c) as [|b|n|f|s|l|d] eqn:D;
        try (rewrite IH; split;
             [ intros H c' sec [<-|Hin] Hd; [congruence | eauto]
             | intros H c' sec Hin; apply H; now right ]).
      destruct (first_cr_in d candidate_keys) as [cr'|] eqn:F.
      + split; [discriminate|]. intro H.
        specialize (H c d (or_introl eq_refl) D). congruence.
      + rewrite IH. split.
        * intros H c' sec [<-|Hin] Hd; [congruence | eauto].
        * intros H c' sec Hin. apply H. now right. }
  unfold extract_cr_from_portal. split; [|split].
  - intros cr H.
    destruct (first_cr_in portal_json candidate_keys) as [c|] eqn:F.
    + injection H as ->.
      destruct (first_cr_in_some _ _ _ F) as [key [v [Hin [A [T E]]]]].
      split; [rewrite E; apply strip_strip|]. exists key, v. auto.
    + destruct (S _ _ H) as [c [sec [Hin [D F']]]].
      destruct (first_cr_in_some _ _ _ F') as [key [v [Hk [A [T E]]]]].
      split; [rewrite E; apply strip_strip|]. exists key, v.
      repeat split; auto. right. exists c, sec. auto.
  - destruct (first_cr_in portal_json candidate_keys) as [c|] eqn:F.
    + split; [discriminate|]. intros [H _].
      pose proof (proj2 (first_cr_in_none portal_json candidate_keys) H) as C.
      congruence.
    + rewrite N.
      pose proof (proj1 (first_cr_in_none portal_json candidate_keys) F) as F'.
      split.
      * intro H. split; [exact F'|]. intros c sec key v Hc Hd.
        apply (proj1 (first_cr_in_none sec candidate_keys)). eauto.
      * intros [_ H] c sec Hc Hd.
        apply (proj2 (first_cr_in_none sec candidate_keys)). eauto.
  - intros cr ->. reflexivity.
Qed.

(* ------------------------------------------------------------------ *)
(** ** Bounds that no document can meet *)

(** X23. A date rule with a negative year delta never passes: whatever the
    portal document and the documents hold, the dispatcher returns a FAIL
    (the distance between two years is never negative). *)
Theorem negative_year_delta_never_passes
  (rule : CrossSourceRule) (n : Z) (portal_json docs_by_type : PyDict) :
  rule_type rule = "date_within_year" ->
  year_delta rule = Some n -> n < 0 ->
  status (_apply_rule rule portal_json docs_by_type) = FAIL.
Proof.
  intros T Hd Hn. unfold _apply_rule.
  rewrite (proj1 (proj2 (proj2 (proj2 (dispatch_of_type rule portal_json
                                         docs_by_type)))) T).
  destruct (_rule_date_within_year rule portal_json docs_by_type) as [r|e] eqn:E;
    [|reflexivity].
  unfold _rule_date_within_year, bind in E. rewrite Hd in E.
  assert (D : int_or (Some n) 0 = n).
  { unfold int_or. destruct (n =? 0) eqn:Z0; [|reflexivity].
    apply Z.eqb_eq in Z0. lia. }
  rewrite D in E.
  break_in E; injection E as <-; try reflexivity.
  match goal with
  | H : (Z.abs _ <=? n) = true |- _ => apply Z.leb_le in H; lia
  end.
Qed.

End Engine.

(* ================================================================== *)
(** * The theorems at concrete inputs *)
(* ================================================================== *)

(** The engine below runs with the literal pattern matcher, on documents
    without floats, in the year 2025. *)

(** C1 on the example configuration: the run has a FAIL result, and the
    summary is FAIL. *)
Lemma summary_status_aggregation_witness :
  exists report,
    validate literal_re_match no_float_str Scenario.now_2025
      Scenario.config Scenario.cr_portal Scenario.cr_docs = Ok report
    /\ summary_status report = FAIL
    /\ exists r, In r (results report) /\ status r = FAIL.
Proof.
  eexists. split; [reflexivity|]. split; [reflexivity|].
  apply (proj1 (proj1 (summary_status_aggregation literal_re_match no_float_str
                         Scenario.now_2025 Scenario.config Scenario.cr_portal
                         Scenario.cr_docs _ eq_refl))).
  reflexivity.
Defined.

(** C2 on a rule without payload: one result, a FAIL that carries the
    (empty) message of the failed assertion. *)
Lemma dispatcher_never_raises_witness :
  malformed_payload (Scenario.bare_rule "X" "in_set") = true
  /\ status (_apply_rule literal_re_match no_float_str Scenario.now_2025
               (Scenario.bare_rule "X" "in_set") [] []) = FAIL.
Proof.
  split; [reflexivity|].
  apply (proj1 (proj2 (proj2 (dispatcher_never_raises literal_re_match
                                no_float_str Scenario.now_2025
                                (Scenario.bare_rule "X" "in_set") [] [])))).
  reflexivity.
Defined.

(** C3 on scenario B: the value fails the pattern, the first check after
    presence. *)
Lemma portal_field_precedence_witness :
  exists res,
    _validate_portal_field literal_re_match no_float_str "email"
      Scenario.email_cfg [("email", VStr "not-an-email")] = Ok res
    /\ outcome_matches "email" (Fails "PORTAL_FIELD_PATTERN") res.
Proof.
  refine (proj1 (portal_field_precedence literal_re_match no_float_str "email"
                   Scenario.email_cfg [("email", VStr "not-an-email")] false _)).
  intros p Hp _ _. injection Hp as <-. reflexivity.
Defined.


(** C5 on scenario D: "123" and " 123 " are equal once stripped. *)
Lemma equality_rule_witness :
  exists res,
    _rule_equality no_float_str Scenario.cr_rule Scenario.cr_portal
      Scenario.cr_docs = Ok res
    /\ status res = PASS
    /\ context res = [("left", "123"); ("right", " 123 ")].
Proof.
  destruct (equality_rule literal_re_match no_float_str Scenario.now_2025
              Scenario.cr_rule (Scenario.portal_ref "cr_number")
              (Scenario.doc_ref "moc_certificate" "cr_number")
              Scenario.cr_portal Scenario.cr_docs
              (VStr "123") (VStr " 123 ")
              "portal.cr_number" "moc_certificate.cr_number"
              eq_refl eq_refl eq_refl eq_refl)
    as [res [E [_ [_ [_ H]]]]].
  exists res. split; [exact E|].
  destruct H as [[_ H1] [_ H3]]; try discriminate.
  split; [apply H1; reflexivity | exact H3].
Defined.

(** C6 on scenario F: a date of 2020, a delta of one year, in 2025. *)
Lemma date_within_year_rule_witness :
  exists res,
    _rule_date_within_year no_float_str Scenario.now_2025 Scenario.date_rule
      [("issued", VStr "2020-01-01")] [] = Ok res
    /\ status res = FAIL.
Proof.
  destruct (proj2 (date_within_year_rule literal_re_match no_float_str
                     Scenario.now_2025 Scenario.date_rule
                     (Scenario.portal_ref "issued")
                     [("issued", VStr "2020-01-01")] []
                     (VStr "2020-01-01") "portal.issued" eq_refl eq_refl))
    as [res [E [_ [_ H]]]].
  exists res. split; [exact E|].
  destruct (H eq_refl) as [_ P].
  apply (proj2 (P (mkDate 2020 1 1)
                  (ex_intro _ 0%nat
                     (ex_intro _ [Dir dir_Y; Lit "-"; Dir dir_m; Lit "-"; Dir dir_d]
                        (conj eq_refl
                           (conj eq_refl
                              (fun j fmt' (Hj : (j < 0)%nat) _ =>
                                 match Nat.nlt_0_r j Hj with end))))))).
  reflexivity.
Defined.

(** C7 on an optional field that the portal document lacks. *)
Lemma presence_check_witness :
  assoc "tier" Scenario.cr_portal = None
  /\ _validate_portal_field literal_re_match no_float_str "tier"
       Scenario.tier_cfg Scenario.cr_portal = Ok None.
Proof.
  split; [reflexivity|].
  apply (proj1 (presence_check literal_re_match no_float_str "tier"
                  Scenario.tier_cfg Scenario.cr_portal (or_introl eq_refl))).
  reflexivity.
Defined.

(** C8 on the example configuration. *)
Lemma no_warning_status_witness :
  exists report,
    validate literal_re_match no_float_str Scenario.now_2025
      Scenario.config Scenario.cr_portal Scenario.cr_docs = Ok report
    /\ (forall r, In r (results report) -> status r <> WARNING)
    /\ (summary_status report = PASS \/ summary_status report = FAIL).
Proof.
  eexists. split; [reflexivity|].
  exact (no_warning_status literal_re_match no_float_str Scenario.now_2025
           Scenario.config Scenario.cr_portal Scenario.cr_docs _ eq_refl).
Defined.


(** C10 on two flags expected false, with no NDA among the
    documents. *)
Lemma flags_match_absent_document_witness :
  status (_apply_rule literal_re_match no_float_str Scenario.now_2025
            (Scenario.flags_rule
               [ {| flag_field := "has_signature"; expected := false |};
                 {| flag_field := "has_stamp"; expected := false |} ])
            [] []) = PASS.
Proof.
  refine (proj2 (proj2 (proj2
            (flags_match_absent_document literal_re_match no_float_str
               Scenario.now_2025
               (Scenario.flags_rule
                  [ {| flag_field := "has_signature"; expected := false |};
                    {| flag_field := "has_stamp"; expected := false |} ])
               (Scenario.doc_ref "nda" "flags") "nda"
               [ {| flag_field := "has_signature"; expected := false |};
                 {| flag_field := "has_stamp"; expected := false |} ]
               [] [] eq_refl eq_refl _ eq_refl _ _ eq_refl))) eq_refl);
    try discriminate.
  intros f [<-|[<-|[]]]; reflexivity.
Defined.



(** ** The scenarios of the specification (section 8) *)

(** Scenario A: a required field that the portal document lacks. *)
Example scenario_A :
  _validate_portal_field literal_re_match no_float_str "email" Scenario.email_cfg []
  = Ok (Some {| rule_id := "PORTAL_FIELD_REQUIRED::email";
                rr_description := "email is required";
                rr_severity := error; status := FAIL;
                message := "Field 'email' is missing or empty.";
                context := [] |}).
Proof. reflexivity. Qed.

(** Scenario C: a value that passes every configured check. *)
Example scenario_C :
  _validate_portal_field literal_re_match no_float_str "email" Scenario.email_cfg
    [("email", VStr "a@b.com")]
  = Ok (Some {| rule_id := "PORTAL_FIELD_OK::email";
                rr_description := "email basic validation";
                rr_severity := warning; status := PASS;
                message := "Field 'email' passed basic validation.";
                context := [] |}).
Proof. reflexivity. Qed.

(** Scenario E, second half: an empty document has 0 pages. *)
Example scenario_E_empty :
  _apply_rule literal_re_match no_float_str Scenario.now_2025
    Scenario.pages_rule [] [("nda", VDict [])]
  = result_of Scenario.pages_rule FAIL
      "nda has 0 pages (expected between 1 and 5)" [].
Proof. reflexivity. Qed.

(** A page count that is not a number: the cast raises, the dispatcher
    returns a FAIL with the message of the exception. *)
Example unparseable_page_count :
  _apply_rule literal_re_match no_float_str Scenario.now_2025
    Scenario.pages_rule [] [("nda", VDict [("page_count", VStr "many")])]
  = result_of Scenario.pages_rule FAIL
      "Exception while applying rule: invalid literal for int() with base 10: 'many'"
      [].
Proof. reflexivity. Qed.

(** A page count followed by the separator FS (0x1C): [str.strip] would
    remove it, [int] does not; the cast raises and the dispatcher returns
    a FAIL. *)
Example page_count_with_separator :
  strip ("3" ++ String (ascii_of_N 28) "") = "3"
  /\ _rule_page_count Scenario.pages_rule []
       [("nda", VDict [("page_count", VStr ("3" ++ String (ascii_of_N 28) ""))])]
     = Raise (ValueError
                ("invalid literal for int() with base 10: "
                   ++ str_repr ("3" ++ String (ascii_of_N 28) "")))
  /\ status (_apply_rule literal_re_match no_float_str Scenario.now_2025
               Scenario.pages_rule []
               [("nda", VDict [("page_count",
                                VStr ("3" ++ String (ascii_of_N 28) ""))])])
     = FAIL.
Proof. repeat split. Qed.

(** A doc-source reference without document type: the resolver raises,
    the dispatcher returns a FAIL with the message of the exception. *)
Example reference_without_doc_type :
  _apply_rule literal_re_match no_float_str Scenario.now_2025
    {| id := "CR_MATCH"; description := "CR number matches"; severity := error;
       rule_type := "equality";
       left := Some (Scenario.portal_ref "cr_number");
       right := Some {| source := "doc"; field := "cr_number"; doc_type := None |};
       target := None; allowed_values := None; regex := None;
       year_delta := None; min_pages := None; max_pages := None;
       flags := None |}
    Scenario.cr_portal Scenario.cr_docs
  = {| rule_id := "CR_MATCH"; rr_description := "CR number matches";
       rr_severity := error; status := FAIL;
       message := "Exception while applying rule: doc_type is required for doc source";
       context := [] |}.
Proof. reflexivity. Qed.

(** A maximum of 0 is read as no maximum ([rule.max_pages or 10**9]). *)
Example zero_maximum_is_no_maximum :
  status (_apply_rule literal_re_match no_float_str Scenario.now_2025
            {| id := "P0"; description := "no pages"; severity := error;
               rule_type := "page_count_between"; left := None; right := None;
               target := Some (Scenario.doc_ref "nda" "pages");
               allowed_values := None; regex := None; year_delta := None;
               min_pages := None; max_pages := Some 0; flags := None |}
            [] [("nda", VDict [("page_count", VInt 7)])]) = PASS.
Proof. reflexivity. Qed.


(** ** Further properties at concrete inputs *)

(** X1 on the example configuration. *)
Lemma rule_ids_traceable_witness :
  exists report,
    validate literal_re_match no_float_str Scenario.now_2025
      Scenario.config Scenario.cr_portal Scenario.cr_docs = Ok report
    /\ forall r, In r (results report) ->
         (exists f cfg prefix,
             In (f, cfg) (portal_field_validations Scenario.config)
             /\ In prefix portal_prefixes
             /\ rule_id r = prefix ++ "::" ++ f)
         \/ (exists rule,
               In rule (cross_source_rules Scenario.config)
               /\ rule_id r = id rule
               /\ rr_description r = description rule
               /\ rr_severity r = severity rule).
Proof.
  eexists. split; [reflexivity|].
  exact (rule_ids_traceable literal_re_match no_float_str Scenario.now_2025
           Scenario.config Scenario.cr_portal Scenario.cr_docs _ eq_refl).
Defined.

(** X2 with a pattern that [re.match] rejects. *)
Lemma portal_exception_aborts_run_witness :
  validate (fun _ _ => Raise (ReError "bad pattern")) no_float_str
    Scenario.now_2025 Scenario.config [("email", VStr "a@b.com")]
    Scenario.cr_docs
  = Raise (ReError "bad pattern").
Proof.
  apply (portal_exception_aborts_run (fun _ _ => Raise (ReError "bad pattern"))
           no_float_str Scenario.now_2025 Scenario.config
           [("email", VStr "a@b.com")] Scenario.cr_docs
           [] [("tier", Scenario.tier_cfg)] "email" Scenario.email_cfg
           (ReError "bad pattern") eq_refl).
  - intros f' cfg' [].
  - reflexivity.
Defined.

(** X3: the missing e-mail has an entry in the view. *)
Lemma portal_results_surface_witness :
  exists report,
    validate literal_re_match no_float_str Scenario.now_2025
      Scenario.config Scenario.cr_portal Scenario.cr_docs = Ok report
    /\ exists fr,
         In fr (portal_report_to_field_results no_float_str report
                  Scenario.cr_portal)
         /\ field_name fr = "email".
Proof.
  eexists. split; [reflexivity|].
  exact (proj2 (portal_results_surface literal_re_match no_float_str
                  Scenario.now_2025 Scenario.config Scenario.cr_portal
                  Scenario.cr_docs _ "email" Scenario.email_cfg _
                  eq_refl (or_introl eq_refl) eq_refl)).
Defined.

(** X4: the CR number of the certificate is read in its [fields]. *)
Lemma resolve_doc_field_witness :
  _resolve_field (Scenario.doc_ref "moc_certificate" "cr_number")
    Scenario.cr_portal Scenario.cr_docs
  = Ok (VStr " 123 ", "moc_certificate.cr_number").
Proof.
  refine (proj1 (proj1 (proj2 (resolve_doc_field
                                 (Scenario.doc_ref "moc_certificate" "cr_number")
                                 "moc_certificate" Scenario.cr_portal
                                 Scenario.cr_docs eq_refl eq_refl _))
                   [("fields", VDict [("cr_number", VStr " 123 ")])] eq_refl)
            [("cr_number", VStr " 123 ")] eq_refl).
  discriminate.
Defined.

(** X5: "bronze" is not an allowed tier. *)
Lemma in_set_rule_witness :
  exists res,
    _rule_in_set no_float_str Sample.tier_rule Sample.portal [] = Ok res
    /\ status res = FAIL.
Proof.
  destruct (in_set_rule literal_re_match no_float_str Scenario.now_2025
              Sample.tier_rule (Scenario.portal_ref "tier") ["gold"; "silver"]
              Sample.portal [] (VStr "bronze") "portal.tier"
              eq_refl eq_refl ltac:(discriminate) eq_refl)
    as [res [E [_ [_ H]]]].
  exists res. split; [exact E|].
  destruct H as [_ [_ F]]; [discriminate|].
  apply F. intros [H|[H|[]]]; discriminate.
Defined.

(** X6: the mail matches the (literal) pattern. *)
Lemma regex_rule_witness :
  exists res,
    _rule_regex literal_re_match no_float_str Sample.mail_rule Sample.portal []
    = Ok res
    /\ status res = PASS.
Proof.
  destruct (proj1 (regex_rule literal_re_match no_float_str Scenario.now_2025
                     Sample.mail_rule (Scenario.portal_ref "email") "a@"
                     Sample.portal [] (VStr "a@b.com") "portal.email"
                     eq_refl eq_refl ltac:(discriminate) eq_refl)
              true eq_refl)
    as [res [E [_ [P _]]]].
  exists res. split; [exact E|]. now apply P.
Defined.

(** X7: the signature is there, the stamp is not. *)
Lemma flags_match_rule_witness :
  exists res,
    _rule_flags_match (Scenario.flags_rule Sample.two_flags) [] Sample.signed_nda
    = Ok res
    /\ status res = FAIL.
Proof.
  destruct (proj2 (flags_match_rule literal_re_match no_float_str
                     Scenario.now_2025 (Scenario.flags_rule Sample.two_flags)
                     (Scenario.doc_ref "nda" "flags") "nda" Sample.two_flags
                     [] Sample.signed_nda [("has_signature", VBool true)]
                     eq_refl eq_refl ltac:(discriminate) eq_refl
                     ltac:(discriminate) eq_refl))
    as [res [E [_ [_ F]]]].
  exists res. split; [exact E|]. apply F.
  exists {| flag_field := "has_stamp"; expected := true |}.
  split; [right; now left | discriminate].
Defined.

(** X8: a rule without any payload. *)
Lemma missing_payload_message_witness :
  _apply_rule literal_re_match no_float_str Scenario.now_2025
    (Scenario.bare_rule "X" "regex") [] []
  = result_of (Scenario.bare_rule "X" "regex") FAIL
      "Exception while applying rule: " [].
Proof.
  apply (missing_payload_message literal_re_match no_float_str Scenario.now_2025
           (Scenario.bare_rule "X" "regex") [] []).
  right. right. left. split; [reflexivity | now left].
Defined.

(** X9: the example run with every severity set to warning. *)
Lemma severity_is_informational_witness :
  exists report report',
    validate literal_re_match no_float_str Scenario.now_2025
      Scenario.config Scenario.cr_portal Scenario.cr_docs = Ok report
    /\ validate literal_re_match no_float_str Scenario.now_2025
         {| portal_field_validations := portal_field_validations Scenario.config;
            cross_source_rules :=
              map (fun rule => with_severity warning rule)
                  (cross_source_rules Scenario.config) |}
         Scenario.cr_portal Scenario.cr_docs = Ok report'
    /\ summary_status report' = summary_status report
    /\ map status (results report') = map status (results report).
Proof.
  eexists.
  destruct (proj2 (severity_is_informational literal_re_match no_float_str
                     Scenario.now_2025 Scenario.config (fun _ => warning)
                     Scenario.cr_portal Scenario.cr_docs _ eq_refl))
    as [report' [V [S [St _]]]].
  exists report'. split; [reflexivity|]. auto.
Defined.

(** X10: a run whose only rule has an unknown type passes. *)
Lemma summary_pass_iff_no_fail_witness :
  exists report,
    validate literal_re_match no_float_str Scenario.now_2025
      {| portal_field_validations := [];
         cross_source_rules := [Scenario.bare_rule "X" "fuzzy"] |} [] []
    = Ok report
    /\ map status (results report) = [SKIP]
    /\ summary_status report = PASS.
Proof.
  eexists. split; [reflexivity|]. split; [reflexivity|].
  apply (proj1 (summary_pass_iff_no_fail literal_re_match no_float_str
                  Scenario.now_2025
                  {| portal_field_validations := [];
                     cross_source_rules := [Scenario.bare_rule "X" "fuzzy"] |}
                  [] [] _ eq_refl)).
  intros r [<-|[]]. now right.
Defined.

(** X11: the mail of the sample passes, so it meets the constraints. *)
Lemma portal_pass_guarantee_witness :
  exists r,
    _validate_portal_field literal_re_match no_float_str "email"
      Scenario.email_cfg Sample.portal = Ok (Some r)
    /\ status r = PASS
    /\ forall n, min_length Scenario.email_cfg = Some n -> n <= len "a@b.com".
Proof.
  eexists. split; [reflexivity|]. split; [reflexivity|].
  apply (proj1 (portal_pass_guarantee literal_re_match no_float_str "email"
                  Scenario.email_cfg Sample.portal _ eq_refl) eq_refl).
Defined.

(** X12: a date between a space and a line feed. *)
Lemma parse_date_ignores_padding_witness :
  _parse_date (" " ++ "2020-01-01" ++ String (ascii_of_N 10) EmptyString)
  = _parse_date "2020-01-01".
Proof.
  apply (parse_date_ignores_padding " " "2020-01-01"
           (String (ascii_of_N 10) EmptyString)); reflexivity.
Defined.

(** X13: scenario D, through the theorem on padding. *)
Lemma equality_ignores_padding_witness :
  _rule_equality no_float_str Scenario.cr_rule Scenario.cr_portal Scenario.cr_docs
  = Ok (result_of Scenario.cr_rule PASS
          "Values match for portal.cr_number and moc_certificate.cr_number"
          [("left", "123"); ("right", " 123 ")]).
Proof.
  refine (equality_ignores_padding no_float_str Scenario.cr_rule
            (Scenario.portal_ref "cr_number")
            (Scenario.doc_ref "moc_certificate" "cr_number")
            Scenario.cr_portal Scenario.cr_docs (VStr "123") (VStr " 123 ")
            "portal.cr_number" "moc_certificate.cr_number"
            "123" "" "" " " " "
            eq_refl eq_refl eq_refl eq_refl _ _
            eq_refl eq_refl eq_refl eq_refl eq_refl eq_refl); discriminate.
Defined.

(** X14: the padded text " 2020-01-01 " parses, so one of the formats
    parses its stripped form into that date. *)
Lemma date_formats_exclusive_witness :
  exists fmt,
    In fmt date_formats
    /\ strptime (strip " 2020-01-01 ") fmt = Some (mkDate 2020 1 1).
Proof.
  apply (proj1 (proj2 (date_formats_exclusive " 2020-01-01 ")
                  (mkDate 2020 1 1))).
  reflexivity.
Defined.

(** X15: two results for the field "name": the later one gives the entry. *)
Lemma one_entry_per_field_witness :
  map field_name
    (portal_report_to_field_results no_float_str
       {| summary_status := FAIL;
          results :=
            [ result_of (Scenario.bare_rule "PORTAL_FIELD_MIN_LEN::name" "t")
                FAIL "too short" [];
              result_of (Scenario.bare_rule "PORTAL_FIELD_OK::name" "t")
                PASS "fine" [] ] |}
       [("name", VStr "ab")])
  = ["name"]
  /\ NoDup
       (map field_name
          (portal_report_to_field_results no_float_str
             {| summary_status := FAIL;
                results :=
                  [ result_of (Scenario.bare_rule "PORTAL_FIELD_MIN_LEN::name" "t")
                      FAIL "too short" [];
                    result_of (Scenario.bare_rule "PORTAL_FIELD_OK::name" "t")
                      PASS "fine" [] ] |}
             [("name", VStr "ab")])).
Proof.
  split; [reflexivity|].
  exact (proj1 (one_entry_per_field no_float_str _ _)).
Defined.

(** X16: the response for the sample payload. *)
Lemma supplier_response_witness :
  exists response,
    validate_portal_fields_for_supplier literal_re_match no_float_str
      Scenario.now_2025 Sample.portal_only_config "S-1" Sample.portal
    = Ok response
    /\ supplier_id response = "S-1"
    /\ map field_name (sv_results response) = ["email"; "tier"]
    /\ sv_results response
       = portal_entries literal_re_match no_float_str
           (portal_field_validations Sample.portal_only_config) Sample.portal.
Proof.
  eexists. split; [reflexivity|].
  destruct (supplier_response literal_re_match no_float_str Scenario.now_2025
              Sample.portal_only_config "S-1" Sample.portal _ eq_refl)
    as [S R].
  - repeat constructor; simpl; intuition discriminate.
  - intros rule [].
  - split; [exact S|]. split; [reflexivity | exact R].
Defined.

(** X17: in that response the tier "bronze" is not valid, for the reason
    INVALID_VALUE. *)
Lemma supplier_field_validity_witness :
  exists cfg,
    In ("tier", cfg) (portal_field_validations Sample.portal_only_config)
    /\ (false = true
        <-> meets_constraints literal_re_match no_float_str cfg (VStr "bronze")).
Proof.
  pose (tier := {| field_name := "tier"; value := Some "bronze";
                   is_valid := false;
                   failure_reason := Some "INVALID_VALUE" |}).
  pose (response :=
          {| supplier_id := "S-1";
             sv_results :=
               [ {| field_name := "email"; value := Some "a@b.com";
                    is_valid := true; failure_reason := None |};
                 tier ] |}).
  assert (R : validate_portal_fields_for_supplier literal_re_match no_float_str
                Scenario.now_2025 Sample.portal_only_config "S-1" Sample.portal
              = Ok response) by (vm_compute; reflexivity).
  assert (N : NoDup (map fst (portal_field_validations
                                Sample.portal_only_config))).
  { repeat constructor; simpl; intuition discriminate. }
  assert (I : In tier (sv_results response)) by (right; left; reflexivity).
  destruct (supplier_field_validity literal_re_match no_float_str
              Scenario.now_2025 Sample.portal_only_config "S-1" Sample.portal
              response R N ltac:(intros rule []) tier I)
    as [cfg [Hin [_ [Hv _]]]].
  exists cfg. split; [exact Hin | exact Hv].
Defined.

(** X18: with a project in the environment and a writer that accepts the
    rows, the sample request gets its response. *)
Lemma endpoint_outcome_witness :
  exists body,
    validate_portal_fields literal_re_match no_float_str Scenario.now_2025
      (Some "vrm") "vrm_validation" "portal_field_validation"
      Sample.accept_rows "2025-06-01T00:00:00"
      Sample.portal_only_config Sample.payload = Response body
    /\ validate_portal_fields_for_supplier literal_re_match no_float_str
         Scenario.now_2025 Sample.portal_only_config "S-1" Sample.portal
       = Ok body.
Proof.
  eexists. split; [reflexivity|].
  exact (proj1 (proj1 (proj1 (endpoint_outcome literal_re_match no_float_str
                                Scenario.now_2025 (Some "vrm") "vrm_validation"
                                "portal_field_validation" Sample.accept_rows
                                "2025-06-01T00:00:00"
                                Sample.portal_only_config Sample.payload) _)
                 eq_refl)).
Defined.

(** X19: a field of the converted NDA. *)
Lemma converted_doc_resolves_witness :
  _resolve_field (Scenario.doc_ref "nda" "has_signature") []
    [("nda", convert_simple_doc Sample.no_json Sample.raw_nda "nda")]
  = Ok (VBool true, "nda.has_signature").
Proof.
  destruct (converted_doc_resolves Sample.no_json Sample.raw_nda "nda"
              (Scenario.doc_ref "nda" "has_signature") "nda" []
              [("nda", convert_simple_doc Sample.no_json Sample.raw_nda "nda")]
              eq_refl eq_refl ltac:(discriminate) eq_refl)
    as [fields [F R]].
  injection F as <-. exact R.
Defined.


(** X21: a CR number in the section "basicInfo". *)
Lemma extract_cr_redefinition_witness :
  extract_cr_from_portal no_float_str
    [("basicInfo", VDict [("crNumber", VStr " 1010 ")])] = Some "1010".
Proof.
  apply (extract_cr_redefinition no_float_str
           [("basicInfo", VDict [("crNumber", VStr " 1010 ")])] "1010").
  reflexivity.
Defined.

(** X22: a value of white space only gives the empty CR number. *)
Lemma extract_cr_result_witness :
  extract_cr_from_portal no_float_str [("cr_number", VStr "  ")] = Some ""
  /\ strip "" = "".
Proof.
  split; [reflexivity|].
  exact (proj1 (proj1 (extract_cr_result no_float_str [("cr_number", VStr "  ")])
                  "" eq_refl)).
Defined.

(** X23: a date of this very year fails under a delta of -1. *)
Lemma negative_year_delta_never_passes_witness :
  status (_apply_rule literal_re_match no_float_str Scenario.now_2025
            Sample.old_date_rule [("issued", VStr "2025-06-01")] []) = FAIL.
Proof.
  apply (negative_year_delta_never_passes literal_re_match no_float_str
           Scenario.now_2025 Sample.old_date_rule (-1)
           [("issued", VStr "2025-06-01")] [] eq_refl eq_refl).
  reflexivity.
Defined.
